(** * AirAware: the AQI aggregation and caching engine

    A shallow embedding of [utils/aqi_calculator.py] and of the retrieval
    layer of [utils/data_fetcher.py], with the properties of the engine
    stated and proved over it, followed by the bulk fetch of the map, the
    news cache of [utils/news_fetcher.py] and the city catalog, the search
    and two endpoints of [app.py].

    Conventions of the embedding.
    - Python numbers (JSON numbers, concentrations, clock readings) are
      exact rationals [Q]; comparisons are the boolean comparisons of [Q],
      which is what Python's comparisons of finite ints and floats compute.
      Rounding error of binary64 arithmetic is not modelled, and [Qeq]
      plays the role of Python's [==] on numbers (85 and 85.0 are [==]
      but not the same object, as [85#1] and [170#2] are [Qeq] but not
      [eq]).
    - An insertion-ordered Python dict whose iteration order matters is an
      association list with distinct keys ([PyDict]); the module-level
      cache, whose order is never observed, is a [gmap].
    - Exceptions that the modelled code can raise are values of [exn],
      carried by the [result] type.
    - The clock, the global random generator, the cache and the network
      are fields of an explicit [world] threaded through the effectful
      functions. *)

From Stdlib Require Import ZArith QArith Qround List Bool Ascii String Permutation Sorted Lia Lqa.
From stdpp Require Import gmap strings pretty.
Import ListNotations.

Open Scope string_scope.
Open Scope Z_scope.
Open Scope list_scope.

(** ** Python primitives *)

Module Py.

Inductive exn : Type :=
| ZeroDivisionError
| IndexError.

Inductive result (A : Type) : Type :=
| Ok (a : A)
| Raise (e : exn).

Arguments Ok {A} a.
Arguments Raise {A} e.

Definition bind {A B} (r : result A) (k : A -> result B) : result B :=
  match r with
  | Ok a => k a
  | Raise e => Raise e
  end.

(** [a < b] on numbers. *)
Definition Qlt_bool (a b : Q) : bool := negb (Qle_bool b a).

(** [round(x)]: nearest integer, ties to the even one. *)
Definition round (x : Q) : Z :=
  let f := Qfloor x in
  match Qcompare (x - inject_Z f) (1 # 2) with
  | Lt => f
  | Gt => f + 1
  | Eq => if Z.even f then f else f + 1
  end.

(** [int(x)]: truncation towards zero. *)
Definition int (x : Q) : Z := Z.quot (Qnum x) (Zpos (Qden x)).

(** [min(a, b)] and [max(a, b)] of two numbers: the first argument unless
    the second is strictly smaller, or strictly greater. *)
Definition min2 (a b : Q) : Q := if Qlt_bool b a then b else a.
Definition max2 (a b : Q) : Q := if Qlt_bool a b then b else a.

(** [round(x, ndigits)] for [ndigits >= 0]. *)
Definition round_to (x : Q) (ndigits : nat) : Q :=
  let scale := inject_Z (10 ^ Z.of_nat ndigits) in
  (inject_Z (round (x * scale)) / scale)%Q.

(** [max(xs, key=key)]: the first element whose key is not exceeded by
    any later one; [None] stands for the [ValueError] on an empty
    sequence, which every caller guards against. *)
Fixpoint max_from {A} (key : A -> Z) (best : A) (xs : list A) : A :=
  match xs with
  | [] => best
  | x :: rest =>
      if key best <? key x then max_from key x rest
      else max_from key best rest
  end.

Definition max_by {A} (key : A -> Z) (xs : list A) : option A :=
  match xs with
  | [] => None
  | x :: rest => Some (max_from key x rest)
  end.

(** [s.lower()] on the ASCII letters (no other character lower-cases to
    a letter of a pollutant name). *)
Definition lower_ascii (a : ascii) : ascii :=
  let n := nat_of_ascii a in
  if ((65 <=? n) && (n <=? 90))%nat then ascii_of_nat (n + 32) else a.

Fixpoint lower (s : string) : string :=
  match s with
  | EmptyString => EmptyString
  | String a rest => String (lower_ascii a) (lower rest)
  end.

End Py.

Import Py.

Declare Scope py_scope.
Notation "'let*' x ':=' r 'in' k" := (Py.bind r (fun x => k))
  (at level 10, x name, r at level 100, k at level 200) : py_scope.
Open Scope py_scope.

(** ** Insertion-ordered dicts *)

Module PyDict.

Definition dict (V : Type) : Type := list (string * V).

Fixpoint get {V} (d : dict V) (k : string) : option V :=
  match d with
  | [] => None
  | (k', v) :: rest => if String.eqb k' k then Some v else get rest k
  end.

(** [d[k] = v]: an existing key keeps its position, a new one goes last. *)
Fixpoint set {V} (d : dict V) (k : string) (v : V) : dict V :=
  match d with
  | [] => [(k, v)]
  | (k', v') :: rest =>
      if String.eqb k' k then (k', v) :: rest else (k', v') :: set rest k v
  end.

Definition keys {V} (d : dict V) : list string := map fst d.
Definition values {V} (d : dict V) : list V := map snd d.
Definition items {V} (d : dict V) : list (string * V) := d.

(** The invariant of a dict: no key occurs twice. *)
Definition wf {V} (d : dict V) : Prop := List.NoDup (keys d).

End PyDict.

Abbreviation dict := PyDict.dict.

(** ** utils/aqi_calculator.py *)

(** One entry of [data/aqi_breakpoints.json]. *)
Record breakpoint : Type := mkBreakpoint {
  low_conc : Q;
  high_conc : Q;
  low_aqi : Q;
  high_aqi : Q
}.

(** The loaded table [BREAKPOINTS] is an argument of the functions that
    read it: the JSON file is data, not code. *)
Definition breakpoint_table : Type := dict (list breakpoint).

Record category_info : Type := mkCategory {
  cat_min : Z;
  cat_max : Z;
  cat_category : string;
  cat_color : string;
  cat_description : string
}.

Definition cat_good : category_info :=
  mkCategory 0 50 "Good" "#00e400" "Minimal impact on health".
Definition cat_satisfactory : category_info :=
  mkCategory 51 100 "Satisfactory" "#ffff00"
    "Minor breathing discomfort for sensitive people".
Definition cat_moderate : category_info :=
  mkCategory 101 200 "Moderate" "#ff7e00"
    "Breathing discomfort for people with asthma and heart conditions".
Definition cat_poor : category_info :=
  mkCategory 201 300 "Poor" "#ff0000"
    "Breathing discomfort on prolonged exposure".
Definition cat_very_poor : category_info :=
  mkCategory 301 400 "Very Poor" "#99004c"
    "Respiratory illness on prolonged exposure".
Definition cat_severe : category_info :=
  mkCategory 401 500 "Severe" "#7e0023"
    "Affects healthy people, serious impact on those with existing conditions".

Definition AQI_CATEGORIES : list category_info :=
  [cat_good; cat_satisfactory; cat_moderate; cat_poor; cat_very_poor; cat_severe].

(** [bp['low_conc'] <= concentration <= bp['high_conc']] *)
Definition in_segment (bp : breakpoint) (concentration : Q) : bool :=
  Qle_bool (low_conc bp) concentration && Qle_bool concentration (high_conc bp).

(** The interpolation of the loop body; the division raises when the
    segment has no width. *)
Definition interpolate (bp : breakpoint) (concentration : Q) : result Z :=
  if Qeq_bool (high_conc bp - low_conc bp) 0 then Raise ZeroDivisionError
  else
    let sub_index :=
      (((high_aqi bp - low_aqi bp) / (high_conc bp - low_conc bp))
       * (concentration - low_conc bp) + low_aqi bp)%Q in
    Ok (Py.round sub_index).

(** The [for bp in breakpoints] loop: [Some r] when it returns from inside
    the loop, [None] when it falls through. *)
Fixpoint scan_breakpoints (breakpoints : list breakpoint) (concentration : Q)
  : option (result Z) :=
  match breakpoints with
  | [] => None
  | bp :: rest =>
      if in_segment bp concentration then Some (interpolate bp concentration)
      else scan_breakpoints rest concentration
  end.

(** [breakpoints[-1]]; [None] stands for the [IndexError] on an empty list. *)
Definition last_segment (breakpoints : list breakpoint) : option breakpoint :=
  List.last (map Some breakpoints) None.

Definition calculate_sub_index (BREAKPOINTS : breakpoint_table)
    (pollutant : string) (concentration : Q) : result Z :=
  match PyDict.get BREAKPOINTS pollutant with
  | None => Ok 0
  | Some breakpoints =>
      match scan_breakpoints breakpoints concentration with
      | Some r => r
      | None =>
          match last_segment breakpoints with
          | None => Raise IndexError
          | Some top =>
              if Qlt_bool (high_conc top) concentration then Ok 500 else Ok 0
          end
      end
  end.

(** [category["min"] <= aqi_value <= category["max"]] *)
Definition in_band (c : category_info) (aqi_value : Q) : bool :=
  Qle_bool (inject_Z (cat_min c)) aqi_value
  && Qle_bool aqi_value (inject_Z (cat_max c)).

Fixpoint scan_categories (cs : list category_info) (aqi_value : Q)
  : option category_info :=
  match cs with
  | [] => None
  | c :: rest => if in_band c aqi_value then Some c else scan_categories rest aqi_value
  end.

Definition get_category_info (aqi_value : Q) : category_info :=
  match scan_categories AQI_CATEGORIES aqi_value with
  | Some c => c
  | None =>
      if Qlt_bool 500 aqi_value then List.last AQI_CATEGORIES cat_good
      else List.hd cat_good AQI_CATEGORIES
  end.

Record aqi_result : Type := mkAqiResult {
  aqi : Z;
  category : string;
  color : string;
  description : string;
  dominant_pollutant : option string;
  sub_indices : dict Z
}.

(** [concentration is not None and concentration >= 0] *)
Definition contributes (concentration : option Q) : bool :=
  match concentration with
  | None => false
  | Some c => Qle_bool 0 c
  end.

(** The first loop of [calculate_aqi], over [pollutants.items()]. *)
Fixpoint collect_sub_indices (BREAKPOINTS : breakpoint_table)
    (items : list (string * option Q)) (sub_indices : dict Z) : result (dict Z) :=
  match items with
  | [] => Ok sub_indices
  | (pollutant, concentration) :: rest =>
      match concentration with
      | Some c =>
          if Qle_bool 0 c then
            let* s := calculate_sub_index BREAKPOINTS pollutant c in
            collect_sub_indices BREAKPOINTS rest (PyDict.set sub_indices pollutant s)
          else collect_sub_indices BREAKPOINTS rest sub_indices
      | None => collect_sub_indices BREAKPOINTS rest sub_indices
      end
  end.

Definition sub_indices_get (sub_indices : dict Z) (k : string) : Z :=
  match PyDict.get sub_indices k with
  | Some v => v
  | None => 0
  end.

Definition calculate_aqi (BREAKPOINTS : breakpoint_table)
    (pollutants : dict (option Q)) : result aqi_result :=
  let* sub_indices := collect_sub_indices BREAKPOINTS (PyDict.items pollutants) [] in
  let '(aqi_value, dominant) :=
    match sub_indices with
    | [] => (0, None)
    | _ :: _ =>
        (match Py.max_by (fun v => v) (PyDict.values sub_indices) with
         | Some v => v
         | None => 0
         end,
         Py.max_by (sub_indices_get sub_indices) (PyDict.keys sub_indices))
    end in
  let category_info := get_category_info (inject_Z aqi_value) in
  Ok {| aqi := aqi_value;
        category := cat_category category_info;
        color := cat_color category_info;
        description := cat_description category_info;
        dominant_pollutant := dominant;
        sub_indices := sub_indices |}.

(** ** utils/data_fetcher.py: the multi-station merge *)

(** One element of a station's ["measurements"] list; a missing member of
    the JSON object is [None]. *)
Record measurement : Type := mkMeasurement {
  parameter : option string;
  value : option Q
}.

(** One element of the ["results"] list of the OpenAQ answer. *)
Record station_result : Type := mkStation {
  measurements : option (list measurement)
}.

Definition no_pollutants : dict (option Q) :=
  [("pm25", None); ("pm10", None); ("no2", None);
   ("so2", None); ("co", None); ("o3", None)].

Definition param_mapping : dict string :=
  [("pm25", "pm25"); ("pm10", "pm10"); ("no2", "no2");
   ("so2", "so2"); ("co", "co"); ("o3", "o3")].

(** The body of the inner loop of [aggregate_measurements].  The lookup
    [pollutants[key]] cannot miss: every value of [param_mapping] is a key
    of [pollutants] from the start, so that branch keeps the dict. *)
Definition record_measurement (pollutants : dict (option Q)) (m : measurement)
  : dict (option Q) :=
  let param := Py.lower (match parameter m with Some p => p | None => "" end) in
  match PyDict.get param_mapping param with
  | None => pollutants
  | Some key =>
      match value m with
      | None => pollutants
      | Some v =>
          if Qle_bool 0 v then
            match PyDict.get pollutants key with
            | Some None => PyDict.set pollutants key (Some v)
            | Some (Some current) =>
                if Qlt_bool current v then PyDict.set pollutants key (Some v)
                else pollutants
            | None => pollutants
            end
          else pollutants
      end
  end.

(** [result.get("measurements", [])] *)
Definition station_measurements (result : station_result) : list measurement :=
  match measurements result with Some ms => ms | None => [] end.

Definition record_station (pollutants : dict (option Q)) (result : station_result)
  : dict (option Q) :=
  fold_left record_measurement (station_measurements result) pollutants.

Definition aggregate_measurements (results : list station_result) : dict (option Q) :=
  fold_left record_station results no_pollutants.

(** ** utils/data_fetcher.py: the cache *)

Definition CACHE_DURATION : Q := 1800.

(** [time.time()] is the argument [now]; a miss is [None]. *)
Definition get_cached_data {V} (_cache : gmap string (V * Q)) (now : Q)
    (cache_key : string) : option V :=
  match _cache !! cache_key with
  | Some (data, timestamp) =>
      if Qlt_bool (now - timestamp) CACHE_DURATION then Some data else None
  | None => None
  end.

Definition set_cache {V} (_cache : gmap string (V * Q)) (now : Q)
    (cache_key : string) (data : V) : gmap string (V * Q) :=
  <[cache_key := (data, now)]> _cache.

(** ** utils/data_fetcher.py: random numbers, weather and the host *)

(** The interface of a Python random generator, as far as the module uses
    it: [random()] returns a number in [0, 1) and the next state,
    [randint(a, b)] an integer between [a] and [b] and the next state. *)
Class PyRandom (G : Type) : Type := {
  random : G -> Q * G;
  randint : Z -> Z -> G -> Z * G
}.

(** [uniform(a, b)] is [a + (b - a) * random()]. *)
Definition uniform {G} `{PyRandom G} (a b : Q) (g : G) : Q * G :=
  let '(u, g') := random g in ((a + (b - a) * u)%Q, g').

Record forecast_slot : Type := mkSlot {
  slot_time : string;
  slot_temp : Z;
  slot_icon : string;
  slot_condition : string
}.

(** The weather dict; only the demo weather has an ["hourly_forecast"]. *)
Record weather_info : Type := mkWeather {
  temperature : Z;
  feels_like : Z;
  humidity : Q;
  wind_speed : Z;
  wind_direction : Q;
  weather_description : string;
  icon : string;
  hourly_forecast : option (list forecast_slot)
}.

(** What the module takes from its host: the environment variable, the
    text of a number in an f-string, the local calendar ([strftime_YmdH],
    [strftime_HM] and [hour_of] of a clock reading), and the run of a
    generator seeded with a given integer.  [demo_weather_of_seed seed] is
    the body of [get_demo_weather] after [rng = random.Random(seed)]; the
    hour it reads from the clock is the last two digits of the seed. *)
Class Host : Type := {
  WEATHER_API_KEY : string;
  format_number : Q -> string;
  strftime_YmdH : Q -> Z;
  strftime_HM : Q -> string;
  hour_of : Q -> Z;
  demo_weather_of_seed : Z -> weather_info
}.

(** [seed = int(now.strftime("%Y%m%d%H")); rng = random.Random(seed)] *)
Definition get_demo_weather `{Host} (now : Q) : weather_info :=
  let seed := strftime_YmdH now in
  demo_weather_of_seed seed.

(** ** utils/data_fetcher.py: the network and the world *)

Inductive request : Type :=
| LatestInCity (city : string)
| LatestNear (lat lng : Q)
| CurrentWeather (lat lng : Q).

Record main_obj : Type := mkMain {
  temp : option Q;
  main_feels_like : option Q;
  main_humidity : option Q
}.

Record wind_obj : Type := mkWind {
  speed : option Q;
  deg : option Q
}.

Record weather_entry : Type := mkEntry {
  entry_description : option string;
  entry_icon : option string
}.

(** The decoded JSON object of an answer, with the members the module
    reads; a member the object lacks is [None]. *)
Record json_body : Type := mkBody {
  results : option (list station_result);
  main : option main_obj;
  wind : option wind_obj;
  weather : option (list weather_entry)
}.

Inductive http_outcome : Type :=
| Timeout
| RequestException
| Response (status_code : Z) (json : json_body).

(** The network answers the [n]-th request of the process with an outcome
    and the seconds it took. *)
Definition network : Type := nat -> request -> http_outcome * Q.

Record world (G : Type) : Type := mkWorld {
  aq_cache : gmap string (dict (option Q) * Q);
  weather_cache : gmap string (weather_info * Q);
  clock : Q;
  rng : G;
  sent : list request
}.

Arguments mkWorld {G}.
Arguments aq_cache {G}.
Arguments weather_cache {G}.
Arguments clock {G}.
Arguments rng {G}.
Arguments sent {G}.

(** The module-level [_cache] is the two maps [aq_cache] (keys
    [openaq_...]) and [weather_cache] (keys [weather_...]) taken together:
    the prefixes keep the two kinds of entry apart. *)

Definition requests_get {G} (net : network) (r : request) (w : world G)
  : http_outcome * world G :=
  let '(outcome, elapsed) := net (List.length (sent w)) r in
  (outcome,
   mkWorld (aq_cache w) (weather_cache w) (clock w + elapsed)%Q (rng w)
           (sent w ++ [r])).

(** Truth value of an optional number: [None] and zero are false. *)
Definition truthy (x : option Q) : bool :=
  match x with
  | Some q => negb (Qeq_bool q 0)
  | None => false
  end.

Definition number_or_zero (x : option Q) : Q :=
  match x with Some q => q | None => 0%Q end.

Definition fetch_aqi_from_openaq {G} (net : network) (city : string)
    (lat lng : option Q) (w : world G) : option (dict (option Q)) * world G :=
  let cache_key := "openaq_" +:+ city in
  match get_cached_data (aq_cache w) (clock w) cache_key with
  | Some ((_ :: _) as cached) => (Some cached, w)
  | _ =>
      let params :=
        if truthy lat && truthy lng
        then LatestNear (number_or_zero lat) (number_or_zero lng)
        else LatestInCity city in
      let '(outcome, w1) := requests_get net params w in
      match outcome with
      | Response status_code data =>
          if status_code =? 200 then
            match results data with
            | Some ((_ :: _) as rs) =>
                let pollutants := aggregate_measurements rs in
                (Some pollutants,
                 mkWorld (set_cache (aq_cache w1) (clock w1) cache_key pollutants)
                         (weather_cache w1) (clock w1) (rng w1) (sent w1))
            | _ => (None, w1)
            end
          else (None, w1)
      | Timeout => (None, w1)
      | RequestException => (None, w1)
      end
  end.

(** ** utils/data_fetcher.py: the demo data *)

(** [(pm25_min, pm25_max, target_aqi_min, target_aqi_max)] per city. *)
Definition city_profiles : dict (Z * Z * Z * Z) :=
  [
   ("Delhi", (100, 220, 250, 450)); ("Ghaziabad", (110, 240, 280, 480));
   ("Noida", (95, 210, 240, 430)); ("Gurugram", (95, 200, 240, 420));
   ("Faridabad", (100, 220, 250, 450)); ("Greater Noida", (105, 230, 260, 460));
   ("Patna", (75, 140, 150, 320)); ("Lucknow", (70, 130, 140, 300));
   ("Kanpur", (72, 135, 145, 310)); ("Muzaffarpur", (78, 145, 160, 330));
   ("Varanasi", (68, 125, 135, 290)); ("Agra", (65, 120, 130, 280));
   ("Meerut", (72, 130, 145, 300)); ("Dhanbad", (70, 128, 140, 295));
   ("Jamshedpur", (65, 120, 130, 280)); ("Bhilai", (62, 115, 125, 270));
   ("Raipur", (58, 110, 115, 260)); ("Ludhiana", (75, 145, 150, 330));
   ("Amritsar", (70, 138, 140, 315)); ("Jalandhar", (65, 130, 130, 300));
   ("Patiala", (70, 135, 140, 310)); ("Chandigarh", (60, 120, 120, 280));
   ("Bathinda", (75, 142, 150, 325)); ("Prayagraj", (70, 130, 140, 300));
   ("Gorakhpur", (72, 135, 145, 310)); ("Bareilly", (70, 130, 140, 300));
   ("Aligarh", (75, 138, 150, 315)); ("Moradabad", (70, 130, 140, 300));
   ("Mumbai", (61, 88, 101, 195)); ("Kolkata", (63, 90, 105, 200));
   ("Ahmedabad", (65, 90, 108, 200)); ("Hyderabad", (58, 85, 95, 188));
   ("Surat", (60, 88, 100, 195)); ("Jaipur", (63, 90, 105, 200));
   ("Nagpur", (60, 87, 100, 192)); ("Indore", (58, 85, 95, 188));
   ("Bhopal", (60, 88, 100, 195)); ("Thane", (58, 86, 95, 190));
   ("Nashik", (55, 82, 90, 180)); ("Rajkot", (58, 85, 95, 188));
   ("Vadodara", (60, 88, 100, 195)); ("Jodhpur", (62, 89, 103, 198));
   ("Udaipur", (55, 80, 90, 175)); ("Jamnagar", (56, 82, 92, 180));
   ("Bhubaneswar", (55, 82, 90, 180)); ("Cuttack", (56, 83, 92, 182));
   ("Siliguri", (58, 85, 95, 188)); ("Durgapur", (63, 90, 105, 200));
   ("Asansol", (65, 92, 108, 205)); ("Guwahati", (55, 80, 90, 175));
   ("Agartala", (52, 78, 85, 170)); ("Chennai", (28, 65, 50, 115));
   ("Bengaluru", (30, 68, 52, 118)); ("Pune", (28, 65, 50, 115));
   ("Kochi", (18, 52, 35, 88)); ("Thiruvananthapuram", (15, 48, 30, 82));
   ("Coimbatore", (22, 58, 42, 98)); ("Mangaluru", (15, 48, 30, 82));
   ("Visakhapatnam", (22, 60, 42, 100)); ("Mysuru", (18, 54, 35, 92));
   ("Madurai", (25, 62, 45, 105)); ("Kozhikode", (14, 46, 28, 78));
   ("Panaji", (12, 42, 24, 72)); ("Margao", (12, 42, 24, 72));
   ("Shimla", (8, 28, 15, 52)); ("Manali", (6, 25, 12, 48));
   ("Dharamshala", (8, 27, 15, 50)); ("Gangtok", (6, 24, 12, 45));
   ("Shillong", (10, 30, 18, 55)); ("Aizawl", (8, 26, 15, 48));
   ("Kohima", (8, 27, 15, 50)); ("Imphal", (10, 28, 18, 52));
   ("Itanagar", (8, 27, 15, 50)); ("Port Blair", (5, 22, 10, 42));
   ("Leh", (4, 18, 8, 35)); ("Rishikesh", (12, 38, 22, 65));
   ("Haridwar", (15, 42, 28, 72)); ("Dehradun", (18, 48, 32, 82));
   ("Ooty", (5, 22, 10, 42)); ("Munnar", (4, 18, 8, 35))
  ].

Definition default_profile : Z * Z * Z * Z := (55, 82, 90, 180).

(** The six draws come from the module-level generator of [random], which
    nothing in the module seeds. *)
Definition get_demo_aqi_data {G} `{PyRandom G} (city : string) (g : G)
  : dict (option Q) * G :=
  let '(pm25_min, pm25_max, target_aqi_min, target_aqi_max) :=
    match PyDict.get city_profiles city with
    | Some profile => profile
    | None => default_profile
    end in
  let '(pm25, g1) := uniform (inject_Z pm25_min) (inject_Z pm25_max) g in
  let multiplier : Q :=
    (if Qle_bool pm25 30 then 3 # 10
     else if Qle_bool pm25 60 then 6 # 10
     else if Qle_bool pm25 90 then 1
     else if Qle_bool pm25 120 then 14 # 10
     else 18 # 10)%Q in
  let '(ratio, g2) := uniform (15 # 10) (22 # 10) g1 in
  let pm10 := (pm25 * ratio)%Q in
  let '(no2, g3) := uniform 12 60 g2 in
  let '(so2, g4) := uniform 6 35 g3 in
  let '(co, g5) := uniform (2 # 10) 2 g4 in
  let '(o3, g6) := uniform 20 80 g5 in
  ([("pm25", Some (Py.round_to pm25 1));
    ("pm10", Some (Py.round_to pm10 1));
    ("no2", Some (Py.round_to (no2 * multiplier) 1));
    ("so2", Some (Py.round_to (so2 * multiplier) 1));
    ("co", Some (Py.round_to (co * multiplier) 2));
    ("o3", Some (Py.round_to (o3 * multiplier) 1))],
   g6).

(** [(base_min, base_max)] per city. *)
Definition city_base_aqi : dict (Z * Z) :=
  [
   ("Delhi", (200, 350)); ("Ghaziabad", (220, 380)); ("Noida", (190, 340));
   ("Gurugram", (180, 320)); ("Faridabad", (200, 350)); ("Patna", (150, 280));
   ("Lucknow", (140, 260)); ("Kanpur", (145, 270)); ("Varanasi", (130, 250));
   ("Agra", (120, 240)); ("Mumbai", (80, 160)); ("Kolkata", (90, 170));
   ("Ahmedabad", (100, 180)); ("Hyderabad", (70, 150)); ("Jaipur", (90, 175));
   ("Chennai", (50, 100)); ("Bengaluru", (55, 110)); ("Pune", (50, 105));
   ("Kochi", (30, 70)); ("Thiruvananthapuram", (25, 65)); ("Shimla", (20, 50));
   ("Gangtok", (15, 45)); ("Shillong", (20, 55)); ("Port Blair", (15, 40));
   ("Leh", (10, 35))
  ].

Record history_point : Type := mkPoint {
  point_timestamp : string;
  point_aqi : Z;
  point_hour : Z
}.

(** The loop [for i in range(hours, 0, -1)] of [get_historical_data], with
    [i] hours still to generate. *)
Fixpoint historical_loop `{Host} {G} `{PyRandom G} (i : nat) (now : Q)
    (base_min base_max base_aqi : Z) (g : G) : list history_point * G :=
  match i with
  | O => ([], g)
  | S i' =>
      let timestamp := (now - 3600 * inject_Z (Z.of_nat i))%Q in
      let hour := hour_of timestamp in
      let time_factor : Q :=
        (if ((7 <=? hour) && (hour <=? 10)) || ((17 <=? hour) && (hour <=? 21))
         then 115 # 100
         else if (2 <=? hour) && (hour <=? 5) then 85 # 100
         else 1)%Q in
      let '(variation, g1) := randint (-20) 20 g in
      let aqi_value :=
        Py.int (Py.max2 10 (Py.min2 500 (inject_Z (base_aqi + variation) * time_factor)%Q)) in
      let '(drift, g2) := randint (-8) 8 g1 in
      let base_aqi' := Z.max base_min (Z.min base_max (base_aqi + drift)) in
      let '(rest, g3) := historical_loop i' now base_min base_max base_aqi' g2 in
      (mkPoint (strftime_HM timestamp) aqi_value hour :: rest, g3)
  end.

Definition get_historical_data `{Host} {G} `{PyRandom G} (city : string) (hours : nat)
    (now : Q) (g : G) : list history_point * G :=
  let '(base_min, base_max) :=
    match PyDict.get city_base_aqi city with
    | Some range => range
    | None => (60, 150)
    end in
  let '(base_aqi, g1) := randint base_min base_max g in
  historical_loop hours now base_min base_max base_aqi g1.

(** ** utils/data_fetcher.py: the weather fetch *)

Definition is_upper (a : ascii) : bool :=
  let n := nat_of_ascii a in ((65 <=? n) && (n <=? 90))%nat.

Definition is_lower (a : ascii) : bool :=
  let n := nat_of_ascii a in ((97 <=? n) && (n <=? 122))%nat.

Definition upper_ascii (a : ascii) : ascii :=
  if is_lower a then ascii_of_nat (nat_of_ascii a - 32) else a.

(** [s.title()] on the ASCII letters: a letter after a letter is lowered,
    any other letter is raised. *)
Fixpoint title_from (after_letter : bool) (s : string) : string :=
  match s with
  | EmptyString => EmptyString
  | String a rest =>
      let cased := is_upper a || is_lower a in
      let a' :=
        if cased then (if after_letter then Py.lower_ascii a else upper_ascii a)
        else a in
      String a' (title_from cased rest)
  end.

Definition title (s : string) : string := title_from false s.

(** [data.get("weather", [{}])[0]] *)
Definition first_weather_entry (data : json_body) : result weather_entry :=
  match weather data with
  | None => Ok (mkEntry None None)
  | Some [] => Raise IndexError
  | Some (entry :: _) => Ok entry
  end.

Definition main_or_empty (data : json_body) : main_obj :=
  match main data with Some m => m | None => mkMain None None None end.

Definition wind_or_empty (data : json_body) : wind_obj :=
  match wind data with Some x => x | None => mkWind None None end.

(** The dict literal built from a successful answer; its members are
    evaluated in order, so an empty ["weather"] list raises before the
    ["icon"] member is read. *)
Definition weather_of_json (data : json_body) : result weather_info :=
  let* entry := first_weather_entry data in
  Ok {| temperature := Py.round (number_or_zero (temp (main_or_empty data)));
        feels_like := Py.round (number_or_zero (main_feels_like (main_or_empty data)));
        humidity := number_or_zero (main_humidity (main_or_empty data));
        wind_speed :=
          Py.round (number_or_zero (speed (wind_or_empty data)) * (36 # 10))%Q;
        wind_direction := number_or_zero (deg (wind_or_empty data));
        weather_description :=
          title (match entry_description entry with Some d => d | None => "" end);
        icon := match entry_icon entry with Some i => i | None => "01d" end;
        hourly_forecast := None |}.

Definition fetch_weather `{Host} {G} (net : network) (lat lng : Q) (w : world G)
  : result weather_info * world G :=
  let cache_key := "weather_" +:+ format_number lat +:+ "_" +:+ format_number lng in
  match get_cached_data (weather_cache w) (clock w) cache_key with
  | Some cached => (Ok cached, w) (* a weather dict is never empty *)
  | None =>
      if String.eqb WEATHER_API_KEY "" then (Ok (get_demo_weather (clock w)), w)
      else
        let '(outcome, w1) := requests_get net (CurrentWeather lat lng) w in
        match outcome with
        | Response status_code data =>
            if status_code =? 200 then
              match weather_of_json data with
              | Ok weather =>
                  (Ok weather,
                   mkWorld (aq_cache w1)
                           (set_cache (weather_cache w1) (clock w1) cache_key weather)
                           (clock w1) (rng w1) (sent w1))
              | Raise e => (Raise e, w1)
              end
            else (Ok (get_demo_weather (clock w1)), w1)
        | Timeout => (Ok (get_demo_weather (clock w1)), w1)
        | RequestException => (Ok (get_demo_weather (clock w1)), w1)
        end
  end.

(** ** utils/data_fetcher.py: the report of a city *)

Record city_info : Type := mkCity {
  city_name : option string;
  city_lat : option Q;
  city_lng : option Q;
  city_state : option string
}.

Record solution : Type := mkSolution {
  solution_name : string;
  action : string;
  solution_icon : string;
  status : string
}.

Record pollutant_row : Type := mkRow {
  row_key : string;
  row_value : Q;
  row_sub_index : Z
}.

(** The dict returned by [get_city_data], without the members that are
    looked up in constant tables or formatted from the clock and feed
    nothing back: the display names and units of the rows,
    ["health_risks"] and ["last_updated"]. *)
Record city_report : Type := mkReport {
  report_city : string;
  report_state : string;
  report_aqi : Z;
  report_category : string;
  report_color : string;
  report_description : string;
  report_dominant_pollutant : option string;
  report_pollutants : list pollutant_row;
  report_weather : weather_info;
  cigarettes_per_day : Q;
  cigarettes_weekly : Q;
  cigarettes_monthly : Q;
  solutions : list solution;
  historical : list history_point;
  data_source : string
}.

(** [all(v is None for v in pollutants.values())] *)
Definition all_none (pollutants : dict (option Q)) : bool :=
  forallb (fun v => match v with None => true | Some _ => false end)
          (PyDict.values pollutants).

(** [pollutants.get('pm25', 0) or 0] *)
Definition pm25_or_zero (pollutants : dict (option Q)) : Q :=
  match PyDict.get pollutants "pm25" with
  | Some (Some v) => if Qeq_bool v 0 then 0%Q else v
  | Some None => 0%Q
  | None => 0%Q
  end.

Definition solutions_for (aqi_value : Z) : list solution :=
  [ if 100 <? aqi_value
    then mkSolution "Air Purifier" "Turn On" "air_purifier_gen" "must"
    else mkSolution "Air Purifier" "Optional" "air_purifier_gen" "optional";
    if 150 <? aqi_value
    then mkSolution "Car Filter" "Must" "directions_car" "must"
    else mkSolution "Car Filter" "Check" "directions_car" "optional";
    if 200 <? aqi_value
    then mkSolution "N95 Mask" "Must" "masks" "must"
    else mkSolution "N95 Mask" "Optional" "masks" "optional";
    if 250 <? aqi_value
    then mkSolution "Stay Indoor" "Must" "home" "must"
    else mkSolution "Stay Indoor" "Preferred" "home" "optional" ].

Fixpoint pollutants_display (items : list (string * option Q)) (sub_indices : dict Z)
  : list pollutant_row :=
  match items with
  | [] => []
  | (key, Some v) :: rest =>
      mkRow key v (sub_indices_get sub_indices key) :: pollutants_display rest sub_indices
  | (key, None) :: rest => pollutants_display rest sub_indices
  end.

(** The choice between the fetched vector and the demo vector, with the
    provenance tag that goes with it. *)
Definition choose_pollutants {G} `{PyRandom G} (fetched : option (dict (option Q)))
    (name : string) (w : world G) : dict (option Q) * string * world G :=
  let use_demo :=
    match fetched with
    | None => true
    | Some pollutants => all_none pollutants
    end in
  if use_demo then
    let '(pollutants, g) := get_demo_aqi_data name (rng w) in
    (pollutants, "demo",
     mkWorld (aq_cache w) (weather_cache w) (clock w) g (sent w))
  else
    (match fetched with Some pollutants => pollutants | None => [] end,
     "openaq", w).

Definition get_city_data `{Host} {G} `{PyRandom G} (BREAKPOINTS : breakpoint_table)
    (net : network) (info : city_info) (w : world G)
  : result city_report * world G :=
  let name := match city_name info with Some n => n | None => "Unknown" end in
  let lat := city_lat info in
  let lng := city_lng info in
  let '(fetched, w1) := fetch_aqi_from_openaq net name lat lng w in
  let '(pollutants, source, w2) := choose_pollutants fetched name w1 in
  match calculate_aqi BREAKPOINTS pollutants with
  | Raise e => (Raise e, w2)
  | Ok aqi_result =>
      let per_day := Py.round_to (pm25_or_zero pollutants / 22) 1 in
      let '(weather_result, w3) :=
        if truthy lat && truthy lng
        then fetch_weather net (number_or_zero lat) (number_or_zero lng) w2
        else (Ok (get_demo_weather (clock w2)), w2) in
      match weather_result with
      | Raise e => (Raise e, w3)
      | Ok weather =>
          let '(history, g) := get_historical_data name 24 (clock w3) (rng w3) in
          (Ok {| report_city := name;
                 report_state := match city_state info with Some s => s | None => "" end;
                 report_aqi := aqi aqi_result;
                 report_category := category aqi_result;
                 report_color := color aqi_result;
                 report_description := description aqi_result;
                 report_dominant_pollutant := dominant_pollutant aqi_result;
                 report_pollutants :=
                   pollutants_display (PyDict.items pollutants) (sub_indices aqi_result);
                 report_weather := weather;
                 cigarettes_per_day := per_day;
                 cigarettes_weekly := Py.round_to (per_day * 7) 1;
                 cigarettes_monthly := Py.round_to (per_day * 30) 0;
                 solutions := solutions_for (aqi aqi_result);
                 historical := history;
                 data_source := source |},
           mkWorld (aq_cache w3) (weather_cache w3) (clock w3) g (sent w3))
      end
  end.

(** ** The invariant of the breakpoint table *)

(** Segments are proper intervals, ordered ascending by concentration and
    non-overlapping: each one ends no later than the next one starts. *)
Fixpoint ascending (breakpoints : list breakpoint) : bool :=
  match breakpoints with
  | [] => true
  | bp :: rest =>
      Qlt_bool (low_conc bp) (high_conc bp)
      && match rest with
         | [] => true
         | next :: _ => Qle_bool (high_conc bp) (low_conc next)
         end
      && ascending rest
  end.

Definition well_formed_table (BREAKPOINTS : breakpoint_table) : bool :=
  forallb (fun entry =>
             match snd entry with
             | [] => false
             | _ :: _ => ascending (snd entry)
             end)
          BREAKPOINTS.

(** The pairs of a vector that [calculate_aqi] gives a sub-index to. *)
Definition contributing (pollutants : dict (option Q)) : list (string * Q) :=
  flat_map (fun item =>
              match snd item with
              | Some c => if Qle_bool 0 c then [(fst item, c)] else []
              | None => []
              end)
           pollutants.

(** An entry of [sub_indices] is the sub-index of a contributing pair. *)
Definition sub_index_of (BREAKPOINTS : breakpoint_table)
    (pair : string * Q) (entry : string * Z) : Prop :=
  fst entry = fst pair
  /\ calculate_sub_index BREAKPOINTS (fst pair) (snd pair) = Ok (snd entry).


(** The readings of a pollutant that the merge takes into account, in the
    order the stations list them. *)
Definition reading_of (key : string) (m : measurement) : list Q :=
  if String.eqb (Py.lower (match parameter m with Some p => p | None => "" end)) key
  then match value m with
       | Some v => if Qle_bool 0 v then [v] else []
       | None => []
       end
  else [].

Definition station_readings (key : string) (result : station_result) : list Q :=
  flat_map (reading_of key) (station_measurements result).

Definition readings (key : string) (results : list station_result) : list Q :=
  flat_map (station_readings key) results.

Definition pollutant_keys : list string :=
  ["pm25"; "pm10"; "no2"; "so2"; "co"; "o3"].

(** A field of the merged vector against the readings of its pollutant:
    null when there is none, otherwise one of them that none exceeds. *)
Definition worst_of (field : option (option Q)) (rs : list Q) : Prop :=
  match field with
  | Some (Some m) => In m rs /\ forall v, In v rs -> (v <= m)%Q
  | Some None => rs = []
  | None => False
  end.

(** The state of the merge after the measurements [seen]: the six keys,
    each holding the worst of the readings seen for it. *)
Definition merged (seen : list measurement) (pollutants : dict (option Q)) : Prop :=
  PyDict.keys pollutants = pollutant_keys
  /\ forall key, In key pollutant_keys ->
       worst_of (PyDict.get pollutants key) (flat_map (reading_of key) seen).

(** Equality of optional numbers up to [==]. *)
Definition same_reading (a b : option Q) : Prop :=
  match a, b with
  | Some x, Some y => (x == y)%Q
  | None, None => True
  | _, _ => False
  end.

(** The outcomes of a request after which [fetch_aqi_from_openaq] has
    nothing to return: an exception, a status other than 200, or an
    answer without a non-empty ["results"] list. *)
Definition openaq_failed (outcome : http_outcome) : bool :=
  match outcome with
  | Timeout => true
  | RequestException => true
  | Response status_code data =>
      negb (status_code =? 200)
      || match results data with
         | Some (_ :: _) => false
         | _ => true
         end
  end.

Definition weather_failed (outcome : http_outcome) : bool :=
  match outcome with
  | Timeout => true
  | RequestException => true
  | Response status_code _ => negb (status_code =? 200)
  end.

(** The request that [fetch_aqi_from_openaq] sends for a city. *)
Definition openaq_request (city : string) (lat lng : option Q) : request :=
  if truthy lat && truthy lng
  then LatestNear (number_or_zero lat) (number_or_zero lng)
  else LatestInCity city.

(** The cache has nothing usable for a city: no fresh entry, or a fresh
    one that is an empty dict. *)
Definition aq_miss {G} (city : string) (w : world G) : Prop :=
  forall cached,
    get_cached_data (aq_cache w) (clock w) ("openaq_" +:+ city) = Some cached ->
    cached = [].

(** The cache key of [fetch_weather]. *)
Definition weather_key `{Host} (lat lng : Q) : string :=
  "weather_" +:+ format_number lat +:+ "_" +:+ format_number lng.

(** A report is built from a pollutant vector. *)
Definition built_from (BREAKPOINTS : breakpoint_table) (report : city_report)
    (pollutants : dict (option Q)) : Prop :=
  exists r,
    calculate_aqi BREAKPOINTS pollutants = Ok r
    /\ report_aqi report = aqi r
    /\ report_category report = category r
    /\ report_dominant_pollutant report = dominant_pollutant r
    /\ report_pollutants report
       = pollutants_display (PyDict.items pollutants) (sub_indices r)
    /\ cigarettes_per_day report
       = Py.round_to (pm25_or_zero pollutants / 22) 1
    /\ solutions report = solutions_for (aqi r).

(** Every pollutant field of a vector is null. *)
Definition every_field_null (pollutants : dict (option Q)) : Prop :=
  forall key v, In (key, v) pollutants -> v = None.

(** At least one pollutant field of a vector is not null. *)
Definition some_field_measured (pollutants : dict (option Q)) : Prop :=
  exists key c, In (key, Some c) pollutants.

(** Time passing between two calls. *)
Definition later {G} (seconds : Q) (w : world G) : world G :=
  mkWorld (aq_cache w) (weather_cache w) (clock w + seconds)%Q (rng w) (sent w).

(** No answer of the network carries an empty ["weather"] list. *)
Definition weather_listed (net : network) : Prop :=
  forall n r status_code data,
    fst (net n r) = Response status_code data -> weather data <> Some [].

(** ** Sample data *)

(** Modelled from the spec: the table [data/aqi_breakpoints.json] is not
    among the sources.  The PM2.5 rows are the bands that the docstring of
    [get_demo_aqi_data] lists (0-30, 31-60, 61-90, 91-120, 121-250, 251+
    mapped to the six index bands), which is also what scenario A of the
    specification needs (250 falls in Very Poor); the upper end of the
    last band is not given anywhere and is taken to be 500. *)
Definition sample_breakpoints : breakpoint_table :=
  [("pm25",
    [mkBreakpoint 0 30 0 50; mkBreakpoint 31 60 51 100;
     mkBreakpoint 61 90 101 200; mkBreakpoint 91 120 201 300;
     mkBreakpoint 121 250 301 400; mkBreakpoint 251 500 401 500])].


(** A generator whose [n]-th draw is [(n mod 10) / 10], or the [n]-th
    integer of the range taken cyclically. *)
#[export] Instance cycle_random : PyRandom nat := {
  random n := (inject_Z (Z.of_nat (n mod 10)) / 10, S n)%Q;
  randint a b n := (a + Z.of_nat n mod (b - a + 1), S n)
}.

(** A host with a key, whose calendar stamp is the number of whole hours
    on the clock. *)
#[export] Instance sample_host : Host := {
  WEATHER_API_KEY := "key";
  format_number q := pretty (Qnum q) +:+ "/" +:+ pretty (Zpos (Qden q));
  strftime_YmdH now := Qfloor (now / 3600);
  strftime_HM now := pretty (Qfloor (now / 3600) mod 24) +:+ ":00";
  hour_of now := Qfloor (now / 3600) mod 24;
  demo_weather_of_seed seed :=
    mkWeather (18 + seed mod 18) (18 + seed mod 18) 50 10 0 "Clear Sky" "01d" (Some [])
}.

(** Scenario A of the specification, with a second measured pollutant. *)
Definition sample_vector : dict (option Q) :=
  [("pm25", Some 250%Q); ("pm10", None); ("no2", Some 3%Q)].

Definition empty_world : world nat := mkWorld ∅ ∅ 0 0%nat [].

(** A network on which every request times out after three seconds. *)
Definition dead_network : network := fun _ _ => (Timeout, 3%Q).

(** A network that answers every request with one station reporting
    PM2.5 readings of 40, 85 and 60. *)
Definition sample_station : station_result :=
  mkStation (Some [mkMeasurement (Some "pm25") (Some 40%Q);
                   mkMeasurement (Some "PM25") (Some 85%Q);
                   mkMeasurement (Some "pm25") (Some 60%Q)]).

Definition sample_city : city_info :=
  mkCity (Some "Delhi") (Some 28%Q) (Some 77%Q) (Some "Delhi").

Definition live_network : network :=
  fun _ _ => (Response 200 (mkBody (Some [sample_station]) None None None), 1%Q).

(** A network that answers every request with one station whose only
    measurement has no value. *)
Definition null_station : station_result :=
  mkStation (Some [mkMeasurement (Some "pm25") None]).

Definition null_network : network :=
  fun _ _ => (Response 200 (mkBody (Some [null_station]) None None None), 1%Q).

(** ** utils/aqi_calculator.py: health recommendations *)

Record recommendation : Type := mkRecommendation {
  general : string;
  sensitive : string;
  outdoor_activity : string;
  mask_required : bool
}.

Definition HEALTH_RECOMMENDATIONS : dict recommendation :=
  [("Good",
    mkRecommendation
      "Air quality is satisfactory. Enjoy outdoor activities!"
      "No precautions needed."
      "All outdoor activities are safe."
      false);
   ("Satisfactory",
    mkRecommendation
      "Air quality is acceptable. Some pollutants may affect very sensitive individuals."
      "Unusually sensitive people may experience minor symptoms."
      "Outdoor activities are generally safe."
      false);
   ("Moderate",
    mkRecommendation
      "Air quality is unhealthy for sensitive groups."
      "People with respiratory or heart conditions should limit outdoor exertion."
      "Reduce prolonged outdoor exertion."
      true);
   ("Poor",
    mkRecommendation
      "Everyone may experience health effects; sensitive groups more seriously affected."
      "People with respiratory or heart disease should avoid outdoor activities."
      "Avoid prolonged outdoor activities. Wear N95 mask if going outside."
      true);
   ("Very Poor",
    mkRecommendation
      "Health alert: everyone may experience more serious health effects."
      "People with respiratory or heart conditions should stay indoors."
      "Avoid all outdoor activities. Keep windows closed."
      true);
   ("Severe",
    mkRecommendation
      "Health warning of emergency conditions. Everyone is likely to be affected."
      "All people should stay indoors and keep activity levels low."
      "Stay indoors. Use air purifiers. Seek medical help if experiencing symptoms."
      true)].

(** [HEALTH_RECOMMENDATIONS.get(category, HEALTH_RECOMMENDATIONS["Good"])];
    the default is evaluated first and its key is in the table. *)
Definition get_health_recommendations (category : string) : recommendation :=
  match PyDict.get HEALTH_RECOMMENDATIONS category with
  | Some r => r
  | None =>
      match PyDict.get HEALTH_RECOMMENDATIONS "Good" with
      | Some r => r
      | None => mkRecommendation "" "" "" false
      end
  end.

(** The index values of a table stay between 0 and 500 and do not
    decrease along a segment. *)
Definition index_bounded (BREAKPOINTS : breakpoint_table) : bool :=
  forallb (fun entry =>
             forallb (fun bp =>
                        Qle_bool 0 (low_aqi bp)
                        && Qle_bool (low_aqi bp) (high_aqi bp)
                        && Qle_bool (high_aqi bp) 500)
                     (snd entry))
          BREAKPOINTS.

(** ** utils/news_fetcher.py *)

(** [CACHE_DURATION] of the news module. *)
Definition NEWS_CACHE_DURATION : Q := 3600.

(** The decoded answer of the news source: its ["status"] and ["results"]
    members.  An article is an opaque JSON object. *)
Record news_body (A : Type) : Type := mkNewsBody {
  news_status : option string;
  news_results : option (list A)
}.

Arguments mkNewsBody {A}.
Arguments news_status {A}.
Arguments news_results {A}.

(** Anything raised by the request or by reading its answer is caught by
    the [except Exception] of the function. *)
Inductive news_outcome (A : Type) : Type :=
| NewsException
| NewsResponse (status_code : Z) (json : news_body A).

Arguments NewsException {A}.
Arguments NewsResponse {A}.

(** The news source answers the [n]-th request with an outcome and the
    seconds it took. *)
Definition news_network (A : Type) : Type := nat -> news_outcome A * Q.

(** The module-level [_news_cache], the clock and the number of requests
    sent so far. *)
Record news_state (A : Type) : Type := mkNewsState {
  cached_news : option (list A);
  cached_at : Q;
  news_clock : Q;
  news_sent : nat
}.

Arguments mkNewsState {A}.
Arguments cached_news {A}.
Arguments cached_at {A}.
Arguments news_clock {A}.
Arguments news_sent {A}.

(** The state at import: [{"data": None, "timestamp": 0}]. *)
Definition news_start {A : Type} (now : Q) : news_state A :=
  mkNewsState None 0 now 0.

(** The part of [fetch_aqi_news] after the cache check: the request and
    what is made of its answer.  The time stored with the results is the
    one read at the start of the call. *)
Definition request_news {A : Type} (net : news_network A) (st : news_state A)
  : list A * news_state A :=
  let current_time := news_clock st in
  let '(outcome, elapsed) := net (news_sent st) in
  let clock' := (news_clock st + elapsed)%Q in
  let sent' := S (news_sent st) in
  let failed := ([], mkNewsState (cached_news st) (cached_at st) clock' sent') in
  match outcome with
  | NewsResponse status_code data =>
      if status_code =? 200 then
        match news_status data with
        | Some status =>
            if String.eqb status "success" then
              let results :=
                match news_results data with Some rs => rs | None => [] end in
              (results, mkNewsState (Some results) current_time clock' sent')
            else failed
        | None => failed
        end
      else failed
  | NewsException => failed
  end.

Definition fetch_aqi_news {A : Type} (net : news_network A) (st : news_state A)
  : list A * news_state A :=
  let current_time := news_clock st in
  match cached_news st with
  | Some ((_ :: _) as data) =>
      if Py.Qlt_bool (current_time - cached_at st) NEWS_CACHE_DURATION
      then (data, st)
      else request_news net st
  | _ => request_news net st
  end.

(** Time passing between two calls. *)
Definition news_later {A : Type} (seconds : Q) (st : news_state A) : news_state A :=
  mkNewsState (cached_news st) (cached_at st) (news_clock st + seconds)%Q (news_sent st).

(** The outcomes after which [fetch_aqi_news] returns the empty list. *)
Definition news_failed {A : Type} (outcome : news_outcome A) : bool :=
  match outcome with
  | NewsException => true
  | NewsResponse status_code data =>
      negb (status_code =? 200)
      || negb (match news_status data with
               | Some status => String.eqb status "success"
               | None => false
               end)
  end.

(** The cache of the news module has nothing to serve. *)
Definition news_miss {A : Type} (st : news_state A) : Prop :=
  match cached_news st with
  | Some (_ :: _) => (NEWS_CACHE_DURATION <= news_clock st - cached_at st)%Q
  | _ => True
  end.

(** ** app.py: the catalog of cities *)

(** A city object of [data/states_cities.json], with the members the
    application reads. *)
Record city_json : Type := mkCityJson {
  json_name : string;
  json_slug : string;
  json_lat : option Q;
  json_lng : option Q
}.

Record state_json : Type := mkStateJson {
  state_name : string;
  state_slug : string;
  cities : list city_json
}.

(** [{**city, 'state': state_name, 'state_slug': state_slug}] *)
Record catalog_city : Type := mkCatalogCity {
  cc_name : string;
  cc_slug : string;
  cc_lat : option Q;
  cc_lng : option Q;
  cc_state : string;
  cc_state_slug : string
}.

Definition catalog_info (state : state_json) (city : city_json) : catalog_city :=
  mkCatalogCity (json_name city) (json_slug city) (json_lat city) (json_lng city)
                (state_name state) (state_slug state).

(** The two entries a city gets in [CITY_INDEX], the second one
    overwriting the first when the keys coincide. *)
Definition index_keys (idx : gmap string catalog_city) (info : catalog_city)
  : gmap string catalog_city :=
  <[Py.lower (cc_name info) := info]> (<[cc_slug info := info]> idx).

(** One city more in [CITY_INDEX] and [ALL_CITIES]. *)
Definition index_step (acc : gmap string catalog_city * list catalog_city)
    (info : catalog_city) : gmap string catalog_city * list catalog_city :=
  (index_keys (fst acc) info, snd acc ++ [info]).

(** The body of the inner loop at module level: [CITY_INDEX] and
    [ALL_CITIES] after one more city. *)
Definition index_city (state : state_json)
    (acc : gmap string catalog_city * list catalog_city) (city : city_json)
  : gmap string catalog_city * list catalog_city :=
  index_step acc (catalog_info state city).

Definition index_state (acc : gmap string catalog_city * list catalog_city)
    (state : state_json) : gmap string catalog_city * list catalog_city :=
  fold_left (index_city state) (cities state) acc.

Definition build_index (STATES_DATA : list state_json)
  : gmap string catalog_city * list catalog_city :=
  fold_left index_state STATES_DATA (∅, []).

Definition CITY_INDEX (STATES_DATA : list state_json) : gmap string catalog_city :=
  fst (build_index STATES_DATA).

Definition ALL_CITIES (STATES_DATA : list state_json) : list catalog_city :=
  snd (build_index STATES_DATA).

(** [s.replace(' ', '-')] *)
Fixpoint spaces_to_dashes (s : string) : string :=
  match s with
  | EmptyString => EmptyString
  | String a rest =>
      String (if Ascii.eqb a " "%char then "-"%char else a) (spaces_to_dashes rest)
  end.

Definition find_city (index : gmap string catalog_city) (slug_or_name : string)
  : option catalog_city :=
  match index !! slug_or_name with
  | Some city => Some city
  | None =>
      let lower := Py.lower slug_or_name in
      match index !! lower with
      | Some city => Some city
      | None =>
          let slug := spaces_to_dashes lower in
          match index !! slug with
          | Some city => Some city
          | None => index !! (slug +:+ "-aqi")
          end
      end
  end.

(** The keys under which a catalog city is entered, and the keys that
    [find_city] tries for a query. *)
Definition city_keys (info : catalog_city) : list string :=
  [cc_slug info; Py.lower (cc_name info)].

Definition query_keys (slug_or_name : string) : list string :=
  [slug_or_name;
   Py.lower slug_or_name;
   spaces_to_dashes (Py.lower slug_or_name);
   spaces_to_dashes (Py.lower slug_or_name) +:+ "-aqi"].

(** No key is shared by two cities of the catalog. *)
Definition distinct_keys (infos : list catalog_city) : Prop :=
  forall c1 c2 k,
    In c1 infos -> In c2 infos -> In k (city_keys c1) -> In k (city_keys c2) ->
    c1 = c2.

(** The cities of the catalog in the order of the file. *)
Definition catalog_cities (STATES_DATA : list state_json) : list catalog_city :=
  flat_map (fun state => map (catalog_info state) (cities state)) STATES_DATA.

(** ** app.py: the search *)

(** [needle in hay] on strings. *)
Fixpoint contains (needle hay : string) : bool :=
  String.prefix needle hay
  || match hay with
     | EmptyString => false
     | String _ rest => contains needle rest
     end.

(** The score of a city for a lower-cased query, when it matches;
    [ratio a b] is [SequenceMatcher(None, a, b).ratio()]. *)
Definition match_score (ratio : string -> string -> Q) (query_lower : string)
    (city : catalog_city) : option Q :=
  let city_name_lower := Py.lower (cc_name city) in
  let state_name_lower := Py.lower (cc_state city) in
  if contains query_lower city_name_lower then
    let score := ratio query_lower city_name_lower in
    Some (if String.prefix query_lower city_name_lower
          then (score + (5 # 10))%Q else score)
  else if contains query_lower state_name_lower then
    Some (ratio query_lower state_name_lower * (5 # 10))%Q
  else None.

(** The loop over [ALL_CITIES]. *)
Definition scored_matches (ratio : string -> string -> Q) (query_lower : string)
    (all_cities : list catalog_city) : list (Q * catalog_city) :=
  flat_map (fun city =>
              match match_score ratio query_lower city with
              | Some score => [(score, city)]
              | None => []
              end)
           all_cities.

(** [xs.sort(key=key, reverse=True)]: a stable sort, the greatest key
    first, elements of equal key in their original order. *)
Fixpoint insert_descending {X : Type} (key : X -> Q) (x : X) (sorted : list X)
  : list X :=
  match sorted with
  | [] => [x]
  | y :: rest =>
      if Py.Qlt_bool (key x) (key y) then y :: insert_descending key x rest
      else x :: y :: rest
  end.

Definition sort_descending {X : Type} (key : X -> Q) (xs : list X) : list X :=
  fold_right (insert_descending key) [] xs.

(** [xs[:limit]]: a negative limit counts from the end. *)
Definition slice_to {X : Type} (limit : Z) (xs : list X) : list X :=
  if 0 <=? limit then firstn (Z.to_nat limit) xs
  else firstn (Z.to_nat (Z.of_nat (List.length xs) + limit)) xs.

Definition search_cities (ratio : string -> string -> Q)
    (all_cities : list catalog_city) (query : string) (limit : Z)
  : list catalog_city :=
  if (String.length query <? 2)%nat then []
  else
    let query_lower := Py.lower query in
    let results := scored_matches ratio query_lower all_cities in
    map snd (slice_to limit (sort_descending fst results)).

(** ** app.py: two endpoints *)

(** The [city_info] dict as [get_city_data] reads it. *)
Definition city_info_of (city : catalog_city) : city_info :=
  mkCity (Some (cc_name city)) (cc_lat city) (cc_lng city) (Some (cc_state city)).

Inductive api_answer : Type :=
| NotFound404
| Json200 (report : city_report).

Definition api_aqi `{Host} {G} `{PyRandom G} (index : gmap string catalog_city)
    (BREAKPOINTS : breakpoint_table) (net : network) (city_slug : string)
    (w : world G) : result api_answer * world G :=
  match find_city index city_slug with
  | None => (Ok NotFound404, w)
  | Some info =>
      match get_city_data BREAKPOINTS net (city_info_of info) w with
      | (Ok report, w') => (Ok (Json200 report), w')
      | (Raise e, w') => (Raise e, w')
      end
  end.

Record top_city : Type := mkTopCity {
  top_name : string;
  top_state : string;
  top_aqi : Z;
  top_category : string;
  top_color : string
}.

Definition major_cities : list string :=
  ["delhi-aqi"; "mumbai-aqi"; "kolkata-aqi"; "chennai-aqi";
   "bengaluru-aqi"; "hyderabad-aqi"; "ahmedabad-aqi"; "pune-aqi";
   "lucknow-aqi"; "jaipur-aqi"].

(** The loop of [api_top_cities] over the slugs still to visit. *)
Fixpoint collect_top_cities `{Host} {G} `{PyRandom G}
    (index : gmap string catalog_city) (BREAKPOINTS : breakpoint_table)
    (net : network) (slugs : list string) (city_data : list top_city) (w : world G)
  : result (list top_city) * world G :=
  match slugs with
  | [] => (Ok city_data, w)
  | slug :: rest =>
      match find_city index slug with
      | None => collect_top_cities index BREAKPOINTS net rest city_data w
      | Some info =>
          match get_city_data BREAKPOINTS net (city_info_of info) w with
          | (Ok data, w') =>
              collect_top_cities index BREAKPOINTS net rest
                (city_data ++ [mkTopCity (report_city data) (report_state data)
                                 (report_aqi data) (report_category data)
                                 (report_color data)])
                w'
          | (Raise e, w') => (Raise e, w')
          end
      end
  end.

Definition api_top_cities `{Host} {G} `{PyRandom G}
    (index : gmap string catalog_city) (BREAKPOINTS : breakpoint_table)
    (net : network) (w : world G) : result (list top_city) * world G :=
  match collect_top_cities index BREAKPOINTS net major_cities [] w with
  | (Ok city_data, w') =>
      (Ok (sort_descending (fun c => inject_Z (top_aqi c)) city_data), w')
  | (Raise e, w') => (Raise e, w')
  end.

(** A small catalog. *)
Definition sample_states : list state_json :=
  [mkStateJson "Delhi" "delhi"
     [mkCityJson "Delhi" "delhi-aqi" (Some (286 # 10)) (Some (772 # 10));
      mkCityJson "New Delhi" "new-delhi-aqi" (Some (286 # 10)) (Some (772 # 10))];
   mkStateJson "Maharashtra" "maharashtra"
     [mkCityJson "Mumbai" "mumbai-aqi" (Some 19%Q) (Some (728 # 10));
      mkCityJson "Pune" "pune-aqi" None None]].

(** A stand-in for the ratio of [difflib]: 1 for equal strings, 1/2
    otherwise. *)
Definition sample_ratio (a b : string) : Q :=
  if String.eqb a b then 1%Q else (1 # 2)%Q.

(** ** utils/data_fetcher.py: the bulk fetch *)

(** One element of the ["results"] list of the bulk answer: its ["city"]
    member and the station data that [aggregate_measurements] reads. *)
Record india_result : Type := mkIndiaResult {
  result_city : option string;
  result_station : station_result
}.

Definition is_space (a : ascii) : bool :=
  let n := nat_of_ascii a in
  ((n =? 32) || ((9 <=? n) && (n <=? 13)) || ((28 <=? n) && (n <=? 31)))%nat.

Fixpoint lstrip (s : string) : string :=
  match s with
  | EmptyString => EmptyString
  | String a rest => if is_space a then lstrip rest else s
  end.

Fixpoint rstrip (s : string) : string :=
  match s with
  | EmptyString => EmptyString
  | String a rest =>
      match rstrip rest with
      | EmptyString => if is_space a then EmptyString else String a EmptyString
      | stripped => String a stripped
      end
  end.

(** [s.strip()] on ASCII white space. *)
Definition strip (s : string) : string := rstrip (lstrip s).

(** [city.lower().strip()] *)
Definition city_key_of (city : string) : string := strip (Py.lower city).

(** The body of [for key, val in pollutants.items()] that folds the vector
    of one more station into the one a city has. *)
Definition merge_field (existing : dict (option Q)) (item : string * option Q)
  : dict (option Q) :=
  match snd item with
  | None => existing
  | Some val =>
      match PyDict.get existing (fst item) with
      | Some (Some current) =>
          if Py.Qlt_bool current val then PyDict.set existing (fst item) (Some val)
          else existing
      | _ => PyDict.set existing (fst item) (Some val)
      end
  end.

(** The body of [for result in data["results"]]. *)
Definition merge_result (city_map : gmap string (dict (option Q))) (result : india_result)
  : gmap string (dict (option Q)) :=
  match result_city result with
  | None => city_map
  | Some EmptyString => city_map
  | Some city =>
      let city_key := city_key_of city in
      let pollutants := aggregate_measurements [result_station result] in
      match city_map !! city_key with
      | Some existing =>
          <[city_key := fold_left merge_field (PyDict.items pollutants) existing]> city_map
      | None => <[city_key := pollutants]> city_map
      end
  end.

Definition merge_results (results : list india_result) : gmap string (dict (option Q)) :=
  fold_left merge_result results ∅.

Inductive bulk_outcome : Type :=
| BulkRequestException
| BulkResponse (status_code : Z) (results : option (list india_result)).

(** The bulk source answers the [n]-th request with an outcome and the
    seconds it took. *)
Definition bulk_network : Type := nat -> bulk_outcome * Q.

(** The entry of the module-level cache under ["openaq_all_india"], the
    clock, the module-level generator and the number of bulk requests
    sent.  The entry is kept apart from those of the per-city fetch, whose
    keys are ["openaq_"] followed by the city name and meet this one only
    for a city named [all_india]. *)
Record bulk_world (G : Type) : Type := mkBulkWorld {
  india_entry : option (gmap string (dict (option Q)) * Q);
  bulk_clock : Q;
  bulk_rng : G;
  bulk_sent : nat
}.

Arguments mkBulkWorld {G}.
Arguments india_entry {G}.
Arguments bulk_clock {G}.
Arguments bulk_rng {G}.
Arguments bulk_sent {G}.

(** [get_cached_data("openaq_all_india")] followed by [if cached:]: an
    entry that is fresh and not the empty dict. *)
Definition cached_india {G} (w : bulk_world G) : option (gmap string (dict (option Q))) :=
  match india_entry w with
  | Some (data, timestamp) =>
      if Py.Qlt_bool (bulk_clock w - timestamp) CACHE_DURATION
      then (if bool_decide (data = ∅) then None else Some data)
      else None
  | None => None
  end.

Definition fetch_all_india_aqi {G} (net : bulk_network) (w : bulk_world G)
  : gmap string (dict (option Q)) * bulk_world G :=
  match cached_india w with
  | Some cached => (cached, w)
  | None =>
      let '(outcome, elapsed) := net (bulk_sent w) in
      let clock' := (bulk_clock w + elapsed)%Q in
      let sent' := S (bulk_sent w) in
      match outcome with
      | BulkResponse status_code results =>
          if status_code =? 200 then
            let city_map :=
              match results with
              | Some ((_ :: _) as rs) => merge_results rs
              | _ => ∅
              end in
            (city_map,
             mkBulkWorld (Some (city_map, clock')) clock' (bulk_rng w) sent')
          else (∅, mkBulkWorld (india_entry w) clock' (bulk_rng w) sent')
      | BulkRequestException =>
          (∅, mkBulkWorld (india_entry w) clock' (bulk_rng w) sent')
      end
  end.

Record map_city : Type := mkMapCity {
  map_name : string;
  map_slug : string;
  map_state : string;
  map_lat : option Q;
  map_lng : option Q;
  map_aqi : Z;
  map_category : string;
  map_color : string;
  is_demo : bool
}.

(** The vector taken for a city of the map, and whether it is demo data. *)
Definition map_pollutants {G} `{PyRandom G}
    (live_data_map : gmap string (dict (option Q))) (city : catalog_city) (g : G)
  : dict (option Q) * bool * G :=
  let city_key := city_key_of (cc_name city) in
  match live_data_map !! city_key with
  | Some pollutants =>
      if all_none pollutants then
        let '(demo, g') := get_demo_aqi_data (cc_name city) g in (demo, true, g')
      else (pollutants, false, g)
  | None =>
      let '(demo, g') := get_demo_aqi_data (cc_name city) g in (demo, true, g')
  end.

(** The loop of [get_all_cities_aqi]. *)
Fixpoint map_cities {G} `{PyRandom G} (BREAKPOINTS : breakpoint_table)
    (live_data_map : gmap string (dict (option Q)))
    (all_cities_list : list catalog_city) (g : G) : result (list map_city) * G :=
  match all_cities_list with
  | [] => (Ok [], g)
  | city :: rest =>
      let '(pollutants, demo, g1) := map_pollutants live_data_map city g in
      match calculate_aqi BREAKPOINTS pollutants with
      | Raise e => (Raise e, g1)
      | Ok aqi_result =>
          match map_cities BREAKPOINTS live_data_map rest g1 with
          | (Ok entries, g2) =>
              (Ok (mkMapCity (cc_name city) (cc_slug city) (cc_state city)
                     (cc_lat city) (cc_lng city) (aqi aqi_result)
                     (category aqi_result) (color aqi_result) demo
                   :: entries),
               g2)
          | (Raise e, g2) => (Raise e, g2)
          end
      end
  end.

Definition get_all_cities_aqi {G} `{PyRandom G} (BREAKPOINTS : breakpoint_table)
    (net : bulk_network) (all_cities_list : list catalog_city) (w : bulk_world G)
  : result (list map_city) * bulk_world G :=
  let '(live_data_map, w1) := fetch_all_india_aqi net w in
  let '(entries, g) :=
    map_cities BREAKPOINTS live_data_map all_cities_list (bulk_rng w1) in
  (entries, mkBulkWorld (india_entry w1) (bulk_clock w1) g (bulk_sent w1)).

(** The stations that a list of bulk results holds for a city key. *)
Definition stations_of (city_key : string) (results : list india_result)
  : list station_result :=
  flat_map (fun result =>
              match result_city result with
              | None => []
              | Some EmptyString => []
              | Some city =>
                  if String.eqb (city_key_of city) city_key
                  then [result_station result] else []
              end)
           results.

(** What the map holds for every key after the results [seen]. *)
Definition city_map_ok (seen : list india_result)
    (city_map : gmap string (dict (option Q))) : Prop :=
  forall k,
    match city_map !! k with
    | Some p =>
        PyDict.keys p = pollutant_keys
        /\ (forall key, In key pollutant_keys ->
              worst_of (PyDict.get p key) (readings key (stations_of k seen)))
        /\ stations_of k seen <> []
    | None => stations_of k seen = []
    end.

(** The bulk world [d] seconds later. *)
Definition bulk_later {G} (d : Q) (w : bulk_world G) : bulk_world G :=
  mkBulkWorld (india_entry w) (bulk_clock w + d)%Q (bulk_rng w) (bulk_sent w).

(** An entry of the map data against the catalog city it was made for. *)
Definition map_entry_of (BREAKPOINTS : breakpoint_table)
    (live_data_map : gmap string (dict (option Q)))
    (city : catalog_city) (entry : map_city) : Prop :=
  map_name entry = cc_name city
  /\ map_slug entry = cc_slug city
  /\ map_state entry = cc_state city
  /\ map_lat entry = cc_lat city
  /\ map_lng entry = cc_lng city
  /\ match live_data_map !! city_key_of (cc_name city) with
     | Some pollutants =>
         is_demo entry = all_none pollutants
         /\ (all_none pollutants = false ->
             exists r, calculate_aqi BREAKPOINTS pollutants = Ok r
                       /\ map_aqi entry = aqi r
                       /\ map_category entry = category r
                       /\ map_color entry = color r)
     | None => is_demo entry = true
     end.

(** Two stations of Delhi under differently written names, a result
    without a city and a station of Pune without measurements. *)
Definition sample_bulk_results : list india_result :=
  [mkIndiaResult (Some "Delhi") sample_station;
   mkIndiaResult (Some " delhi ")
     (mkStation (Some [mkMeasurement (Some "pm25") (Some 120%Q);
                       mkMeasurement (Some "no2") (Some 30%Q)]));
   mkIndiaResult None sample_station;
   mkIndiaResult (Some "Pune") (mkStation None)].

Definition bulk_live_network : bulk_network :=
  fun _ => (BulkResponse 200 (Some sample_bulk_results), 2%Q).

Definition bulk_dead_network : bulk_network :=
  fun _ => (BulkRequestException, 5%Q).

Definition empty_bulk_world : bulk_world nat := mkBulkWorld None 0 0%nat 0%nat.

(** ** Helpers of the further properties *)

(** The clock reading [i] hours before [now]. *)
Definition hours_before (now : Q) (i : nat) : Q :=
  (now - 3600 * inject_Z (Z.of_nat i))%Q.

(** The law of [randint]: the draw lies in the range asked for. *)
Definition randint_in_range {G : Type} `{PyRandom G} : Prop :=
  forall (a b : Z) (g : G), a <= b -> a <= fst (randint a b g) <= b.

(** A vector with a null and a negative field. *)
Definition mixed_vector : dict (option Q) :=
  [("pm25", Some 250%Q); ("pm10", None); ("no2", Some (-3)%Q)].

(** * Properties *)

(** ** Comparisons of numbers *)

Lemma Qlt_bool_iff (a b : Q) : Py.Qlt_bool a b = true <-> (a < b)%Q.
Proof.
  unfold Py.Qlt_bool. rewrite negb_true_iff.
  split; intros Hab.
  - apply Qnot_le_lt. intros Hle. apply Qle_bool_iff in Hle. congruence.
  - destruct (Qle_bool b a) eqn:E; [|reflexivity].
    apply Qle_bool_iff in E. exfalso. exact (Qlt_not_le _ _ Hab E).
Qed.

Lemma Qlt_bool_false (a b : Q) : Py.Qlt_bool a b = false <-> (b <= a)%Q.
Proof.
  unfold Py.Qlt_bool. rewrite negb_false_iff. apply Qle_bool_iff.
Qed.

Lemma Qle_bool_false (a b : Q) : Qle_bool a b = false <-> (b < a)%Q.
Proof.
  split; intros Hab.
  - apply Qnot_le_lt. intros Hle. apply Qle_bool_iff in Hle. congruence.
  - destruct (Qle_bool a b) eqn:E; [|reflexivity].
    apply Qle_bool_iff in E. exfalso. exact (Qlt_not_le _ _ Hab E).
Qed.

(** ** Rounding *)

Ltac compare_to_order E :=
  match type of E with
  | _ = Eq => apply Qeq_alt in E
  | _ = Lt => apply Qlt_alt in E
  | _ = Gt => apply Qgt_alt in E
  end.

Lemma round_cases (x : Q) :
  (Py.round x = Qfloor x /\ (x - inject_Z (Qfloor x) <= 1 # 2)%Q)
  \/ (Py.round x = Qfloor x + 1 /\ (1 # 2 <= x - inject_Z (Qfloor x))%Q).
Proof.
  unfold Py.round.
  destruct (Qcompare (x - inject_Z (Qfloor x)) (1 # 2)) eqn:E.
  - apply Qeq_alt in E.
    destruct (Z.even (Qfloor x)); [left | right]; (split; [reflexivity|]);
      rewrite E; apply Qle_refl.
  - apply Qlt_alt in E. left. split; [reflexivity | now apply Qlt_le_weak].
  - apply Qgt_alt in E. right. split; [reflexivity | now apply Qlt_le_weak].
Qed.

Lemma round_lower (a : Z) (x : Q) : (inject_Z a <= x)%Q -> a <= Py.round x.
Proof.
  intros Hax.
  assert (Hfloor : a <= Qfloor x).
  { rewrite <- (Qfloor_Z a). now apply Qfloor_resp_le. }
  destruct (round_cases x) as [[-> _]|[-> _]]; lia.
Qed.

Lemma round_upper (b : Z) (x : Q) : (x <= inject_Z b)%Q -> Py.round x <= b.
Proof.
  intros Hxb.
  assert (Hfloor : Qfloor x <= b).
  { rewrite <- (Qfloor_Z b). now apply Qfloor_resp_le. }
  destruct (round_cases x) as [[-> _]|[-> Hhalf]]; [lia|].
  destruct (Z.eq_dec (Qfloor x) b) as [Heq|Hne]; [|lia].
  exfalso. rewrite Heq in Hhalf. lra.
Qed.

(** ** The sub-index of one pollutant *)

Section SubIndex.

Variable concentration : Q.

Lemma scan_breakpoints_none (breakpoints : list breakpoint) :
  Forall (fun bp => in_segment bp concentration = false) breakpoints ->
  scan_breakpoints breakpoints concentration = None.
Proof.
  induction 1 as [|bp rest Hbp _ IH]; simpl; [reflexivity|].
  rewrite Hbp. exact IH.
Qed.

Lemma last_segment_cons (bp next : breakpoint) (rest : list breakpoint) :
  last_segment (bp :: next :: rest) = last_segment (next :: rest).
Proof. reflexivity. Qed.

Lemma last_segment_In (breakpoints : list breakpoint) (top : breakpoint) :
  last_segment breakpoints = Some top -> In top breakpoints.
Proof.
  induction breakpoints as [|bp [|next rest] IH]; intros Hlast.
  - discriminate.
  - injection Hlast as ->. now left.
  - right. apply IH. exact Hlast.
Qed.

(** In an ascending list no segment reaches above the last one. *)
Lemma ascending_below_last (breakpoints : list breakpoint) (top : breakpoint) :
  ascending breakpoints = true ->
  last_segment breakpoints = Some top ->
  Forall (fun bp => (high_conc bp <= high_conc top)%Q) breakpoints.
Proof.
  induction breakpoints as [|bp [|next rest] IH]; intros Hasc Hlast.
  - constructor.
  - injection Hlast as ->. constructor; [apply Qle_refl | constructor].
  - rewrite last_segment_cons in Hlast.
    cbn [ascending] in Hasc.
    apply andb_true_iff in Hasc as [Hhead Hrest].
    apply andb_true_iff in Hhead as [_ Hnext].
    apply Qle_bool_iff in Hnext.
    specialize (IH Hrest Hlast).
    constructor; [|exact IH].
    inversion IH as [|? ? Hnext_top _]; subst.
    cbn [ascending] in Hrest.
    apply andb_true_iff in Hrest as [Hwidth _].
    apply andb_true_iff in Hwidth as [Hwidth _].
    apply Qlt_bool_iff in Hwidth.
    apply Qle_trans with (low_conc next); [exact Hnext|].
    apply Qle_trans with (high_conc next); [|exact Hnext_top].
    now apply Qlt_le_weak.
Qed.

(** In an ascending list no segment starts below the first one. *)
Lemma ascending_above_first (lowest : breakpoint) (rest : list breakpoint) :
  ascending (lowest :: rest) = true ->
  Forall (fun bp => (low_conc lowest <= low_conc bp)%Q) (lowest :: rest).
Proof.
  revert lowest.
  induction rest as [|next rest IH]; intros lowest Hasc.
  - constructor; [apply Qle_refl | constructor].
  - cbn [ascending] in Hasc.
    apply andb_true_iff in Hasc as [Hhead Hrest].
    apply andb_true_iff in Hhead as [Hwidth Hnext].
    apply Qlt_bool_iff in Hwidth. apply Qle_bool_iff in Hnext.
    constructor; [apply Qle_refl|].
    assert (Hstep : (low_conc lowest <= low_conc next)%Q).
    { apply Qle_trans with (high_conc lowest); [now apply Qlt_le_weak | exact Hnext]. }
    eapply Forall_impl; [exact (IH next Hrest)|].
    intros bp Hbp. cbv beta in Hbp |- *.
    now apply Qle_trans with (low_conc next).
Qed.

Lemma ascending_proper (breakpoints : list breakpoint) (bp : breakpoint) :
  ascending breakpoints = true -> In bp breakpoints ->
  (low_conc bp < high_conc bp)%Q.
Proof.
  induction breakpoints as [|b rest IH]; intros Hasc Hin; [contradiction|].
  cbn [ascending] in Hasc.
  apply andb_true_iff in Hasc as [Hhead Hrest].
  apply andb_true_iff in Hhead as [Hwidth _].
  destruct Hin as [->|Hin]; [now apply Qlt_bool_iff | now apply IH].
Qed.

End SubIndex.

(** C3.  Above the top of the last segment of an ascending table the
    sub-index of a recognised pollutant is exactly 500: the value is
    saturated, not extrapolated. *)
Theorem calculate_sub_index_saturates
    (BREAKPOINTS : breakpoint_table) (pollutant : string)
    (breakpoints : list breakpoint) (top : breakpoint) (concentration : Q) :
  PyDict.get BREAKPOINTS pollutant = Some breakpoints ->
  ascending breakpoints = true ->
  last_segment breakpoints = Some top ->
  (high_conc top < concentration)%Q ->
  calculate_sub_index BREAKPOINTS pollutant concentration = Ok 500.
Proof.
  intros Hget Hasc Hlast Habove.
  unfold calculate_sub_index. rewrite Hget.
  rewrite scan_breakpoints_none.
  - rewrite Hlast.
    apply Qlt_bool_iff in Habove. now rewrite Habove.
  - eapply Forall_impl; [exact (ascending_below_last _ _ Hasc Hlast)|].
    intros bp Hbp. cbv beta in Hbp. unfold in_segment.
    apply andb_false_iff. right.
    apply Qle_bool_false. now apply Qle_lt_trans with (high_conc top).
Qed.

Lemma calculate_sub_index_saturates_witness :
  calculate_sub_index sample_breakpoints "pm25" 501 = Ok 500.
Proof.
  apply (calculate_sub_index_saturates sample_breakpoints "pm25"
           [mkBreakpoint 0 30 0 50; mkBreakpoint 31 60 51 100;
            mkBreakpoint 61 90 101 200; mkBreakpoint 91 120 201 300;
            mkBreakpoint 121 250 301 400; mkBreakpoint 251 500 401 500]
           (mkBreakpoint 251 500 401 500) 501);
    reflexivity.
Defined.




(** ** Categories *)

Lemma scan_categories_none (cs : list category_info) (aqi_value : Q) :
  (forall c, In c cs ->
     ~ (inject_Z (cat_min c) <= aqi_value /\ aqi_value <= inject_Z (cat_max c))%Q) ->
  scan_categories cs aqi_value = None.
Proof.
  induction cs as [|c rest IH]; intros Hout; simpl; [reflexivity|].
  destruct (in_band c aqi_value) eqn:Hband.
  - exfalso. apply (Hout c); [now left|].
    unfold in_band in Hband. apply andb_true_iff in Hband as [Hlo Hhi].
    split; now apply Qle_bool_iff.
  - apply IH. intros c' Hin. apply Hout. now right.
Qed.

(** C10.  A value that lies in no band and does not exceed 500 -- a
    negative one, or one strictly between two bands such as 100.5 -- gets
    the Good band, silently. *)
Theorem get_category_info_defaults_to_good (aqi_value : Q) :
  (forall c, In c AQI_CATEGORIES ->
     ~ (inject_Z (cat_min c) <= aqi_value /\ aqi_value <= inject_Z (cat_max c))%Q) ->
  ~ (500 < aqi_value)%Q ->
  get_category_info aqi_value = cat_good
  /\ cat_category (get_category_info aqi_value) = "Good".
Proof.
  intros Hout Hmax.
  assert (Hgood : get_category_info aqi_value = cat_good).
  { unfold get_category_info.
    rewrite (scan_categories_none _ _ Hout).
    destruct (Py.Qlt_bool 500 aqi_value) eqn:E; [|reflexivity].
    apply Qlt_bool_iff in E. contradiction. }
  split; [exact Hgood | now rewrite Hgood].
Qed.

Lemma get_category_info_defaults_to_good_witness :
  (get_category_info (-1) = cat_good
   /\ cat_category (get_category_info (-1)) = "Good")
  /\ (get_category_info (201 # 2) = cat_good
      /\ cat_category (get_category_info (201 # 2)) = "Good").
Proof.
  split.
  - apply (get_category_info_defaults_to_good (-1)).
    + intros c Hin [Hlo Hhi].
      repeat (destruct Hin as [<-|Hin]; [revert Hlo Hhi; unfold Qle; simpl; lia|]).
      destruct Hin.
    + unfold Qlt; simpl; lia.
  - apply (get_category_info_defaults_to_good (201 # 2)).
    + intros c Hin [Hlo Hhi].
      repeat (destruct Hin as [<-|Hin]; [revert Hlo Hhi; unfold Qle; simpl; lia|]).
      destruct Hin.
    + unfold Qlt; simpl; lia.
Defined.

(** ** Dicts *)

Section DictFacts.

Context {V : Type}.

Lemma get_set_same (d : dict V) (k : string) (v : V) :
  PyDict.get (PyDict.set d k v) k = Some v.
Proof.
  induction d as [|[k' v'] rest IH]; simpl.
  - now rewrite String.eqb_refl.
  - destruct (String.eqb k' k) eqn:E; simpl; now rewrite E.
Qed.

Lemma get_set_other (d : dict V) (k k' : string) (v : V) :
  k <> k' -> PyDict.get (PyDict.set d k v) k' = PyDict.get d k'.
Proof.
  intros Hne.
  induction d as [|[k0 v0] rest IH]; simpl.
  - destruct (String.eqb_spec k k'); [contradiction | reflexivity].
  - destruct (String.eqb_spec k0 k) as [->|Hk0]; simpl.
    + destruct (String.eqb_spec k k'); [contradiction | reflexivity].
    + destruct (String.eqb_spec k0 k'); [reflexivity | exact IH].
Qed.

Lemma set_fresh (d : dict V) (k : string) (v : V) :
  PyDict.get d k = None -> PyDict.set d k v = d ++ [(k, v)].
Proof.
  induction d as [|[k' v'] rest IH]; simpl; intros Hget; [reflexivity|].
  destruct (String.eqb k' k); [discriminate|].
  now rewrite IH.
Qed.

Lemma keys_set_present (d : dict V) (k : string) (v : V) :
  PyDict.get d k <> None -> PyDict.keys (PyDict.set d k v) = PyDict.keys d.
Proof.
  induction d as [|[k' v'] rest IH]; simpl; intros Hget; [contradiction|].
  destruct (String.eqb_spec k' k) as [->|Hne]; simpl; [reflexivity|].
  f_equal. now apply IH.
Qed.

Lemma get_none_not_key (d : dict V) (k : string) :
  PyDict.get d k = None <-> ~ In k (PyDict.keys d).
Proof.
  induction d as [|[k' v'] rest IH]; simpl.
  - split; [intros _ [] | reflexivity].
  - destruct (String.eqb_spec k' k) as [->|Hne].
    + split; [discriminate | intros Hnot; exfalso; apply Hnot; now left].
    + rewrite IH. split.
      * intros Hnot [Heq|Hin]; [contradiction | now apply Hnot].
      * intros Hnot Hin. apply Hnot. now right.
Qed.

Lemma get_In (d : dict V) (k : string) (v : V) :
  PyDict.get d k = Some v -> In (k, v) d.
Proof.
  induction d as [|[k' v'] rest IH]; simpl; [discriminate|].
  destruct (String.eqb_spec k' k) as [->|Hne].
  - intros [= ->]. now left.
  - intros Hget. right. now apply IH.
Qed.

Lemma In_get (d : dict V) (k : string) (v : V) :
  PyDict.wf d -> In (k, v) d -> PyDict.get d k = Some v.
Proof.
  unfold PyDict.wf.
  induction d as [|[k' v'] rest IH]; simpl; intros Hwf Hin; [contradiction|].
  apply List.NoDup_cons_iff in Hwf as [Hfresh Hwf].
  destruct Hin as [[= -> ->]|Hin].
  - now rewrite String.eqb_refl.
  - destruct (String.eqb_spec k' k) as [->|Hne]; [|now apply IH].
    exfalso. apply Hfresh. apply (in_map fst) in Hin. exact Hin.
Qed.

End DictFacts.

(** ** [max] with a key *)

Section MaxBy.

Context {A : Type} (key : A -> Z).

(** The element chosen is the first one that carries the greatest key. *)
Lemma max_from_first (xs : list A) (best : A) :
  exists before after,
    best :: xs = before ++ Py.max_from key best xs :: after
    /\ (forall x, In x before -> key x < key (Py.max_from key best xs))
    /\ (forall x, In x after -> key x <= key (Py.max_from key best xs)).
Proof.
  revert best.
  induction xs as [|x rest IH]; intros best; simpl.
  - exists [], []. repeat split; intros ? [].
  - destruct (key best <? key x) eqn:E.
    + apply Z.ltb_lt in E.
      destruct (IH x) as (before & after & Heq & Hbefore & Hafter).
      exists (best :: before), after. repeat split.
      * simpl. now rewrite <- Heq.
      * intros y [<-|Hy]; [|now apply Hbefore].
        destruct before as [|b before'].
        -- injection Heq as Hx _. rewrite <- Hx. exact E.
        -- injection Heq as Hx _. subst b.
           specialize (Hbefore x (or_introl eq_refl)). lia.
      * exact Hafter.
    + apply Z.ltb_ge in E.
      destruct (IH best) as (before & after & Heq & Hbefore & Hafter).
      destruct before as [|b before'].
      * injection Heq as Hm Hrest.
        exists [], (x :: after). repeat split.
        -- simpl. now rewrite <- Hm, Hrest.
        -- intros ? [].
        -- intros y [<-|Hy]; [rewrite <- Hm; exact E | now apply Hafter].
      * injection Heq as Hb Hrest. subst b.
        exists (best :: x :: before'), after. repeat split.
        -- simpl. do 2 f_equal. exact Hrest.
        -- intros y [<-|[<-|Hy]].
           ++ apply Hbefore. now left.
           ++ specialize (Hbefore best (or_introl eq_refl)). lia.
           ++ apply Hbefore. now right.
        -- exact Hafter.
Qed.

Lemma max_by_first (xs : list A) :
  xs <> [] ->
  exists m before after,
    Py.max_by key xs = Some m
    /\ xs = before ++ m :: after
    /\ (forall x, In x before -> key x < key m)
    /\ (forall x, In x after -> key x <= key m).
Proof.
  destruct xs as [|x rest]; [contradiction|]. intros _.
  destruct (max_from_first rest x) as (before & after & Heq & Hb & Ha).
  exists (Py.max_from key x rest), before, after. now repeat split.
Qed.

End MaxBy.

Section MaxByMap.

Context {A B : Type}.

Lemma max_from_map (f : A -> B) (key : B -> Z) (xs : list A) (best : A) :
  Py.max_from key (f best) (map f xs)
  = f (Py.max_from (fun x => key (f x)) best xs).
Proof.
  revert best. induction xs as [|x rest IH]; intros best; simpl; [reflexivity|].
  destruct (key (f best) <? key (f x)); apply IH.
Qed.

Lemma max_from_ext (key key' : A -> Z) (xs : list A) (best : A) :
  (forall x, In x (best :: xs) -> key x = key' x) ->
  Py.max_from key best xs = Py.max_from key' best xs.
Proof.
  revert best. induction xs as [|x rest IH]; intros best Hext; simpl; [reflexivity|].
  rewrite (Hext best), (Hext x) by (simpl; auto).
  destruct (key' best <? key' x); apply IH; intros y [<-|Hy]; apply Hext; simpl; auto.
Qed.

End MaxByMap.

(** ** The overall index *)

Section OverallIndex.

Variable BREAKPOINTS : breakpoint_table.

Lemma In_contributing (pollutants : dict (option Q)) (k : string) (c : Q) :
  In (k, c) (contributing pollutants)
  <-> In (k, Some c) pollutants /\ (0 <= c)%Q.
Proof.
  unfold contributing. rewrite in_flat_map. split.
  - intros ([k' [c'|]] & Hin & Hpair); simpl in Hpair; [|contradiction].
    destruct (Qle_bool 0 c') eqn:E; [|contradiction].
    destruct Hpair as [[= -> ->]|[]].
    split; [exact Hin | now apply Qle_bool_iff].
  - intros [Hin Hle]. exists (k, Some c). split; [exact Hin|].
    simpl. apply Qle_bool_iff in Hle. rewrite Hle. now left.
Qed.

Lemma contributing_keys (pollutants : dict (option Q)) (k : string) :
  In k (map fst (contributing pollutants)) -> In k (PyDict.keys pollutants).
Proof.
  intros Hin. apply in_map_iff in Hin as ([k' c] & <- & Hin).
  apply In_contributing in Hin as [Hin _].
  apply (in_map fst) in Hin. exact Hin.
Qed.

Lemma contributing_wf (pollutants : dict (option Q)) :
  PyDict.wf pollutants -> List.NoDup (map fst (contributing pollutants)).
Proof.
  unfold PyDict.wf.
  induction pollutants as [|[k c] rest IH]; simpl; intros Hwf; [constructor|].
  apply List.NoDup_cons_iff in Hwf as [Hfresh Hwf].
  destruct c as [c|]; simpl; [|now apply IH].
  destruct (Qle_bool 0 c); simpl; [|now apply IH].
  constructor; [|now apply IH].
  intros Hin. apply Hfresh. now apply contributing_keys.
Qed.

Lemma sub_index_of_keys (pairs : list (string * Q)) (entries : dict Z) :
  Forall2 (sub_index_of BREAKPOINTS) pairs entries ->
  PyDict.keys entries = map fst pairs.
Proof.
  induction 1 as [|pair entry pairs entries [Hkey _] _ IH]; simpl; [reflexivity|].
  now rewrite Hkey, IH.
Qed.

(** The loop adds, in order, one entry per contributing pair. *)
Lemma collect_sub_indices_inv (items : list (string * option Q)) :
  forall (acc subs : dict Z),
    List.NoDup (PyDict.keys items) ->
    (forall k, In k (PyDict.keys items) -> PyDict.get acc k = None) ->
    collect_sub_indices BREAKPOINTS items acc = Ok subs ->
    exists entries,
      subs = acc ++ entries
      /\ Forall2 (sub_index_of BREAKPOINTS) (contributing items) entries.
Proof.
  induction items as [|[k c] rest IH]; intros acc subs Hwf Hfresh Hrun.
  - injection Hrun as <-. exists []. split; [now rewrite app_nil_r | constructor].
  - apply List.NoDup_cons_iff in Hwf as [Hk Hwf].
    assert (Hrest : forall k', In k' (PyDict.keys rest) -> PyDict.get acc k' = None).
    { intros k' Hin. apply Hfresh. now right. }
    cbn [collect_sub_indices] in Hrun.
    destruct c as [c|]; [|exact (IH acc subs Hwf Hrest Hrun)].
    unfold contributing. cbn [flat_map snd fst].
    destruct (Qle_bool 0 c) eqn:Hc; [|exact (IH acc subs Hwf Hrest Hrun)].
    destruct (calculate_sub_index BREAKPOINTS k c) as [s|e] eqn:Hs;
      [|discriminate].
    cbn [Py.bind] in Hrun.
    rewrite set_fresh in Hrun by (apply Hfresh; now left).
    apply IH in Hrun as (entries & -> & Hentries); [| exact Hwf |].
    + exists ((k, s) :: entries). split.
      * now rewrite <- app_assoc.
      * constructor; [split; [reflexivity | exact Hs] | exact Hentries].
    + intros k' Hin.
      rewrite <- (set_fresh acc k s) by (apply Hfresh; now left).
      rewrite get_set_other; [now apply Hrest|].
      intros ->. contradiction.
Qed.

Lemma scan_breakpoints_some (breakpoints : list breakpoint) (c : Q) (r : result Z) :
  scan_breakpoints breakpoints c = Some r ->
  exists bp, In bp breakpoints /\ r = interpolate bp c.
Proof.
  induction breakpoints as [|bp rest IH]; simpl; [discriminate|].
  destruct (in_segment bp c).
  - intros [= <-]. exists bp. split; [now left | reflexivity].
  - intros Hscan. destruct (IH Hscan) as (bp' & Hin & ->).
    exists bp'. split; [now right | reflexivity].
Qed.

Lemma interpolate_proper (bp : breakpoint) (c : Q) :
  (low_conc bp < high_conc bp)%Q -> exists s, interpolate bp c = Ok s.
Proof.
  intros Hwidth. unfold interpolate.
  destruct (Qeq_bool (high_conc bp - low_conc bp) 0) eqn:E; [|eauto].
  apply Qeq_bool_eq in E. exfalso.
  apply Qlt_minus_iff in Hwidth.
  change (high_conc bp + - low_conc bp)%Q with (high_conc bp - low_conc bp)%Q in Hwidth.
  rewrite E in Hwidth. exact (Qlt_irrefl 0 Hwidth).
Qed.

(** Over a well-formed table no sub-index raises. *)
Lemma calculate_sub_index_total (pollutant : string) (c : Q) :
  well_formed_table BREAKPOINTS = true ->
  exists s, calculate_sub_index BREAKPOINTS pollutant c = Ok s.
Proof.
  intros Hwf. unfold calculate_sub_index.
  destruct (PyDict.get BREAKPOINTS pollutant) as [breakpoints|] eqn:Hget; [|eauto].
  apply get_In in Hget.
  unfold well_formed_table in Hwf. rewrite forallb_forall in Hwf.
  specialize (Hwf _ Hget). cbn [snd] in Hwf.
  destruct breakpoints as [|lowest rest]; [discriminate|].
  destruct (scan_breakpoints (lowest :: rest) c) as [r|] eqn:Hscan.
  - apply scan_breakpoints_some in Hscan as (bp & Hin & ->).
    apply interpolate_proper. now apply (ascending_proper (lowest :: rest)).
  - destruct (last_segment (lowest :: rest)) as [top|] eqn:Hlast.
    + destruct (Py.Qlt_bool (high_conc top) c); eauto.
    + exfalso. revert Hlast. clear. unfold last_segment. revert lowest.
      induction rest as [|next rest IH]; intros lowest; [discriminate | apply IH].
Qed.

Lemma collect_sub_indices_total (items : list (string * option Q)) :
  well_formed_table BREAKPOINTS = true ->
  forall acc, exists subs, collect_sub_indices BREAKPOINTS items acc = Ok subs.
Proof.
  intros Hwf.
  induction items as [|[k c] rest IH]; intros acc; simpl; [eauto|].
  destruct c as [c|]; [|apply IH].
  destruct (Qle_bool 0 c); [|apply IH].
  destruct (calculate_sub_index_total k c Hwf) as [s ->]. simpl. apply IH.
Qed.

Lemma calculate_aqi_total (pollutants : dict (option Q)) :
  well_formed_table BREAKPOINTS = true ->
  exists r, calculate_aqi BREAKPOINTS pollutants = Ok r.
Proof.
  intros Hwf. unfold calculate_aqi, PyDict.items.
  destruct (collect_sub_indices_total pollutants Hwf []) as [subs ->].
  simpl. destruct subs; eauto.
Qed.

(** What a returned result is made of: one entry per contributing pair,
    and the index and the dominant pollutant read off the first entry
    with the greatest sub-index. *)
Lemma calculate_aqi_inv (pollutants : dict (option Q)) (r : aqi_result) :
  PyDict.wf pollutants ->
  calculate_aqi BREAKPOINTS pollutants = Ok r ->
  Forall2 (sub_index_of BREAKPOINTS) (contributing pollutants) (sub_indices r)
  /\ match Py.max_by snd (sub_indices r) with
     | Some entry => aqi r = snd entry /\ dominant_pollutant r = Some (fst entry)
     | None => aqi r = 0 /\ dominant_pollutant r = None
     end
  /\ category r = cat_category (get_category_info (inject_Z (aqi r))).
Proof.
  intros Hwf Hrun. unfold calculate_aqi, PyDict.items in Hrun.
  destruct (collect_sub_indices BREAKPOINTS pollutants []) as [subs|e] eqn:Hsubs;
    [|discriminate].
  cbn [Py.bind] in Hrun.
  apply collect_sub_indices_inv in Hsubs as (entries & -> & Hentries);
    [| exact Hwf | reflexivity].
  cbn [app] in Hrun.
  assert (Hkeys : List.NoDup (PyDict.keys entries)).
  { rewrite (sub_index_of_keys _ _ Hentries). now apply contributing_wf. }
  destruct entries as [|entry rest].
  - injection Hrun as <-. cbn. now repeat split.
  - injection Hrun as <-. cbn [sub_indices aqi dominant_pollutant category].
    split; [exact Hentries|]. split; [|reflexivity].
    unfold PyDict.values, PyDict.keys. cbn [map Py.max_by].
    rewrite (max_from_map snd (fun v => v)).
    rewrite (max_from_map fst (sub_indices_get (entry :: rest))).
    rewrite (max_from_ext (fun x => sub_indices_get (entry :: rest) (fst x)) snd).
    + split; reflexivity.
    + intros [k s] Hin. unfold sub_indices_get. cbn [fst snd].
      now rewrite (In_get (entry :: rest) k s Hkeys Hin).
Qed.

End OverallIndex.

Lemma Forall2_In_left {A B : Type} (R : A -> B -> Prop) (xs : list A) (ys : list B) (x : A) :
  Forall2 R xs ys -> In x xs -> exists y, In y ys /\ R x y.
Proof.
  induction 1 as [|x0 y0 xs ys Hxy _ IH]; intros Hin; [contradiction|].
  destruct Hin as [<-|Hin].
  - exists y0. split; [now left | exact Hxy].
  - destruct (IH Hin) as (y & Hy & Hr). exists y. split; [now right | exact Hr].
Qed.

Lemma sample_vector_wf : PyDict.wf sample_vector.
Proof.
  unfold PyDict.wf, sample_vector. simpl.
  repeat constructor; simpl; intuition discriminate.
Qed.

(** C1.  The overall index is the greatest sub-index over exactly the
    pollutants whose concentration is neither null nor negative; when no
    pollutant contributes the index is 0, there is no dominant pollutant
    and the category is Good.  Over a well-formed table the function
    returns. *)
Theorem calculate_aqi_is_maximum
    (BREAKPOINTS : breakpoint_table) (pollutants : dict (option Q)) :
  PyDict.wf pollutants ->
  (well_formed_table BREAKPOINTS = true ->
   exists r, calculate_aqi BREAKPOINTS pollutants = Ok r)
  /\ forall r,
       calculate_aqi BREAKPOINTS pollutants = Ok r ->
       Forall2 (sub_index_of BREAKPOINTS) (contributing pollutants) (sub_indices r)
       /\ (forall k s, In (k, s) (sub_indices r) -> s <= aqi r)
       /\ (contributing pollutants <> [] -> exists k, In (k, aqi r) (sub_indices r))
       /\ (contributing pollutants = [] ->
           aqi r = 0 /\ dominant_pollutant r = None /\ category r = "Good").
Proof.
  intros Hwf. split; [apply calculate_aqi_total|].
  intros r Hrun.
  destruct (calculate_aqi_inv _ _ _ Hwf Hrun) as (Hentries & Hmax & Hcat).
  split; [exact Hentries|].
  destruct (sub_indices r) as [|entry rest] eqn:Hsubs.
  - cbn in Hmax. destruct Hmax as [Haqi Hdom].
    split; [intros k s []|]. split.
    + intros Hsome. inversion Hentries as [Hnil|]. now rewrite <- Hnil in Hsome.
    + intros _. rewrite Hcat, Haqi. now repeat split.
  - destruct (max_by_first snd (entry :: rest)) as (m & before & after & Hm & Heq & Hb & Ha);
      [discriminate|].
    rewrite Hm in Hmax. destruct Hmax as [Haqi _].
    split; [|split].
    + intros k s Hin. rewrite Heq in Hin. rewrite Haqi.
      apply in_app_or in Hin as [Hin|[->|Hin]].
      * specialize (Hb _ Hin). cbn [snd] in Hb. lia.
      * cbn [snd]. lia.
      * exact (Ha _ Hin).
    + intros _. exists (fst m). rewrite Haqi, Heq.
      apply in_or_app. right. left. now destruct m.
    + intros Hnone. rewrite Hnone in Hentries. inversion Hentries.
Qed.

Lemma calculate_aqi_is_maximum_witness :
  exists r,
    calculate_aqi sample_breakpoints sample_vector = Ok r
    /\ Forall2 (sub_index_of sample_breakpoints) (contributing sample_vector) (sub_indices r)
    /\ (forall k s, In (k, s) (sub_indices r) -> s <= aqi r)
    /\ (contributing sample_vector <> [] -> exists k, In (k, aqi r) (sub_indices r))
    /\ (contributing sample_vector = [] ->
        aqi r = 0 /\ dominant_pollutant r = None /\ category r = "Good").
Proof.
  destruct (calculate_aqi_is_maximum sample_breakpoints sample_vector sample_vector_wf)
    as [Hreturns Hspec].
  destruct (Hreturns eq_refl) as [r Hr].
  exists r. split; [exact Hr | exact (Hspec r Hr)].
Defined.

(** C5.  When some pollutant contributes, the dominant pollutant is one
    whose sub-index is the overall index, and among those it is the first
    in the order of the input vector: every contributing pollutant before
    it has a strictly smaller sub-index. *)
Theorem dominant_pollutant_is_first_maximum
    (BREAKPOINTS : breakpoint_table) (pollutants : dict (option Q)) :
  PyDict.wf pollutants ->
  contributing pollutants <> [] ->
  (well_formed_table BREAKPOINTS = true ->
   exists r, calculate_aqi BREAKPOINTS pollutants = Ok r)
  /\ forall r,
       calculate_aqi BREAKPOINTS pollutants = Ok r ->
       exists before k c after,
         contributing pollutants = before ++ (k, c) :: after
         /\ dominant_pollutant r = Some k
         /\ calculate_sub_index BREAKPOINTS k c = Ok (aqi r)
         /\ (forall k' c', In (k', c') before ->
               exists s, calculate_sub_index BREAKPOINTS k' c' = Ok s /\ s < aqi r)
         /\ (forall k' c', In (k', c') after ->
               exists s, calculate_sub_index BREAKPOINTS k' c' = Ok s /\ s <= aqi r).
Proof.
  intros Hwf Hsome. split; [apply calculate_aqi_total|].
  intros r Hrun.
  destruct (calculate_aqi_inv _ _ _ Hwf Hrun) as (Hentries & Hmax & _).
  destruct (sub_indices r) as [|entry rest] eqn:Hsubs.
  { inversion Hentries as [Hnil|]. now rewrite <- Hnil in Hsome. }
  destruct (max_by_first snd (entry :: rest)) as (m & sb & sa & Hm & Heq & Hb & Ha);
    [discriminate|].
  rewrite Hm in Hmax. destruct Hmax as [Haqi Hdom].
  rewrite Heq in Hentries.
  apply List.Forall2_app_inv_r in Hentries as (before & tail & Hbefore & Htail & Hsplit).
  inversion Htail as [|[k c] m' after sa' [Hkey Hsub] Hafter]; subst.
  cbn [fst snd] in Hkey, Hsub.
  exists before, k, c, after. repeat split.
  - exact Hsplit.
  - now rewrite Hdom, Hkey.
  - now rewrite Haqi.
  - intros k' c' Hin.
    destruct (Forall2_In_left _ _ _ _ Hbefore Hin) as (e & He & _ & Hs).
    exists (snd e). split; [exact Hs|]. rewrite Haqi. exact (Hb _ He).
  - intros k' c' Hin.
    destruct (Forall2_In_left _ _ _ _ Hafter Hin) as (e & He & _ & Hs).
    exists (snd e). split; [exact Hs|]. rewrite Haqi. exact (Ha _ He).
Qed.

Lemma dominant_pollutant_is_first_maximum_witness :
  exists r before k c after,
    calculate_aqi sample_breakpoints sample_vector = Ok r
    /\ contributing sample_vector = before ++ (k, c) :: after
    /\ dominant_pollutant r = Some k
    /\ calculate_sub_index sample_breakpoints k c = Ok (aqi r)
    /\ (forall k' c', In (k', c') before ->
          exists s, calculate_sub_index sample_breakpoints k' c' = Ok s /\ s < aqi r)
    /\ (forall k' c', In (k', c') after ->
          exists s, calculate_sub_index sample_breakpoints k' c' = Ok s /\ s <= aqi r).
Proof.
  assert (Hsome : contributing sample_vector <> []) by discriminate.
  destruct (dominant_pollutant_is_first_maximum
              sample_breakpoints sample_vector sample_vector_wf Hsome)
    as [Hreturns Hspec].
  destruct (Hreturns eq_refl) as [r Hr].
  destruct (Hspec r Hr) as (before & k & c & after & H).
  exists r, before, k, c, after. split; [exact Hr | exact H].
Defined.

(** ** The multi-station merge *)

(** Case analysis on the first comparison of a key with [s] in the goal. *)
Ltac case_key s :=
  match goal with
  | |- context [String.eqb ?k s] => destruct (String.eqb_spec k s) as [<-|?]
  end.

Section Merge.

Lemma param_mapping_some (s k : string) :
  PyDict.get param_mapping s = Some k -> k = s /\ In s pollutant_keys.
Proof.
  unfold param_mapping, pollutant_keys. cbn [PyDict.get].
  repeat case_key s; try discriminate;
    intros [= <-]; (split; [reflexivity | simpl; tauto]).
Qed.

Lemma param_mapping_none (s : string) :
  PyDict.get param_mapping s = None -> ~ In s pollutant_keys.
Proof.
  unfold param_mapping, pollutant_keys. cbn [PyDict.get].
  repeat case_key s; try discriminate.
  intros _ Hin. simpl in Hin. intuition congruence.
Qed.

Lemma merged_start : merged [] no_pollutants.
Proof.
  split; [reflexivity|].
  intros key Hin. simpl in Hin.
  repeat (destruct Hin as [<-|Hin]; [reflexivity|]). destruct Hin.
Qed.

Lemma reading_of_other (key : string) (m : measurement) :
  Py.lower (match parameter m with Some p => p | None => "" end) <> key ->
  reading_of key m = [].
Proof.
  intros Hne. unfold reading_of.
  destruct (String.eqb_spec
              (Py.lower (match parameter m with Some p => p | None => "" end)) key);
    [contradiction | reflexivity].
Qed.

Lemma merged_unchanged (seen : list measurement) (pollutants : dict (option Q))
    (m : measurement) :
  merged seen pollutants ->
  (forall key, In key pollutant_keys -> reading_of key m = []) ->
  merged (seen ++ [m]) pollutants.
Proof.
  intros [Hkeys Hworst] Hnone. split; [exact Hkeys|].
  intros key Hin. rewrite flat_map_app. cbn [flat_map].
  rewrite (Hnone key Hin). rewrite !app_nil_r. now apply Hworst.
Qed.

Lemma merged_set (seen : list measurement) (pollutants : dict (option Q))
    (m : measurement) (k : string) (v : Q) :
  merged seen pollutants ->
  In k pollutant_keys ->
  (forall key, key <> k -> reading_of key m = []) ->
  reading_of k m = [v] ->
  (forall x, In x (flat_map (reading_of k) seen) -> (x <= v)%Q) ->
  merged (seen ++ [m]) (PyDict.set pollutants k (Some v)).
Proof.
  intros [Hkeys Hworst] Hk Hothers Hmine Hbound. split.
  - rewrite keys_set_present; [exact Hkeys|].
    intros Hnone. apply get_none_not_key in Hnone. now rewrite Hkeys in Hnone.
  - intros key Hin. rewrite flat_map_app. cbn [flat_map]. rewrite app_nil_r.
    destruct (String.eqb_spec k key) as [<-|Hne].
    + rewrite get_set_same, Hmine. cbn [worst_of]. split.
      * apply in_or_app. right. now left.
      * intros x Hx. apply in_app_or in Hx as [Hx|[<-|[]]];
          [now apply Hbound | apply Qle_refl].
    + rewrite get_set_other by exact Hne.
      rewrite (Hothers key) by congruence. rewrite app_nil_r. now apply Hworst.
Qed.

Lemma merged_keep (seen : list measurement) (pollutants : dict (option Q))
    (m : measurement) (k : string) (v current : Q) :
  merged seen pollutants ->
  In k pollutant_keys ->
  (forall key, key <> k -> reading_of key m = []) ->
  reading_of k m = [v] ->
  PyDict.get pollutants k = Some (Some current) ->
  (v <= current)%Q ->
  merged (seen ++ [m]) pollutants.
Proof.
  intros [Hkeys Hworst] Hk Hothers Hmine Hget Hle. split; [exact Hkeys|].
  intros key Hin. rewrite flat_map_app. cbn [flat_map]. rewrite app_nil_r.
  destruct (String.eqb_spec k key) as [<-|Hne].
  - specialize (Hworst k Hk). rewrite Hget in Hworst |- *.
    cbn [worst_of] in Hworst |- *. destruct Hworst as [Hcur Hbound].
    rewrite Hmine. split.
    + apply in_or_app. now left.
    + intros x Hx. apply in_app_or in Hx as [Hx|[<-|[]]];
        [now apply Hbound | exact Hle].
  - rewrite (Hothers key) by congruence. rewrite app_nil_r. now apply Hworst.
Qed.

(** One measurement keeps the invariant. *)
Lemma record_measurement_merged (seen : list measurement)
    (pollutants : dict (option Q)) (m : measurement) :
  merged seen pollutants ->
  merged (seen ++ [m]) (record_measurement pollutants m).
Proof.
  intros Hmerged. unfold record_measurement.
  set (param := Py.lower (match parameter m with Some p => p | None => "" end)).
  destruct (PyDict.get param_mapping param) as [k|] eqn:Hmap.
  - apply param_mapping_some in Hmap as [-> Hk].
    assert (Hothers : forall key, key <> param -> reading_of key m = []).
    { intros key Hne. apply reading_of_other. fold param. congruence. }
    assert (Hmine : reading_of param m
                    = match value m with
                      | Some v => if Qle_bool 0 v then [v] else []
                      | None => []
                      end).
    { unfold reading_of. fold param. now rewrite String.eqb_refl. }
    destruct (value m) as [v|].
    + destruct (Qle_bool 0 v) eqn:Hv.
      * destruct Hmerged as [Hkeys Hworst].
        assert (Hfield := Hworst param Hk).
        destruct (PyDict.get pollutants param) as [[current|]|] eqn:Hget.
        -- cbn [worst_of] in Hfield. destruct Hfield as [Hcur Hbound].
           destruct (Py.Qlt_bool current v) eqn:Hlt.
           ++ apply Qlt_bool_iff in Hlt.
              apply (merged_set seen pollutants m param v); try assumption.
              ** now split.
              ** intros x Hx. apply Qle_trans with current;
                   [now apply Hbound | now apply Qlt_le_weak].
           ++ apply Qlt_bool_false in Hlt.
              apply (merged_keep seen pollutants m param v current); try assumption.
              now split.
        -- cbn [worst_of] in Hfield.
           apply (merged_set seen pollutants m param v); try assumption.
           ++ now split.
           ++ rewrite Hfield. intros x [].
        -- contradiction.
      * apply merged_unchanged; [exact Hmerged|].
        intros key Hin. destruct (String.eqb_spec key param) as [->|Hne];
          [exact Hmine | now apply Hothers].
    + apply merged_unchanged; [exact Hmerged|].
      intros key Hin. destruct (String.eqb_spec key param) as [->|Hne];
        [exact Hmine | now apply Hothers].
  - apply param_mapping_none in Hmap.
    apply merged_unchanged; [exact Hmerged|].
    intros key Hin. apply reading_of_other. fold param. congruence.
Qed.

Lemma fold_measurements_merged (ms seen : list measurement)
    (pollutants : dict (option Q)) :
  merged seen pollutants ->
  merged (seen ++ ms) (fold_left record_measurement ms pollutants).
Proof.
  revert seen pollutants.
  induction ms as [|m rest IH]; intros seen pollutants Hmerged; simpl.
  - now rewrite app_nil_r.
  - replace (seen ++ m :: rest) with ((seen ++ [m]) ++ rest)
      by (now rewrite <- app_assoc).
    apply IH. now apply record_measurement_merged.
Qed.

(** The two nested loops are one loop over all the measurements. *)
Lemma fold_stations_flat (results : list station_result)
    (pollutants : dict (option Q)) :
  fold_left record_station results pollutants
  = fold_left record_measurement (flat_map station_measurements results) pollutants.
Proof.
  revert pollutants.
  induction results as [|r rest IH]; intros pollutants; simpl; [reflexivity|].
  rewrite fold_left_app. apply IH.
Qed.

Lemma readings_flat (key : string) (results : list station_result) :
  readings key results
  = flat_map (reading_of key) (flat_map station_measurements results).
Proof.
  unfold readings, station_readings.
  induction results as [|r rest IH]; simpl; [reflexivity|].
  now rewrite flat_map_app, IH.
Qed.

Lemma aggregate_measurements_merged (results : list station_result) :
  merged (flat_map station_measurements results) (aggregate_measurements results).
Proof.
  unfold aggregate_measurements. rewrite fold_stations_flat.
  apply (fold_measurements_merged _ [] no_pollutants merged_start).
Qed.

(** A measurement that has been seen changes nothing when seen again. *)
Lemma record_measurement_absorbed (seen : list measurement)
    (pollutants : dict (option Q)) (m : measurement) :
  merged seen pollutants -> In m seen ->
  record_measurement pollutants m = pollutants.
Proof.
  intros [Hkeys Hworst] Hseen. unfold record_measurement.
  set (param := Py.lower (match parameter m with Some p => p | None => "" end)).
  destruct (PyDict.get param_mapping param) as [k|] eqn:Hmap; [|reflexivity].
  apply param_mapping_some in Hmap as [-> Hk].
  destruct (value m) as [v|] eqn:Hvalue; [|reflexivity].
  destruct (Qle_bool 0 v) eqn:Hv; [|reflexivity].
  assert (Hin : In v (flat_map (reading_of param) seen)).
  { apply in_flat_map. exists m. split; [exact Hseen|].
    unfold reading_of. fold param. rewrite String.eqb_refl, Hvalue, Hv. now left. }
  specialize (Hworst param Hk).
  destruct (PyDict.get pollutants param) as [[current|]|]; cbn [worst_of] in Hworst.
  - destruct Hworst as [_ Hbound].
    specialize (Hbound v Hin). apply Qlt_bool_false in Hbound. now rewrite Hbound.
  - rewrite Hworst in Hin. destruct Hin.
  - contradiction.
Qed.

Lemma fold_measurements_absorbed (ms seen : list measurement)
    (pollutants : dict (option Q)) :
  merged seen pollutants -> (forall m, In m ms -> In m seen) ->
  fold_left record_measurement ms pollutants = pollutants.
Proof.
  intros Hmerged. induction ms as [|m rest IH]; intros Hsub; simpl; [reflexivity|].
  rewrite (record_measurement_absorbed seen) by (auto; apply Hsub; now left).
  apply IH. intros m' Hin. apply Hsub. now right.
Qed.

(** Two fields that are each the worst of a permutation of the same
    readings are equal as numbers. *)
Lemma worst_of_permutation (a b : option (option Q)) (rs rs' : list Q) :
  Permutation rs rs' -> worst_of a rs -> worst_of b rs' ->
  exists x y, a = Some x /\ b = Some y /\ same_reading x y.
Proof.
  intros Hperm Ha Hb.
  destruct a as [[m|]|]; [| |contradiction];
    destruct b as [[m'|]|]; try contradiction; cbn [worst_of] in Ha, Hb.
  - destruct Ha as [Hm Hbound], Hb as [Hm' Hbound'].
    exists (Some m), (Some m'). repeat split. cbn [same_reading].
    apply Qle_antisym.
    + apply Hbound'. now apply (Permutation_in _ Hperm).
    + apply Hbound. now apply (Permutation_in _ (Permutation_sym Hperm)).
  - exfalso. destruct Ha as [Hm _]. subst rs'.
    apply Permutation_sym, Permutation_nil in Hperm. now subst rs.
  - exfalso. destruct Hb as [Hm' _]. subst rs.
    apply Permutation_nil in Hperm. now subst rs'.
  - exists None, None. now repeat split.
Qed.

End Merge.

(** C6.  Each field of the merged vector is the greatest of the
    non-null, non-negative readings of its pollutant over all the
    stations, and null when there is none.  Hence the merge does not
    depend on the order of the stations (any permutation of them, in
    particular the concatenation of two lists either way round, gives
    fields that are equal as numbers), and merging readings that were
    merged already changes nothing. *)
Theorem aggregate_measurements_worst_case
    (results results' : list station_result) (station : station_result) :
  (PyDict.keys (aggregate_measurements results) = pollutant_keys
   /\ forall key, In key pollutant_keys ->
        worst_of (PyDict.get (aggregate_measurements results) key)
                 (readings key results))
  /\ (Permutation results results' ->
      forall key, In key pollutant_keys ->
        exists x y,
          PyDict.get (aggregate_measurements results) key = Some x
          /\ PyDict.get (aggregate_measurements results') key = Some y
          /\ same_reading x y)
  /\ (forall key, In key pollutant_keys ->
        exists x y,
          PyDict.get (aggregate_measurements (results ++ results')) key = Some x
          /\ PyDict.get (aggregate_measurements (results' ++ results)) key = Some y
          /\ same_reading x y)
  /\ aggregate_measurements (results ++ results) = aggregate_measurements results
  /\ aggregate_measurements (station :: station :: results)
     = aggregate_measurements (station :: results).
Proof.
  assert (Hworst : forall rs,
             PyDict.keys (aggregate_measurements rs) = pollutant_keys
             /\ forall key, In key pollutant_keys ->
                  worst_of (PyDict.get (aggregate_measurements rs) key) (readings key rs)).
  { intros rs. destruct (aggregate_measurements_merged rs) as [Hkeys Hfields].
    split; [exact Hkeys|]. intros key Hin. rewrite readings_flat. now apply Hfields. }
  assert (Hperm : forall rs rs', Permutation rs rs' ->
             forall key, In key pollutant_keys ->
               exists x y,
                 PyDict.get (aggregate_measurements rs) key = Some x
                 /\ PyDict.get (aggregate_measurements rs') key = Some y
                 /\ same_reading x y).
  { intros rs rs' Hp key Hin.
    apply (worst_of_permutation _ _ (readings key rs) (readings key rs')).
    - unfold readings. now apply Permutation_flat_map.
    - now apply Hworst.
    - now apply Hworst. }
  split; [apply Hworst|]. split; [apply Hperm|]. split; [|split].
  - apply Hperm. apply Permutation_app_comm.
  - unfold aggregate_measurements at 1. rewrite fold_left_app.
    fold (aggregate_measurements results). rewrite fold_stations_flat.
    apply (fold_measurements_absorbed _ (flat_map station_measurements results)).
    + apply aggregate_measurements_merged.
    + auto.
  - unfold aggregate_measurements. cbn [fold_left]. f_equal.
    unfold record_station at 1.
    apply (fold_measurements_absorbed _ (station_measurements station)).
    + apply (fold_measurements_merged _ [] no_pollutants merged_start).
    + auto.
Qed.

(** Scenario C of the specification: readings of 40, 85 and 60 merge to 85,
    whatever the order of the stations. *)
Lemma aggregate_measurements_worst_case_witness :
  PyDict.get (aggregate_measurements [sample_station]) "pm25" = Some (Some 85%Q)
  /\ exists x y,
       PyDict.get (aggregate_measurements [sample_station; mkStation None]) "pm25" = Some x
       /\ PyDict.get (aggregate_measurements [mkStation None; sample_station]) "pm25" = Some y
       /\ same_reading x y.
Proof.
  split; [reflexivity|].
  destruct (aggregate_measurements_worst_case
              [sample_station; mkStation None] [mkStation None; sample_station]
              sample_station) as (_ & Hperm & _).
  apply Hperm.
  - apply perm_swap.
  - simpl. tauto.
Defined.

(** ** The cache *)

(** C7.  A value stored at time [t0] is returned unchanged by a lookup at
    any time [t] with [t - t0 < CACHE_DURATION], and a lookup at a time
    with [t - t0 >= CACHE_DURATION] is a miss whatever the value; the
    lookup does not touch the store, so the stale entry is still there,
    and a later store under the same key replaces it. *)
Theorem cache_hit_within_duration {V : Type}
    (_cache : gmap string (V * Q)) (cache_key : string) (data : V) (t0 t : Q) :
  ((t - t0 < CACHE_DURATION)%Q ->
   get_cached_data (set_cache _cache t0 cache_key data) t cache_key = Some data)
  /\ ((CACHE_DURATION <= t - t0)%Q ->
      get_cached_data (set_cache _cache t0 cache_key data) t cache_key = None
      /\ set_cache _cache t0 cache_key data !! cache_key = Some (data, t0))
  /\ (forall (data' : V) (t1 : Q),
        set_cache (set_cache _cache t0 cache_key data) t1 cache_key data' !! cache_key
        = Some (data', t1)).
Proof.
  unfold get_cached_data, set_cache.
  split; [|split].
  - intros Hfresh. rewrite lookup_insert_eq.
    apply Qlt_bool_iff in Hfresh. now rewrite Hfresh.
  - intros Hstale. rewrite lookup_insert_eq.
    apply Qlt_bool_false in Hstale. now rewrite Hstale.
  - intros data' t1. now rewrite lookup_insert_eq.
Qed.

Lemma cache_hit_within_duration_witness :
  get_cached_data (set_cache (∅ : gmap string (Z * Q)) 100 "openaq_Delhi" 7) 1899
                  "openaq_Delhi" = Some 7
  /\ get_cached_data (set_cache (∅ : gmap string (Z * Q)) 100 "openaq_Delhi" 7) 1900
                     "openaq_Delhi" = None
  /\ set_cache (∅ : gmap string (Z * Q)) 100 "openaq_Delhi" 7 !! "openaq_Delhi"
     = Some (7, 100%Q).
Proof.
  split.
  - apply (cache_hit_within_duration (∅ : gmap string (Z * Q)) "openaq_Delhi" 7 100 1899).
    reflexivity.
  - apply (cache_hit_within_duration (∅ : gmap string (Z * Q)) "openaq_Delhi" 7 100 1900).
    discriminate.
Defined.

(** A lookup that hits at some time hits at every earlier time. *)
Lemma get_cached_data_earlier {V : Type}
    (_cache : gmap string (V * Q)) (cache_key : string) (data : V) (t t' : Q) :
  (t <= t')%Q ->
  get_cached_data _cache t' cache_key = Some data ->
  get_cached_data _cache t cache_key = Some data.
Proof.
  unfold get_cached_data. intros Hle.
  destruct (_cache !! cache_key) as [[d timestamp]|]; [|discriminate].
  destruct (Py.Qlt_bool (t' - timestamp) CACHE_DURATION) eqn:Hlate; [|discriminate].
  intros [= ->].
  apply Qlt_bool_iff in Hlate.
  assert (Hearly : (t - timestamp < CACHE_DURATION)%Q) by lra.
  apply Qlt_bool_iff in Hearly. now rewrite Hearly.
Qed.

(** ** Fetching *)

Section Fetching.

Context `{Host} {G : Type}.

Variable net : network.

Lemma requests_get_world (r : request) (w : world G) :
  aq_cache (snd (requests_get net r w)) = aq_cache w
  /\ weather_cache (snd (requests_get net r w)) = weather_cache w
  /\ rng (snd (requests_get net r w)) = rng w
  /\ sent (snd (requests_get net r w)) = sent w ++ [r]
  /\ clock (snd (requests_get net r w))
     = (clock w + snd (net (List.length (sent w)) r))%Q
  /\ fst (requests_get net r w) = fst (net (List.length (sent w)) r).
Proof.
  unfold requests_get. destruct (net (List.length (sent w)) r) as [outcome elapsed].
  now repeat split.
Qed.

(** On a miss, [fetch_aqi_from_openaq] sends its request. *)
Lemma fetch_aqi_from_openaq_sends (city : string) (lat lng : option Q) (w : world G) :
  aq_miss city w ->
  sent (snd (fetch_aqi_from_openaq net city lat lng w))
  = sent w ++ [openaq_request city lat lng].
Proof.
  intros Hmiss. unfold fetch_aqi_from_openaq. fold (openaq_request city lat lng).
  destruct (requests_get_world (openaq_request city lat lng) w)
    as (_ & _ & _ & Hsent & _ & _).
  destruct (requests_get net (openaq_request city lat lng) w) as [outcome w1].
  cbn [snd] in Hsent.
  destruct (get_cached_data (aq_cache w) (clock w) ("openaq_" +:+ city))
    as [[|entry rest]|] eqn:Hcache.
  - destruct outcome as [| |status_code data]; try exact Hsent.
    destruct (status_code =? 200); [|exact Hsent].
    destruct (results data) as [[|r rs]|]; exact Hsent.
  - specialize (Hmiss _ Hcache). discriminate.
  - destruct outcome as [| |status_code data]; try exact Hsent.
    destruct (status_code =? 200); [|exact Hsent].
    destruct (results data) as [[|r rs]|]; exact Hsent.
Qed.

(** On a miss followed by a failed request, nothing is returned and the
    world is the one the request left. *)
Lemma fetch_aqi_from_openaq_failed (city : string) (lat lng : option Q) (w : world G) :
  aq_miss city w ->
  openaq_failed (fst (net (List.length (sent w)) (openaq_request city lat lng))) = true ->
  fetch_aqi_from_openaq net city lat lng w
  = (None, snd (requests_get net (openaq_request city lat lng) w)).
Proof.
  intros Hmiss Hfailed. unfold fetch_aqi_from_openaq.
  fold (openaq_request city lat lng).
  destruct (requests_get_world (openaq_request city lat lng) w)
    as (_ & _ & _ & _ & _ & Houtcome).
  rewrite <- Houtcome in Hfailed.
  destruct (requests_get net (openaq_request city lat lng) w) as [outcome w1].
  cbn [fst snd] in *.
  assert (Hbranch :
            match outcome with
            | Timeout => (None, w1)
            | RequestException => (None, w1)
            | Response status_code data =>
                if status_code =? 200 then
                  match results data with
                  | Some ((_ :: _) as rs) =>
                      let pollutants := aggregate_measurements rs in
                      (Some pollutants,
                       mkWorld (set_cache (aq_cache w1) (clock w1)
                                          ("openaq_" +:+ city) pollutants)
                               (weather_cache w1) (clock w1) (rng w1) (sent w1))
                  | _ => (None, w1)
                  end
                else (None, w1)
            end = (None : option (dict (option Q)), w1)).
  { destruct outcome as [| |status_code data]; try reflexivity.
    cbn [openaq_failed] in Hfailed.
    destruct (status_code =? 200); [|reflexivity].
    destruct (results data) as [[|r rs]|]; try reflexivity.
    discriminate. }
  destruct (get_cached_data (aq_cache w) (clock w) ("openaq_" +:+ city))
    as [[|entry rest]|] eqn:Hcache.
  - exact Hbranch.
  - specialize (Hmiss _ Hcache). discriminate.
  - exact Hbranch.
Qed.

Lemma aq_miss_later (city : string) (w w' : world G) :
  aq_cache w' = aq_cache w -> (clock w <= clock w')%Q ->
  aq_miss city w -> aq_miss city w'.
Proof.
  intros Hcache Hclock Hmiss cached Hhit. apply Hmiss.
  rewrite Hcache in Hhit.
  now apply (get_cached_data_earlier _ _ _ (clock w) (clock w')).
Qed.

Lemma fetch_weather_failed (lat lng : Q) (w : world G) :
  get_cached_data (weather_cache w) (clock w) (weather_key lat lng) = None ->
  WEATHER_API_KEY <> "" ->
  weather_failed (fst (net (List.length (sent w)) (CurrentWeather lat lng))) = true ->
  fetch_weather net lat lng w
  = (Ok (get_demo_weather (clock (snd (requests_get net (CurrentWeather lat lng) w)))),
     snd (requests_get net (CurrentWeather lat lng) w)).
Proof.
  intros Hmiss Hkey Hfailed. unfold fetch_weather. fold (weather_key lat lng).
  rewrite Hmiss.
  destruct (String.eqb_spec WEATHER_API_KEY "") as [|_]; [contradiction|].
  destruct (requests_get_world (CurrentWeather lat lng) w)
    as (_ & _ & _ & _ & _ & Houtcome).
  rewrite <- Houtcome in Hfailed.
  destruct (requests_get net (CurrentWeather lat lng) w) as [outcome w1].
  cbn [fst snd] in *.
  destruct outcome as [| |status_code data]; try reflexivity.
  cbn [weather_failed] in Hfailed.
  destruct (status_code =? 200); [discriminate | reflexivity].
Qed.

Lemma fetch_weather_sends (lat lng : Q) (w : world G) :
  get_cached_data (weather_cache w) (clock w) (weather_key lat lng) = None ->
  WEATHER_API_KEY <> "" ->
  sent (snd (fetch_weather net lat lng w)) = sent w ++ [CurrentWeather lat lng].
Proof.
  intros Hmiss Hkey. unfold fetch_weather. fold (weather_key lat lng).
  rewrite Hmiss.
  destruct (String.eqb_spec WEATHER_API_KEY "") as [|_]; [contradiction|].
  destruct (requests_get_world (CurrentWeather lat lng) w)
    as (_ & _ & _ & Hsent & _ & _).
  destruct (requests_get net (CurrentWeather lat lng) w) as [outcome w1].
  cbn [snd] in Hsent.
  destruct outcome as [| |status_code data]; try exact Hsent.
  destruct (status_code =? 200); [|exact Hsent].
  destruct (weather_of_json data); exact Hsent.
Qed.

Lemma weather_miss_later (key : string) (w w' : world G) :
  weather_cache w' = weather_cache w -> (clock w <= clock w')%Q ->
  get_cached_data (weather_cache w) (clock w) key = None ->
  get_cached_data (weather_cache w') (clock w') key = None.
Proof.
  intros Hcache Hclock Hmiss.
  destruct (get_cached_data (weather_cache w') (clock w') key) as [cached|] eqn:Hhit;
    [|reflexivity].
  rewrite Hcache in Hhit.
  apply (get_cached_data_earlier _ _ _ (clock w) (clock w')) in Hhit; [|exact Hclock].
  congruence.
Qed.

End Fetching.

(** C8.  A live fetch that fails -- a timeout, a transport error, a status
    other than 200, or an answer without results -- stores nothing: both
    caches are as they were, nothing is returned, the next call (any time
    later) sends the request again, and the caller takes the demo data.
    The same holds for the weather fetch, which returns the demo weather. *)
Theorem failed_fetch_is_never_cached `{Host} {G : Type} `{PyRandom G}
    (net : network) (city : string) (lat lng : option Q) (wlat wlng : Q)
    (w : world G) :
  (aq_miss city w ->
   openaq_failed (fst (net (List.length (sent w)) (openaq_request city lat lng))) = true ->
   (0 <= snd (net (List.length (sent w)) (openaq_request city lat lng)))%Q ->
   let after := fetch_aqi_from_openaq net city lat lng w in
   fst after = None
   /\ aq_cache (snd after) = aq_cache w
   /\ weather_cache (snd after) = weather_cache w
   /\ (forall seconds, (0 <= seconds)%Q ->
         sent (snd (fetch_aqi_from_openaq net city lat lng (later seconds (snd after))))
         = sent (snd after) ++ [openaq_request city lat lng])
   /\ snd (fst (choose_pollutants (fst after) city (snd after))) = "demo")
  /\ (get_cached_data (weather_cache w) (clock w) (weather_key wlat wlng) = None ->
      WEATHER_API_KEY <> "" ->
      weather_failed (fst (net (List.length (sent w)) (CurrentWeather wlat wlng))) = true ->
      (0 <= snd (net (List.length (sent w)) (CurrentWeather wlat wlng)))%Q ->
      let after := fetch_weather net wlat wlng w in
      fst after = Ok (get_demo_weather (clock (snd after)))
      /\ aq_cache (snd after) = aq_cache w
      /\ weather_cache (snd after) = weather_cache w
      /\ (forall seconds, (0 <= seconds)%Q ->
            sent (snd (fetch_weather net wlat wlng (later seconds (snd after))))
            = sent (snd after) ++ [CurrentWeather wlat wlng])).
Proof.
  split.
  - intros Hmiss Hfailed Helapsed after. subst after.
    rewrite (fetch_aqi_from_openaq_failed net city lat lng w Hmiss Hfailed).
    cbn [fst snd].
    destruct (requests_get_world net (openaq_request city lat lng) w)
      as (Haq & Hweather & _ & _ & Hclock & _).
    split; [reflexivity|]. split; [exact Haq|]. split; [exact Hweather|]. split.
    + intros seconds Hseconds.
      rewrite fetch_aqi_from_openaq_sends; [reflexivity|].
      apply (aq_miss_later city w); [exact Haq | | exact Hmiss].
      cbn [later clock]. rewrite Hclock. lra.
    + unfold choose_pollutants.
      destruct (get_demo_aqi_data city
                  (rng (snd (requests_get net (openaq_request city lat lng) w))))
        as [pollutants g].
      reflexivity.
  - intros Hmiss Hkey Hfailed Helapsed after. subst after.
    rewrite (fetch_weather_failed net wlat wlng w Hmiss Hkey Hfailed).
    cbn [fst snd].
    destruct (requests_get_world net (CurrentWeather wlat wlng) w)
      as (Haq & Hweather & _ & _ & Hclock & _).
    split; [reflexivity|]. split; [exact Haq|]. split; [exact Hweather|].
    intros seconds Hseconds.
    rewrite fetch_weather_sends; [reflexivity | | exact Hkey].
    apply (weather_miss_later (weather_key wlat wlng) w); [exact Hweather | | exact Hmiss].
    cbn [later clock]. rewrite Hclock. lra.
Qed.

Lemma failed_fetch_is_never_cached_witness :
  (let after := fetch_aqi_from_openaq dead_network "Delhi" None None empty_world in
   fst after = None
   /\ aq_cache (snd after) = aq_cache empty_world
   /\ weather_cache (snd after) = weather_cache empty_world
   /\ (forall seconds, (0 <= seconds)%Q ->
         sent (snd (fetch_aqi_from_openaq dead_network "Delhi" None None
                      (later seconds (snd after))))
         = sent (snd after) ++ [openaq_request "Delhi" None None])
   /\ snd (fst (choose_pollutants (fst after) "Delhi" (snd after))) = "demo")
  /\ (let after := fetch_weather dead_network 28 77 empty_world in
      fst after = Ok (get_demo_weather (clock (snd after)))
      /\ aq_cache (snd after) = aq_cache empty_world
      /\ weather_cache (snd after) = weather_cache empty_world
      /\ (forall seconds, (0 <= seconds)%Q ->
            sent (snd (fetch_weather dead_network 28 77 (later seconds (snd after))))
            = sent (snd after) ++ [CurrentWeather 28 77])).
Proof.
  destruct (failed_fetch_is_never_cached dead_network "Delhi" None None 28 77 empty_world)
    as [Haq Hweather].
  split.
  - apply Haq.
    + intros cached Hhit. discriminate.
    + reflexivity.
    + discriminate.
  - apply Hweather.
    + reflexivity.
    + discriminate.
    + reflexivity.
    + discriminate.
Defined.

(** ** The report of a city *)

Section Report.

Context `{Host} {G : Type} `{PyRandom G}.

Variable BREAKPOINTS : breakpoint_table.
Variable net : network.

Lemma fetch_weather_returns (lat lng : Q) (w : world G) :
  weather_listed net ->
  exists weather, fst (fetch_weather net lat lng w) = Ok weather.
Proof.
  intros Hlisted. unfold fetch_weather.
  destruct (get_cached_data (weather_cache w) (clock w) _) as [cached|]; [eauto|].
  destruct (String.eqb WEATHER_API_KEY ""); [eauto|].
  destruct (requests_get_world net (CurrentWeather lat lng) w)
    as (_ & _ & _ & _ & _ & Houtcome).
  destruct (requests_get net (CurrentWeather lat lng) w) as [outcome w1].
  cbn [fst] in Houtcome.
  destruct outcome as [| |status_code data]; [eauto | eauto |].
  destruct (status_code =? 200); [|eauto].
  unfold weather_of_json, first_weather_entry.
  destruct (weather data) as [[|entry rest]|] eqn:Hweather; cbn [Py.bind]; [|eauto|eauto].
  exfalso. symmetry in Houtcome.
  exact (Hlisted _ _ _ _ Houtcome Hweather).
Qed.

(** The report is built from the vector that [choose_pollutants] takes. *)
Lemma get_city_data_built (info : city_info) (w : world G) :
  well_formed_table BREAKPOINTS = true ->
  weather_listed net ->
  let name := match city_name info with Some n => n | None => "Unknown" end in
  let fetched := fetch_aqi_from_openaq net name (city_lat info) (city_lng info) w in
  let chosen := choose_pollutants (fst fetched) name (snd fetched) in
  exists report w',
    get_city_data BREAKPOINTS net info w = (Ok report, w')
    /\ data_source report = snd (fst chosen)
    /\ built_from BREAKPOINTS report (fst (fst chosen)).
Proof.
  intros Htable Hlisted name fetched chosen. subst fetched chosen.
  unfold get_city_data. fold name.
  destruct (fetch_aqi_from_openaq net name (city_lat info) (city_lng info) w)
    as [fetched w1].
  cbn [fst snd].
  destruct (choose_pollutants fetched name w1) as [[pollutants source] w2].
  cbn [fst snd].
  destruct (calculate_aqi_total BREAKPOINTS pollutants Htable) as [r Hr].
  rewrite Hr.
  destruct (truthy (city_lat info) && truthy (city_lng info)).
  - destruct (fetch_weather_returns (number_or_zero (city_lat info))
                (number_or_zero (city_lng info)) w2 Hlisted) as [weather Hweather].
    destruct (fetch_weather net (number_or_zero (city_lat info))
                (number_or_zero (city_lng info)) w2) as [weather_result w3].
    cbn [fst] in Hweather. subst weather_result.
    destruct (get_historical_data name 24 (clock w3) (rng w3)) as [history g].
    eexists _, _. split; [reflexivity|]. split; [reflexivity|].
    exists r. now repeat split.
  - destruct (get_historical_data name 24 (clock w2) (rng w2)) as [history g].
    eexists _, _. split; [reflexivity|]. split; [reflexivity|].
    exists r. now repeat split.
Qed.

End Report.

(** The test [all(v is None for v in pollutants.values())] against the
    fields of the vector. *)
Lemma all_none_every_field_null (pollutants : dict (option Q)) :
  all_none pollutants = true <-> every_field_null pollutants.
Proof.
  unfold all_none, every_field_null, PyDict.values. rewrite forallb_forall. split.
  - intros Hall key v Hin.
    specialize (Hall v (in_map snd _ _ Hin)). now destruct v.
  - intros Hnull v Hin. apply in_map_iff in Hin as ([key v'] & <- & Hin).
    now rewrite (Hnull key v' Hin).
Qed.

Lemma all_none_some_field_measured (pollutants : dict (option Q)) :
  all_none pollutants = false <-> some_field_measured pollutants.
Proof.
  split.
  - intros Hall. unfold all_none, PyDict.values in Hall.
    induction pollutants as [|[key v] rest IH]; [discriminate|].
    cbn [map forallb snd] in Hall. destruct v as [c|].
    + exists key, c. now left.
    + destruct (IH Hall) as (key' & c & Hin). exists key', c. now right.
  - intros (key & c & Hin).
    destruct (all_none pollutants) eqn:Hall; [|reflexivity].
    apply all_none_every_field_null in Hall. discriminate (Hall key (Some c) Hin).
Qed.

(** C9.  When the live fetch returns nothing, or a vector whose fields are
    all null, the report is built from the demo vector and its
    [data_source] is "demo"; when some field is not null the report is
    built from the live vector and its [data_source] is "openaq". *)
Theorem get_city_data_provenance `{Host} {G : Type} `{PyRandom G}
    (BREAKPOINTS : breakpoint_table) (net : network) (info : city_info)
    (w : world G) :
  well_formed_table BREAKPOINTS = true ->
  weather_listed net ->
  let name := match city_name info with Some n => n | None => "Unknown" end in
  let fetched := fetch_aqi_from_openaq net name (city_lat info) (city_lng info) w in
  let demo := fst (get_demo_aqi_data name (rng (snd fetched))) in
  exists report w',
    get_city_data BREAKPOINTS net info w = (Ok report, w')
    /\ (fst fetched = None ->
        data_source report = "demo" /\ built_from BREAKPOINTS report demo)
    /\ (forall live, fst fetched = Some live -> every_field_null live ->
        data_source report = "demo" /\ built_from BREAKPOINTS report demo)
    /\ (forall live, fst fetched = Some live -> some_field_measured live ->
        data_source report = "openaq" /\ built_from BREAKPOINTS report live).
Proof.
  intros Htable Hlisted name fetched demo.
  destruct (get_city_data_built BREAKPOINTS net info w Htable Hlisted)
    as (report & w' & Hrun & Hsource & Hbuilt).
  fold name in Hsource, Hbuilt. fold fetched in Hsource, Hbuilt.
  exists report, w'. split; [exact Hrun|].
  unfold choose_pollutants in Hsource, Hbuilt.
  subst demo.
  destruct (get_demo_aqi_data name (rng (snd fetched))) as [pollutants g].
  cbn [fst].
  destruct (fst fetched) as [live|].
  - destruct (all_none live) eqn:Hall; cbn [fst snd] in Hsource, Hbuilt.
    + split; [discriminate|]. split.
      * intros live' [= <-] _. now split.
      * intros live' [= <-] Hsome.
        apply all_none_some_field_measured in Hsome. congruence.
    + split; [discriminate|]. split.
      * intros live' [= <-] Hnone.
        apply all_none_every_field_null in Hnone. congruence.
      * intros live' [= <-] _. now split.
  - cbn [fst snd] in Hsource, Hbuilt.
    split; [now split|]. split; discriminate.
Qed.

Lemma live_network_weather_listed : weather_listed live_network.
Proof. intros n r status_code data [= _ <-]. discriminate. Qed.

Lemma null_network_weather_listed : weather_listed null_network.
Proof. intros n r status_code data [= _ <-]. discriminate. Qed.

Lemma dead_network_weather_listed : weather_listed dead_network.
Proof. intros n r status_code data [=]. Qed.

Lemma get_city_data_provenance_witness :
  (exists report w',
     get_city_data sample_breakpoints live_network sample_city empty_world
     = (Ok report, w')
     /\ data_source report = "openaq"
     /\ built_from sample_breakpoints report (aggregate_measurements [sample_station]))
  /\ (exists report w',
        get_city_data sample_breakpoints null_network sample_city empty_world
        = (Ok report, w')
        /\ fst (fetch_aqi_from_openaq null_network "Delhi" (Some 28%Q) (Some 77%Q)
                  empty_world)
           = Some no_pollutants
        /\ data_source report = "demo"
        /\ built_from sample_breakpoints report
             (fst (get_demo_aqi_data "Delhi" 0%nat)))
  /\ (exists report w',
        get_city_data sample_breakpoints dead_network sample_city empty_world
        = (Ok report, w')
        /\ data_source report = "demo"
        /\ built_from sample_breakpoints report
             (fst (get_demo_aqi_data "Delhi" 0%nat))).
Proof.
  split; [|split].
  - destruct (get_city_data_provenance sample_breakpoints live_network sample_city
                empty_world eq_refl live_network_weather_listed)
      as (report & w' & Hrun & _ & _ & Hlive).
    exists report, w'. split; [exact Hrun|].
    apply Hlive; [reflexivity|]. exists "pm25", 85%Q. now left.
  - destruct (get_city_data_provenance sample_breakpoints null_network sample_city
                empty_world eq_refl null_network_weather_listed)
      as (report & w' & Hrun & _ & Hnull & _).
    exists report, w'. split; [exact Hrun|]. split; [reflexivity|].
    apply (Hnull no_pollutants); [reflexivity|].
    intros key v Hin. cbn in Hin.
    repeat (destruct Hin as [[= <- <-]|Hin]; [reflexivity|]). destruct Hin.
  - destruct (get_city_data_provenance sample_breakpoints dead_network sample_city
                empty_world eq_refl dead_network_weather_listed)
      as (report & w' & Hrun & Hnone & _ & _).
    exists report, w'. split; [exact Hrun|]. now apply Hnone.
Defined.

(** ** The demo data *)

(** The demo weather is a function of the hour stamp alone: two readings
    of the clock within one hour give the same weather. *)
Lemma get_demo_weather_same_hour `{Host} (now now' : Q) :
  strftime_YmdH now = strftime_YmdH now' ->
  get_demo_weather now = get_demo_weather now'.
Proof. unfold get_demo_weather. now intros ->. Qed.

(** C2 does not hold of the code.  [get_demo_aqi_data] reads no clock and
    seeds nothing: it draws from the state the module-level generator is
    in.  On the generator [cycle_random] two successive calls for Delhi
    give PM2.5 values of 100 and 172, and two successive reports for
    Delhi, three and six seconds into the same hour on a dead network,
    carry the indices 232 and 331. *)
Theorem get_demo_aqi_data_not_repeatable :
  (let first := get_demo_aqi_data "Delhi" 0%nat in
   let second := get_demo_aqi_data "Delhi" (snd first) in
   exists x y,
     PyDict.get (fst first) "pm25" = Some (Some x)
     /\ PyDict.get (fst second) "pm25" = Some (Some y)
     /\ (x == 100)%Q /\ (y == 172)%Q /\ ~ (x == y)%Q)
  /\ (let info := mkCity (Some "Delhi") None None None in
      let first := get_city_data sample_breakpoints dead_network info empty_world in
      let second := get_city_data sample_breakpoints dead_network info (snd first) in
      strftime_YmdH (clock (snd first)) = strftime_YmdH (clock (snd second))
      /\ (exists r, fst first = Ok r /\ data_source r = "demo" /\ report_aqi r = 232)
      /\ (exists r, fst second = Ok r /\ data_source r = "demo" /\ report_aqi r = 331)).
Proof.
  split.
  - cbv zeta. eexists _, _.
    split; [vm_compute; reflexivity|]. split; [vm_compute; reflexivity|].
    split; [reflexivity|]. split; [reflexivity|]. discriminate.
  - cbv zeta. split; [reflexivity|]. split.
    + eexists. split; [vm_compute; reflexivity|]. split; reflexivity.
    + eexists. split; [vm_compute; reflexivity|]. split; reflexivity.
Qed.

(** * Further properties of the code *)

(** ** Bands and ranges *)

Lemma Qle_bool_inject_Z (a b : Z) : Qle_bool (inject_Z a) (inject_Z b) = (a <=? b).
Proof. unfold Qle_bool. simpl. now rewrite !Z.mul_1_r. Qed.

Lemma Qlt_bool_inject_Z (a b : Z) : Py.Qlt_bool (inject_Z a) (inject_Z b) = (a <? b).
Proof.
  unfold Py.Qlt_bool. rewrite Qle_bool_inject_Z.
  destruct (Z.leb_spec b a), (Z.ltb_spec a b); try reflexivity; lia.
Qed.

Lemma get_category_info_contains (v : Z) :
  0 <= v <= 500 ->
  In (get_category_info (inject_Z v)) AQI_CATEGORIES
  /\ cat_min (get_category_info (inject_Z v)) <= v
     <= cat_max (get_category_info (inject_Z v)).
Proof.
  intros Hv.
  unfold get_category_info, AQI_CATEGORIES, scan_categories, in_band.
  change 500%Q with (inject_Z 500).
  rewrite !Qle_bool_inject_Z, Qlt_bool_inject_Z.
  cbn [cat_min cat_max cat_good cat_satisfactory cat_moderate cat_poor cat_very_poor cat_severe].
  repeat match goal with
         | |- context [?a <=? ?b] => destruct (Z.leb_spec a b); cbn [andb]
         end; try lia;
    (split; [simpl; tauto | simpl; lia]).
Qed.

(** X1.  The six bands partition the integers from 0 to 500: the band
    returned for such an index contains it and is the only one that does;
    an index above 500 gets the Severe band. *)
Theorem get_category_info_band (v : Z) :
  0 <= v ->
  (v <= 500 ->
   In (get_category_info (inject_Z v)) AQI_CATEGORIES
   /\ cat_min (get_category_info (inject_Z v)) <= v <= cat_max (get_category_info (inject_Z v))
   /\ forall c, In c AQI_CATEGORIES -> cat_min c <= v <= cat_max c ->
        c = get_category_info (inject_Z v))
  /\ (500 < v -> get_category_info (inject_Z v) = cat_severe).
Proof.
  intros Hv.
  unfold get_category_info, AQI_CATEGORIES, scan_categories, in_band.
  change 500%Q with (inject_Z 500).
  rewrite !Qle_bool_inject_Z, Qlt_bool_inject_Z.
  cbn [cat_min cat_max cat_good cat_satisfactory cat_moderate cat_poor cat_very_poor cat_severe].
  split.
  - intros Hmax.
    repeat match goal with
           | |- context [?a <=? ?b] => destruct (Z.leb_spec a b); cbn [andb]
           end; try lia;
      (split; [simpl; tauto|]); (split; [simpl; lia|]);
      intros c Hin Hc; simpl in Hin;
      repeat (destruct Hin as [<-|Hin]; [try reflexivity; simpl in Hc; lia|]);
      destruct Hin.
  - intros Hbig.
    repeat match goal with
           | |- context [?a <=? ?b] => destruct (Z.leb_spec a b); cbn [andb]
           end; try lia.
    destruct (Z.ltb_spec 500 v); [reflexivity | lia].
Qed.

Lemma get_category_info_band_witness :
  (In (get_category_info (inject_Z 250)) AQI_CATEGORIES
   /\ cat_min (get_category_info (inject_Z 250)) <= 250
      <= cat_max (get_category_info (inject_Z 250))
   /\ forall c, In c AQI_CATEGORIES -> cat_min c <= 250 <= cat_max c ->
        c = get_category_info (inject_Z 250))
  /\ get_category_info (inject_Z 501) = cat_severe.
Proof.
  split.
  - apply (get_category_info_band 250); lia.
  - apply (get_category_info_band 501); lia.
Defined.

(** ** Rounding and interpolation *)

Lemma round_mono (x y : Q) : (x <= y)%Q -> Py.round x <= Py.round y.
Proof.
  intros Hxy.
  assert (Hfloor : Qfloor x <= Qfloor y) by now apply Qfloor_resp_le.
  destruct (Z.eq_dec (Qfloor x) (Qfloor y)) as [Heq|Hne].
  - unfold Py.round. rewrite <- Heq.
    destruct (Qcompare (x - inject_Z (Qfloor x)) (1 # 2)) eqn:Ex;
      destruct (Qcompare (y - inject_Z (Qfloor x)) (1 # 2)) eqn:Ey;
      try (destruct (Z.even (Qfloor x))); try lia;
      compare_to_order Ex; compare_to_order Ey; exfalso; lra.
  - destruct (round_cases x) as [[-> _]|[-> _]];
      destruct (round_cases y) as [[-> _]|[-> _]]; lia.
Qed.

(** The interpolated value of a point of a segment lies between the two
    index values of the segment. *)
Lemma interpolation_between (bp : breakpoint) (c : Q) :
  (low_conc bp < high_conc bp)%Q ->
  (low_aqi bp <= high_aqi bp)%Q ->
  (low_conc bp <= c)%Q -> (c <= high_conc bp)%Q ->
  (low_aqi bp
   <= (high_aqi bp - low_aqi bp) / (high_conc bp - low_conc bp) * (c - low_conc bp)
      + low_aqi bp
   <= high_aqi bp)%Q.
Proof.
  intros Hwidth Haqi Hlo Hhi.
  set (k := ((high_aqi bp - low_aqi bp) / (high_conc bp - low_conc bp))%Q).
  assert (Hk : (k * (high_conc bp - low_conc bp) == high_aqi bp - low_aqi bp)%Q).
  { unfold k. field. lra. }
  assert (Hk0 : (0 <= k)%Q).
  { unfold k. apply Qle_shift_div_l; lra. }
  split; nra.
Qed.

Lemma scan_breakpoints_found (breakpoints : list breakpoint) (c : Q) (r : result Z) :
  scan_breakpoints breakpoints c = Some r ->
  exists bp, In bp breakpoints /\ in_segment bp c = true /\ r = interpolate bp c.
Proof.
  induction breakpoints as [|bp rest IH]; simpl; [discriminate|].
  destruct (in_segment bp c) eqn:Hseg.
  - intros [= <-]. exists bp. repeat split; [now left | exact Hseg].
  - intros Hscan. destruct (IH Hscan) as (bp' & Hin & Hseg' & ->).
    exists bp'. repeat split; [now right | exact Hseg'].
Qed.

Lemma last_segment_some (lowest : breakpoint) (rest : list breakpoint) :
  exists top, last_segment (lowest :: rest) = Some top.
Proof.
  revert lowest. induction rest as [|next rest IH]; intros lowest.
  - now exists lowest.
  - destruct (IH next) as [top Htop]. exists top.
    now rewrite last_segment_cons.
Qed.

Lemma ascending_tail (bp : breakpoint) (rest : list breakpoint) :
  ascending (bp :: rest) = true ->
  (low_conc bp < high_conc bp)%Q /\ ascending rest = true.
Proof.
  cbn [ascending]. intros Hasc.
  apply andb_true_iff in Hasc as [Hhead Hrest].
  apply andb_true_iff in Hhead as [Hwidth _].
  split; [now apply Qlt_bool_iff | exact Hrest].
Qed.

Lemma ascending_app (l1 l2 : list breakpoint) :
  ascending (l1 ++ l2) = true -> ascending l1 = true /\ ascending l2 = true.
Proof.
  induction l1 as [|bp l1 IH]; intros Hasc; [now split|].
  change ((bp :: l1) ++ l2) with (bp :: l1 ++ l2) in Hasc.
  destruct (ascending_tail _ _ Hasc) as [Hwidth Hrest].
  destruct (IH Hrest) as [H1 H2]. split; [|exact H2].
  cbn [ascending] in Hasc |- *.
  apply andb_true_iff in Hasc as [Hhead _].
  apply andb_true_iff in Hhead as [Hw Hnext].
  rewrite Hw, H1. destruct l1 as [|next l1']; [reflexivity|].
  cbn [app] in Hnext. now rewrite Hnext.
Qed.

Lemma last_segment_app (l : list breakpoint) (bp : breakpoint) :
  last_segment (l ++ [bp]) = Some bp.
Proof.
  unfold last_segment. rewrite map_app. cbn [map]. apply last_last.
Qed.

Lemma sub_index_bounds
    (BREAKPOINTS : breakpoint_table) (pollutant : string) (concentration : Q) :
  well_formed_table BREAKPOINTS = true ->
  index_bounded BREAKPOINTS = true ->
  exists s,
    calculate_sub_index BREAKPOINTS pollutant concentration = Ok s /\ 0 <= s <= 500.
Proof.
  intros Hwf Hbounded. unfold calculate_sub_index.
  destruct (PyDict.get BREAKPOINTS pollutant) as [breakpoints|] eqn:Hget;
    [|exists 0; split; [reflexivity | lia]].
  apply get_In in Hget.
  unfold well_formed_table in Hwf. rewrite forallb_forall in Hwf.
  unfold index_bounded in Hbounded. rewrite forallb_forall in Hbounded.
  specialize (Hwf _ Hget). specialize (Hbounded _ Hget). cbn [snd] in Hwf, Hbounded.
  rewrite forallb_forall in Hbounded.
  destruct breakpoints as [|lowest rest]; [discriminate|].
  destruct (scan_breakpoints (lowest :: rest) concentration) as [r|] eqn:Hscan.
  - apply scan_breakpoints_found in Hscan as (bp & Hin & Hseg & ->).
    assert (Hwidth := ascending_proper _ _ Hwf Hin).
    specialize (Hbounded _ Hin).
    apply andb_true_iff in Hbounded as [Hb Hhigh].
    apply andb_true_iff in Hb as [Hlow Horder].
    apply Qle_bool_iff in Hlow, Horder, Hhigh.
    unfold in_segment in Hseg. apply andb_true_iff in Hseg as [Hlo Hhi].
    apply Qle_bool_iff in Hlo, Hhi.
    unfold interpolate.
    destruct (Qeq_bool (high_conc bp - low_conc bp) 0) eqn:E.
    { apply Qeq_bool_eq in E. exfalso. lra. }
    destruct (interpolation_between bp concentration Hwidth Horder Hlo Hhi) as [Hge Hle].
    eexists. split; [reflexivity|]. split.
    + apply round_lower. change (inject_Z 0) with 0%Q. lra.
    + apply round_upper. change (inject_Z 500) with 500%Q. lra.
  - destruct (last_segment_some lowest rest) as [top ->].
    destruct (Py.Qlt_bool (high_conc top) concentration);
      eexists; (split; [reflexivity | lia]).
Qed.

(** X2.  Over a well-formed table whose index values lie between 0 and
    500, every sub-index -- of any pollutant name and any concentration,
    negative ones included -- is returned and lies between 0 and 500. *)
Theorem calculate_sub_index_in_range
    (BREAKPOINTS : breakpoint_table) (pollutant : string) (concentration : Q) :
  well_formed_table BREAKPOINTS = true ->
  index_bounded BREAKPOINTS = true ->
  exists s,
    calculate_sub_index BREAKPOINTS pollutant concentration = Ok s /\ 0 <= s <= 500.
Proof. apply sub_index_bounds. Qed.

Lemma calculate_sub_index_in_range_witness :
  exists s, calculate_sub_index sample_breakpoints "pm25" 250 = Ok s /\ 0 <= s <= 500.
Proof.
  apply (calculate_sub_index_in_range sample_breakpoints "pm25" 250); reflexivity.
Defined.

Lemma Forall2_In_right {A B : Type} (R : A -> B -> Prop) (xs : list A) (ys : list B) (y : B) :
  Forall2 R xs ys -> In y ys -> exists x, In x xs /\ R x y.
Proof.
  induction 1 as [|x0 y0 xs ys Hxy _ IH]; intros Hin; [contradiction|].
  destruct Hin as [<-|Hin].
  - exists x0. split; [now left | exact Hxy].
  - destruct (IH Hin) as (x & Hx & Hr). exists x. split; [now right | exact Hr].
Qed.

Lemma calculate_aqi_info (BREAKPOINTS : breakpoint_table)
    (pollutants : dict (option Q)) (r : aqi_result) :
  calculate_aqi BREAKPOINTS pollutants = Ok r ->
  category r = cat_category (get_category_info (inject_Z (aqi r)))
  /\ color r = cat_color (get_category_info (inject_Z (aqi r)))
  /\ description r = cat_description (get_category_info (inject_Z (aqi r))).
Proof.
  unfold calculate_aqi.
  destruct (collect_sub_indices BREAKPOINTS (PyDict.items pollutants) []) as [subs|e];
    [|discriminate].
  cbn [Py.bind]. destruct subs as [|entry rest]; intros [= <-]; now repeat split.
Qed.

(** X3.  Over such a table the result of [calculate_aqi] keeps the
    invariant of a report: the index and every sub-index lie between 0 and
    500, and category, colour and description are those of the one band
    that contains the index. *)
Theorem calculate_aqi_in_range
    (BREAKPOINTS : breakpoint_table) (pollutants : dict (option Q)) :
  PyDict.wf pollutants ->
  well_formed_table BREAKPOINTS = true ->
  index_bounded BREAKPOINTS = true ->
  exists r band,
    calculate_aqi BREAKPOINTS pollutants = Ok r
    /\ 0 <= aqi r <= 500
    /\ (forall k s, In (k, s) (sub_indices r) -> 0 <= s <= 500)
    /\ In band AQI_CATEGORIES
    /\ cat_min band <= aqi r <= cat_max band
    /\ category r = cat_category band
    /\ color r = cat_color band
    /\ description r = cat_description band.
Proof.
  intros Hwf Htable Hbounded.
  destruct (calculate_aqi_total BREAKPOINTS pollutants Htable) as [r Hr].
  destruct (calculate_aqi_inv _ _ _ Hwf Hr) as (Hentries & Hmax & _).
  destruct (calculate_aqi_info _ _ _ Hr) as (Hcat & Hcolor & Hdesc).
  assert (Hsubs : forall k s, In (k, s) (sub_indices r) -> 0 <= s <= 500).
  { intros k s Hin.
    destruct (Forall2_In_right _ _ _ _ Hentries Hin) as ([k' c] & _ & _ & Hs).
    cbn [fst snd] in Hs.
    destruct (sub_index_bounds BREAKPOINTS k' c Htable Hbounded)
      as (s' & Hs' & Hrange).
    congruence. }
  assert (Haqi : 0 <= aqi r <= 500).
  { destruct (sub_indices r) as [|entry rest] eqn:Hlist.
    - cbn in Hmax. lia.
    - destruct (max_by_first snd (entry :: rest))
        as (m & before & after & Hm & Heq & _ & _); [discriminate|].
      rewrite Hm in Hmax. destruct Hmax as [-> _].
      apply (Hsubs (fst m)). rewrite Heq. apply in_or_app. right. left.
      now destruct m. }
  destruct (get_category_info_contains (aqi r) Haqi) as [Hin Hrange].
  exists r, (get_category_info (inject_Z (aqi r))).
  split; [exact Hr|]. split; [exact Haqi|]. split; [exact Hsubs|].
  split; [exact Hin|]. split; [exact Hrange|]. now repeat split.
Qed.

Lemma calculate_aqi_in_range_witness :
  exists r band,
    calculate_aqi sample_breakpoints sample_vector = Ok r
    /\ 0 <= aqi r <= 500
    /\ (forall k s, In (k, s) (sub_indices r) -> 0 <= s <= 500)
    /\ In band AQI_CATEGORIES
    /\ cat_min band <= aqi r <= cat_max band
    /\ category r = cat_category band
    /\ color r = cat_color band
    /\ description r = cat_description band.
Proof.
  apply (calculate_aqi_in_range sample_breakpoints sample_vector sample_vector_wf);
    reflexivity.
Defined.

Lemma ascending_before (pre post : list breakpoint) (bp : breakpoint) :
  ascending (pre ++ bp :: post) = true ->
  Forall (fun x => (high_conc x <= low_conc bp)%Q) pre.
Proof.
  induction pre as [|x pre IH]; intros Hasc; [constructor|].
  change ((x :: pre) ++ bp :: post) with (x :: pre ++ bp :: post) in Hasc.
  destruct (ascending_tail _ _ Hasc) as [_ Hrest].
  specialize (IH Hrest).
  constructor; [|exact IH].
  cbn [ascending] in Hasc.
  apply andb_true_iff in Hasc as [Hhead _].
  apply andb_true_iff in Hhead as [_ Hnext].
  destruct pre as [|y pre'].
  - cbn [app] in Hnext. now apply Qle_bool_iff.
  - cbn [app] in Hnext. apply Qle_bool_iff in Hnext.
    inversion IH as [|? ? Hy _]; subst.
    change ((y :: pre') ++ bp :: post) with (y :: pre' ++ bp :: post) in Hrest.
    destruct (ascending_tail _ _ Hrest) as [Hwidth _].
    lra.
Qed.

Lemma scan_breakpoints_skip (pre rest : list breakpoint) (c : Q) :
  Forall (fun x => in_segment x c = false) pre ->
  scan_breakpoints (pre ++ rest) c = scan_breakpoints rest c.
Proof.
  induction 1 as [|x pre Hx _ IH]; [reflexivity|].
  cbn [app scan_breakpoints]. now rewrite Hx.
Qed.

Lemma last_segment_skip (pre : list breakpoint) (bp : breakpoint) (post : list breakpoint) :
  last_segment (pre ++ bp :: post) = last_segment (bp :: post).
Proof.
  induction pre as [|x pre IH]; [reflexivity|].
  change ((x :: pre) ++ bp :: post) with (x :: pre ++ bp :: post).
  destruct (pre ++ bp :: post) as [|y l] eqn:E.
  - destruct pre; discriminate.
  - rewrite last_segment_cons. exact IH.
Qed.

(** A point of a segment above its start is interpolated on that segment. *)
Lemma scan_breakpoints_hit (pre post : list breakpoint) (bp : breakpoint) (c : Q) :
  ascending (pre ++ bp :: post) = true ->
  (low_conc bp < c)%Q -> (c <= high_conc bp)%Q ->
  scan_breakpoints (pre ++ bp :: post) c = Some (interpolate bp c).
Proof.
  intros Hasc Hlo Hhi.
  rewrite scan_breakpoints_skip.
  - cbn [scan_breakpoints]. unfold in_segment.
    apply Qlt_le_weak, Qle_bool_iff in Hlo. apply Qle_bool_iff in Hhi.
    now rewrite Hlo, Hhi.
  - eapply Forall_impl; [exact (ascending_before _ _ _ Hasc)|].
    intros x Hx. cbv beta in Hx. unfold in_segment.
    apply andb_false_iff. right. apply Qle_bool_false. lra.
Qed.

(** X4.  A concentration that falls strictly between two consecutive
    segments of an ascending table (above the end of one and below the
    start of the next) matches no segment and gets the sub-index 0. *)
Theorem calculate_sub_index_between_segments
    (BREAKPOINTS : breakpoint_table) (pollutant : string)
    (pre post : list breakpoint) (a b : breakpoint) (concentration : Q) :
  PyDict.get BREAKPOINTS pollutant = Some (pre ++ a :: b :: post) ->
  ascending (pre ++ a :: b :: post) = true ->
  (high_conc a < concentration)%Q ->
  (concentration < low_conc b)%Q ->
  calculate_sub_index BREAKPOINTS pollutant concentration = Ok 0.
Proof.
  intros Hget Hasc Ha Hb.
  unfold calculate_sub_index. rewrite Hget.
  destruct (ascending_app pre (a :: b :: post) Hasc) as [_ Htail].
  destruct (ascending_tail _ _ Htail) as [Hwidth_a Hrest].
  assert (Hfirst := ascending_above_first b post Hrest).
  assert (Hbefore := ascending_before _ _ _ Hasc).
  replace (pre ++ a :: b :: post) with ((pre ++ [a]) ++ b :: post)
    by (now rewrite <- app_assoc).
  rewrite scan_breakpoints_skip.
  - rewrite scan_breakpoints_none.
    + rewrite last_segment_skip.
      destruct (last_segment_some b post) as [top Htop]. rewrite Htop.
      assert (Hin := last_segment_In _ _ Htop).
      rewrite List.Forall_forall in Hfirst.
      assert (Hlow := Hfirst top Hin).
      assert (Hwidth := ascending_proper _ _ Hrest Hin).
      assert (Hle : (concentration <= high_conc top)%Q) by lra.
      apply Qlt_bool_false in Hle. now rewrite Hle.
    + eapply Forall_impl; [exact Hfirst|].
      intros x Hx. cbv beta in Hx. unfold in_segment.
      apply andb_false_iff. left. apply Qle_bool_false. lra.
  - apply Forall_app. split.
    + eapply Forall_impl; [exact Hbefore|].
      intros x Hx. cbv beta in Hx. unfold in_segment.
      apply andb_false_iff. right. apply Qle_bool_false. lra.
    + constructor; [|constructor]. unfold in_segment.
      apply andb_false_iff. right. now apply Qle_bool_false.
Qed.

Lemma calculate_sub_index_between_segments_witness :
  calculate_sub_index sample_breakpoints "pm25" (305 # 10) = Ok 0.
Proof.
  apply (calculate_sub_index_between_segments sample_breakpoints "pm25"
           [] [mkBreakpoint 61 90 101 200; mkBreakpoint 91 120 201 300;
               mkBreakpoint 121 250 301 400; mkBreakpoint 251 500 401 500]
           (mkBreakpoint 0 30 0 50) (mkBreakpoint 31 60 51 100) (305 # 10));
    reflexivity.
Defined.

(** X5.  Within one segment the sub-index does not decrease with the
    concentration, and it stays between the rounded index values of the
    segment. *)
Theorem calculate_sub_index_monotone_in_segment
    (BREAKPOINTS : breakpoint_table) (pollutant : string)
    (pre post : list breakpoint) (bp : breakpoint) (c c' : Q) :
  PyDict.get BREAKPOINTS pollutant = Some (pre ++ bp :: post) ->
  ascending (pre ++ bp :: post) = true ->
  (low_aqi bp <= high_aqi bp)%Q ->
  (low_conc bp < c)%Q -> (c <= c')%Q -> (c' <= high_conc bp)%Q ->
  exists s s',
    calculate_sub_index BREAKPOINTS pollutant c = Ok s
    /\ calculate_sub_index BREAKPOINTS pollutant c' = Ok s'
    /\ Py.round (low_aqi bp) <= s /\ s <= s' /\ s' <= Py.round (high_aqi bp).
Proof.
  intros Hget Hasc Haqi Hlo Hcc Hhi.
  unfold calculate_sub_index. rewrite Hget.
  rewrite !scan_breakpoints_hit by (try exact Hasc; lra).
  destruct (ascending_app pre (bp :: post) Hasc) as [_ Htail].
  destruct (ascending_tail _ _ Htail) as [Hwidth _].
  unfold interpolate.
  destruct (Qeq_bool (high_conc bp - low_conc bp) 0) eqn:E.
  { apply Qeq_bool_eq in E. exfalso. lra. }
  eexists _, _. split; [reflexivity|]. split; [reflexivity|].
  set (k := ((high_aqi bp - low_aqi bp) / (high_conc bp - low_conc bp))%Q).
  assert (Hk0 : (0 <= k)%Q).
  { unfold k. apply Qle_shift_div_l; lra. }
  assert (Hk : (k * (high_conc bp - low_conc bp) == high_aqi bp - low_aqi bp)%Q).
  { unfold k. field. lra. }
  split; [|split]; apply round_mono; nra.
Qed.

Lemma calculate_sub_index_monotone_in_segment_witness :
  exists s s',
    calculate_sub_index sample_breakpoints "pm25" 70 = Ok s
    /\ calculate_sub_index sample_breakpoints "pm25" 85 = Ok s'
    /\ Py.round 101 <= s /\ s <= s' /\ s' <= Py.round 200.
Proof.
  apply (calculate_sub_index_monotone_in_segment sample_breakpoints "pm25"
           [mkBreakpoint 0 30 0 50; mkBreakpoint 31 60 51 100]
           [mkBreakpoint 91 120 201 300;
            mkBreakpoint 121 250 301 400; mkBreakpoint 251 500 401 500]
           (mkBreakpoint 61 90 101 200) 70 85);
    try reflexivity; discriminate.
Defined.

Lemma scan_categories_In (cs : list category_info) (aqi_value : Q) (c : category_info) :
  scan_categories cs aqi_value = Some c -> In c cs.
Proof.
  induction cs as [|c' rest IH]; cbn [scan_categories]; [discriminate|].
  destruct (in_band c' aqi_value).
  - intros [= <-]. now left.
  - intros Hscan. right. now apply IH.
Qed.

(** Whatever the value, [get_category_info] returns one of the six bands. *)
Lemma get_category_info_In (aqi_value : Q) :
  In (get_category_info aqi_value) AQI_CATEGORIES.
Proof.
  unfold get_category_info.
  destruct (scan_categories AQI_CATEGORIES aqi_value) as [c|] eqn:Hscan.
  - now apply scan_categories_In in Hscan.
  - destruct (Py.Qlt_bool 500 aqi_value); cbn; tauto.
Qed.

(** X6.  Every category name that [get_category_info] returns, whatever
    the value, is a key of [HEALTH_RECOMMENDATIONS], so that the default
    of the lookup is never what decides; and for an index that is not
    negative, the recommendation looked up for its category asks for a
    mask exactly when the index is above 100. *)
Theorem mask_required_above_100 (v : Z) :
  0 <= v ->
  (forall aqi_value : Q,
     PyDict.get HEALTH_RECOMMENDATIONS (cat_category (get_category_info aqi_value))
     = Some (get_health_recommendations
               (cat_category (get_category_info aqi_value))))
  /\ mask_required
       (get_health_recommendations (cat_category (get_category_info (inject_Z v))))
     = (100 <? v).
Proof.
  intros Hv. split.
  - intros aqi_value.
    pose proof (get_category_info_In aqi_value) as Hin.
    unfold AQI_CATEGORIES in Hin. cbn [In] in Hin.
    destruct Hin as [<-|[<-|[<-|[<-|[<-|[<-|[]]]]]]]; reflexivity.
  - unfold get_category_info, AQI_CATEGORIES, scan_categories, in_band.
    change 500%Q with (inject_Z 500).
    rewrite !Qle_bool_inject_Z, Qlt_bool_inject_Z.
    cbn [cat_min cat_max cat_good cat_satisfactory cat_moderate cat_poor cat_very_poor cat_severe].
    repeat match goal with
           | |- context [?a <=? ?b] => destruct (Z.leb_spec a b); cbn [andb]
           end; try lia;
      try (destruct (Z.ltb_spec 500 v); [|lia]);
      destruct (Z.ltb_spec 100 v); try lia; reflexivity.
Qed.

Lemma mask_required_above_100_witness :
  (PyDict.get HEALTH_RECOMMENDATIONS (cat_category (get_category_info (21 # 2)))
   = Some (get_health_recommendations (cat_category (get_category_info (21 # 2))))
   /\ cat_category (get_category_info (21 # 2)) = "Good")
  /\ mask_required
       (get_health_recommendations (cat_category (get_category_info (inject_Z 101))))
     = (100 <? 101).
Proof.
  assert (Hv : 0 <= 101) by lia.
  destruct (mask_required_above_100 101 Hv) as [Hkey Hmask].
  split; [|exact Hmask]. split; [apply Hkey | reflexivity].
Defined.

(** ** The demo data *)

Lemma scale_positive (ndigits : nat) : (0 < inject_Z (10 ^ Z.of_nat ndigits))%Q.
Proof.
  change 0%Q with (inject_Z 0). rewrite <- Zlt_Qlt.
  apply Z.pow_pos_nonneg; lia.
Qed.

Lemma round_to_mono (x y : Q) (ndigits : nat) :
  (x <= y)%Q -> (Py.round_to x ndigits <= Py.round_to y ndigits)%Q.
Proof.
  intros Hxy. unfold Py.round_to.
  assert (Hscale := scale_positive ndigits).
  set (scale := inject_Z (10 ^ Z.of_nat ndigits)) in *.
  assert (Hround : Py.round (x * scale) <= Py.round (y * scale)).
  { apply round_mono. nra. }
  rewrite Zle_Qle in Hround.
  unfold Qdiv. apply Qmult_le_compat_r; [exact Hround|].
  apply Qinv_le_0_compat. now apply Qlt_le_weak.
Qed.

Lemma round_fixes_integers (a : Z) : Py.round (inject_Z a) = a.
Proof.
  apply Z.le_antisymm; [apply round_upper | apply round_lower]; apply Qle_refl.
Qed.

Lemma round_to_fixes_integers (a : Z) (ndigits : nat) :
  (Py.round_to (inject_Z a) ndigits == inject_Z a)%Q.
Proof.
  unfold Py.round_to.
  assert (Hscale := scale_positive ndigits).
  rewrite <- inject_Z_mult, round_fixes_integers, inject_Z_mult.
  field. lra.
Qed.

Lemma uniform_between {G : Type} `{PyRandom G} (a b : Q) (g : G) :
  (0 <= fst (random g))%Q -> (fst (random g) <= 1)%Q -> (a <= b)%Q ->
  (a <= fst (uniform a b g) <= b)%Q.
Proof.
  intros Hlo Hhi Hab. unfold uniform.
  destruct (random g) as [u g']. cbn [fst] in *. split; nra.
Qed.

Lemma city_profiles_ordered (city : string) :
  let '(lo, hi, _, _) :=
    match PyDict.get city_profiles city with
    | Some profile => profile
    | None => default_profile
    end in
  0 <= lo <= hi.
Proof.
  destruct (PyDict.get city_profiles city) as [[[[lo hi] t1] t2]|] eqn:Hget.
  - apply get_In in Hget.
    assert (Hall : forallb (fun e => let '(lo, hi, _, _) := snd e in
                                     (0 <=? lo) && (lo <=? hi)) city_profiles = true)
      by (vm_compute; reflexivity).
    rewrite forallb_forall in Hall. specialize (Hall _ Hget). cbn in Hall.
    apply andb_true_iff in Hall as [H1 H2]. lia.
  - cbn. lia.
Qed.

Lemma round_to_nonneg (x : Q) (ndigits : nat) :
  (0 <= x)%Q -> (0 <= Py.round_to x ndigits)%Q.
Proof.
  intros Hx.
  rewrite <- (round_to_fixes_integers 0 ndigits).
  now apply round_to_mono.
Qed.

(** X7.  With a generator whose draws lie between 0 and 1, the demo vector
    has the six pollutants in the usual order, none of them null and none
    negative (so it is never taken for an empty vector), its PM2.5 lies in
    the range of the city's profile, or of the default profile for a city
    without one, and its PM10 is not below its PM2.5. *)
Theorem get_demo_aqi_data_in_profile {G : Type} `{PyRandom G} (city : string) (g : G) :
  (forall g', (0 <= fst (random g'))%Q /\ (fst (random g') <= 1)%Q) ->
  let v := fst (get_demo_aqi_data city g) in
  let '(lo, hi, _, _) :=
    match PyDict.get city_profiles city with
    | Some profile => profile
    | None => default_profile
    end in
  PyDict.keys v = pollutant_keys
  /\ all_none v = false
  /\ (forall k x, In (k, x) v -> exists c, x = Some c /\ (0 <= c)%Q)
  /\ exists pm25 pm10,
       PyDict.get v "pm25" = Some (Some pm25)
       /\ PyDict.get v "pm10" = Some (Some pm10)
       /\ (inject_Z lo <= pm25)%Q /\ (pm25 <= inject_Z hi)%Q
       /\ (pm25 <= pm10)%Q.
Proof.
  intros Hunit. unfold get_demo_aqi_data.
  assert (Hprofile := city_profiles_ordered city).
  destruct (match PyDict.get city_profiles city with
            | Some profile => profile
            | None => default_profile
            end) as [[[lo hi] t1] t2].
  assert (Hlohi : (inject_Z lo <= inject_Z hi)%Q) by (rewrite <- Zle_Qle; lia).
  assert (Hlo0 : (0 <= inject_Z lo)%Q)
    by (change 0%Q with (inject_Z 0); rewrite <- Zle_Qle; lia).
  destruct (Hunit g) as [Hu0 Hu1].
  assert (Hpm25 := uniform_between (inject_Z lo) (inject_Z hi) g Hu0 Hu1 Hlohi).
  destruct (uniform (inject_Z lo) (inject_Z hi) g) as [pm25 g1].
  cbn [fst] in Hpm25.
  set (multiplier :=
         (if Qle_bool pm25 30 then 3 # 10
          else if Qle_bool pm25 60 then 6 # 10
          else if Qle_bool pm25 90 then 1
          else if Qle_bool pm25 120 then 14 # 10 else 18 # 10)%Q).
  assert (Hmult : (0 <= multiplier)%Q).
  { unfold multiplier.
    destruct (Qle_bool pm25 30); [lra|].
    destruct (Qle_bool pm25 60); [lra|].
    destruct (Qle_bool pm25 90); [lra|].
    destruct (Qle_bool pm25 120); lra. }
  destruct (Hunit g1) as [H10 H11].
  assert (Hratio := uniform_between (15 # 10) (22 # 10) g1 H10 H11 ltac:(lra)).
  destruct (uniform (15 # 10) (22 # 10) g1) as [ratio g2]. cbn [fst] in Hratio.
  destruct (Hunit g2) as [H20 H21].
  assert (Hno2 := uniform_between 12 60 g2 H20 H21 ltac:(lra)).
  destruct (uniform 12 60 g2) as [no2 g3]. cbn [fst] in Hno2.
  destruct (Hunit g3) as [H30 H31].
  assert (Hso2 := uniform_between 6 35 g3 H30 H31 ltac:(lra)).
  destruct (uniform 6 35 g3) as [so2 g4]. cbn [fst] in Hso2.
  destruct (Hunit g4) as [H40 H41].
  assert (Hco := uniform_between (2 # 10) 2 g4 H40 H41 ltac:(lra)).
  destruct (uniform (2 # 10) 2 g4) as [co g5]. cbn [fst] in Hco.
  destruct (Hunit g5) as [H50 H51].
  assert (Ho3 := uniform_between 20 80 g5 H50 H51 ltac:(lra)).
  destruct (uniform 20 80 g5) as [o3 g6]. cbn [fst] in Ho3.
  cbn [fst]. split; [reflexivity|]. split; [reflexivity|]. split.
  - intros k x Hin. cbn [In] in Hin.
    repeat (destruct Hin as [[= <- <-]|Hin];
            [eexists; split; [reflexivity|]; apply round_to_nonneg; nra|]).
    destruct Hin.
  - eexists _, _. split; [reflexivity|]. split; [reflexivity|]. split; [|split].
    + rewrite <- (round_to_fixes_integers lo 1). apply round_to_mono. lra.
    + rewrite <- (round_to_fixes_integers hi 1). apply round_to_mono. lra.
    + apply round_to_mono. nra.
Qed.

Lemma cycle_random_unit (n : nat) :
  (0 <= fst (random n))%Q /\ (fst (random n) <= 1)%Q.
Proof.
  cbn [random cycle_random fst].
  assert (Hm : (n mod 10 < 10)%nat) by (apply Nat.mod_upper_bound; lia).
  set (m := Z.of_nat (n mod 10)).
  assert (Hm' : 0 <= m < 10) by lia.
  clearbody m. unfold Qdiv, Qle. simpl. lia.
Qed.

Lemma get_demo_aqi_data_in_profile_witness :
  let v := fst (get_demo_aqi_data "Delhi" 0%nat) in
  PyDict.keys v = pollutant_keys
  /\ all_none v = false
  /\ (forall k x, In (k, x) v -> exists c, x = Some c /\ (0 <= c)%Q)
  /\ exists pm25 pm10,
       PyDict.get v "pm25" = Some (Some pm25)
       /\ PyDict.get v "pm10" = Some (Some pm10)
       /\ (inject_Z 100 <= pm25)%Q /\ (pm25 <= inject_Z 220)%Q
       /\ (pm25 <= pm10)%Q.
Proof.
  exact (get_demo_aqi_data_in_profile "Delhi" 0%nat cycle_random_unit).
Defined.

(** ** The historical series *)

Lemma int_floor (x : Q) : (0 <= x)%Q -> Py.int x = Qfloor x.
Proof.
  intros Hx. unfold Py.int. destruct x as [n d]. cbn [Qnum Qden Qfloor].
  apply Z.quot_div_nonneg; [|lia].
  unfold Qle in Hx. cbn in Hx. lia.
Qed.

Lemma clamped_int (x : Q) : 10 <= Py.int (Py.max2 10 (Py.min2 500 x)) <= 500.
Proof.
  assert (Hmin : (Py.min2 500 x <= 500)%Q).
  { unfold Py.min2. destruct (Py.Qlt_bool x 500) eqn:E; [|lra].
    apply Qlt_bool_iff in E. lra. }
  set (y := Py.min2 500 x) in *.
  assert (Hmax : (10 <= Py.max2 10 y)%Q /\ (Py.max2 10 y <= 500)%Q).
  { unfold Py.max2. destruct (Py.Qlt_bool 10 y) eqn:E; [|lra].
    apply Qlt_bool_iff in E. lra. }
  destruct Hmax as [Hlo Hhi].
  rewrite int_floor by lra. split.
  - rewrite <- (Qfloor_Z 10). now apply Qfloor_resp_le.
  - rewrite <- (Qfloor_Z 500). now apply Qfloor_resp_le.
Qed.

Section Historical.

Context `{Host} {G : Type} `{PyRandom G}.

Variable now : Q.

Lemma historical_loop_points (i : nat) :
  forall (base_min base_max base_aqi : Z) (g : G),
    let points := fst (historical_loop i now base_min base_max base_aqi g) in
    List.length points = i
    /\ Forall (fun p => 10 <= point_aqi p <= 500) points
    /\ map (fun p => (point_timestamp p, point_hour p)) points
       = map (fun j => (strftime_HM (hours_before now j), hour_of (hours_before now j)))
             (rev (seq 1 i)).
Proof.
  induction i as [|i IH]; intros base_min base_max base_aqi g.
  - cbn. repeat split. constructor.
  - cbn [historical_loop].
    destruct (randint (-20) 20 g) as [variation g1].
    destruct (randint (-8) 8 g1) as [drift g2].
    specialize (IH base_min base_max
                  (Z.max base_min (Z.min base_max (base_aqi + drift))) g2).
    destruct (historical_loop i now base_min base_max
                (Z.max base_min (Z.min base_max (base_aqi + drift))) g2)
      as [rest g3].
    cbn [fst] in IH |- *. destruct IH as (Hlen & Hall & Hmap).
    split; [cbn; now rewrite Hlen|]. split.
    + constructor; [|exact Hall]. cbn [point_aqi]. apply clamped_int.
    + rewrite seq_S, rev_app_distr. cbn [rev app map plus].
      cbn [point_timestamp point_hour]. now rewrite Hmap.
Qed.

End Historical.

(** X8.  The historical series has exactly as many points as hours were
    asked for, oldest first, one per whole hour before the clock reading,
    and every index in it lies between 10 and 500, whatever the city and
    whatever the generator draws. *)
Theorem get_historical_data_points `{Host} {G : Type} `{PyRandom G}
    (city : string) (hours : nat) (now : Q) (g : G) :
  let points := fst (get_historical_data city hours now g) in
  List.length points = hours
  /\ Forall (fun p => 10 <= point_aqi p <= 500) points
  /\ map (fun p => (point_timestamp p, point_hour p)) points
     = map (fun j => (strftime_HM (hours_before now j), hour_of (hours_before now j)))
           (rev (seq 1 hours)).
Proof.
  unfold get_historical_data.
  destruct (match PyDict.get city_base_aqi city with
            | Some range => range
            | None => (60, 150)
            end) as [base_min base_max].
  destruct (randint base_min base_max g) as [base_aqi g1].
  apply historical_loop_points.
Qed.

Section HistoricalWalk.

Context `{Host} {G : Type} `{PyRandom G}.

Hypothesis Hrandint : randint_in_range.

Lemma historical_loop_bounded (now : Q) (i : nat) :
  forall (base_min base_max base_aqi : Z) (g : G),
    10 <= base_min <= base_max ->
    base_min <= base_aqi <= base_max ->
    Forall (fun p => (inject_Z (point_aqi p)
                      <= (inject_Z base_max + 20) * (115 # 100))%Q)
           (fst (historical_loop i now base_min base_max base_aqi g)).
Proof.
  induction i as [|i IH]; intros base_min base_max base_aqi g Hrange Hbase.
  - constructor.
  - cbn [historical_loop].
    assert (Hvar := Hrandint (-20) 20 g ltac:(lia)).
    destruct (randint (-20) 20 g) as [variation g1]. cbn [fst] in Hvar.
    assert (Hdrift := Hrandint (-8) 8 g1 ltac:(lia)).
    destruct (randint (-8) 8 g1) as [drift g2]. cbn [fst] in Hdrift.
    specialize (IH base_min base_max
                  (Z.max base_min (Z.min base_max (base_aqi + drift))) g2
                  Hrange ltac:(lia)).
    destruct (historical_loop i now base_min base_max
                (Z.max base_min (Z.min base_max (base_aqi + drift))) g2)
      as [rest g3].
    cbn [fst] in IH |- *. constructor; [|exact IH].
    cbn [point_aqi].
    set (time_factor :=
           (if (7 <=? hour_of (now - 3600 * inject_Z (Z.of_nat (S i))))
                && (hour_of (now - 3600 * inject_Z (Z.of_nat (S i))) <=? 10)
               || (17 <=? hour_of (now - 3600 * inject_Z (Z.of_nat (S i))))
                  && (hour_of (now - 3600 * inject_Z (Z.of_nat (S i))) <=? 21)
            then 115 # 100
            else if (2 <=? hour_of (now - 3600 * inject_Z (Z.of_nat (S i))))
                    && (hour_of (now - 3600 * inject_Z (Z.of_nat (S i))) <=? 5)
                 then 85 # 100 else 1)%Q).
    assert (Hfactor : (0 <= time_factor)%Q /\ (time_factor <= 115 # 100)%Q).
    { unfold time_factor.
      destruct (_ || _); [split; lra|]. destruct (_ && _); split; lra. }
    set (x := (inject_Z (base_aqi + variation) * time_factor)%Q).
    assert (Hsum : (inject_Z (base_aqi + variation) <= inject_Z base_max + 20)%Q).
    { change 20%Q with (inject_Z 20). rewrite <- inject_Z_plus, <- Zle_Qle. lia. }
    assert (Hmax0 : (30 <= inject_Z base_max + 20)%Q).
    { change 30%Q with (inject_Z 30). change 20%Q with (inject_Z 20).
      rewrite <- inject_Z_plus, <- Zle_Qle. lia. }
    assert (Hx : (x <= (inject_Z base_max + 20) * (115 # 100))%Q).
    { unfold x. destruct Hfactor as [Hf0 Hf1].
      destruct (Qlt_le_dec (inject_Z (base_aqi + variation)) 0); nra. }
    assert (Hclamp : (Py.max2 10 (Py.min2 500 x)
                      <= (inject_Z base_max + 20) * (115 # 100))%Q).
    { unfold Py.max2, Py.min2.
      destruct (Py.Qlt_bool x 500) eqn:E1.
      - destruct (Py.Qlt_bool 10 x); lra.
      - apply Qlt_bool_false in E1.
        destruct (Py.Qlt_bool 10 500); lra. }
    assert (Hnonneg : (0 <= Py.max2 10 (Py.min2 500 x))%Q).
    { unfold Py.max2. destruct (Py.Qlt_bool 10 (Py.min2 500 x)) eqn:E; [|lra].
      apply Qlt_bool_iff in E. lra. }
    rewrite int_floor by exact Hnonneg.
    eapply Qle_trans; [apply Qfloor_le | exact Hclamp].
Qed.

End HistoricalWalk.

Lemma city_base_aqi_ordered (city : string) :
  let '(base_min, base_max) :=
    match PyDict.get city_base_aqi city with
    | Some range => range
    | None => (60, 150)
    end in
  10 <= base_min <= base_max.
Proof.
  destruct (PyDict.get city_base_aqi city) as [[base_min base_max]|] eqn:Hget.
  - apply get_In in Hget.
    assert (Hall : forallb (fun e => let '(lo, hi) := snd e in
                                     (10 <=? lo) && (lo <=? hi)) city_base_aqi = true)
      by (vm_compute; reflexivity).
    rewrite forallb_forall in Hall. specialize (Hall _ Hget). cbn in Hall.
    apply andb_true_iff in Hall as [H1 H2]. lia.
  - lia.
Qed.

(** X9.  With a generator whose [randint] stays in the range asked for,
    the series is a bounded walk: no index exceeds 1.15 times the upper
    end of the city's base range plus 20. *)
Theorem get_historical_data_bounded `{Host} {G : Type} `{PyRandom G}
    (city : string) (hours : nat) (now : Q) (g : G) :
  randint_in_range ->
  let '(base_min, base_max) :=
    match PyDict.get city_base_aqi city with
    | Some range => range
    | None => (60, 150)
    end in
  Forall (fun p => (inject_Z (point_aqi p)
                    <= (inject_Z base_max + 20) * (115 # 100))%Q)
         (fst (get_historical_data city hours now g)).
Proof.
  intros Hrandint. unfold get_historical_data.
  assert (Hrange := city_base_aqi_ordered city).
  destruct (match PyDict.get city_base_aqi city with
            | Some range => range
            | None => (60, 150)
            end) as [base_min base_max].
  assert (Hbase := Hrandint base_min base_max g ltac:(lia)).
  destruct (randint base_min base_max g) as [base_aqi g1]. cbn [fst] in Hbase.
  now apply historical_loop_bounded.
Qed.

Lemma cycle_random_randint : randint_in_range (G := nat).
Proof.
  intros a b n Hab. cbn [randint cycle_random fst].
  assert (Hmod := Z.mod_pos_bound (Z.of_nat n) (b - a + 1) ltac:(lia)). lia.
Qed.

Lemma get_historical_data_bounded_witness :
  Forall (fun p => (inject_Z (point_aqi p) <= (inject_Z 350 + 20) * (115 # 100))%Q)
         (fst (get_historical_data "Delhi" 24 0 0%nat)).
Proof.
  exact (get_historical_data_bounded "Delhi" 24 0 0%nat cycle_random_randint).
Defined.

(** ** The cache across calls *)

Lemma aggregate_measurements_not_empty (results : list station_result) :
  aggregate_measurements results <> [].
Proof.
  destruct (aggregate_measurements_merged results) as [Hkeys _].
  intros Hnil. rewrite Hnil in Hkeys. discriminate.
Qed.

Lemma cache_hit_fresh {V : Type} (_cache : gmap string (V * Q))
    (cache_key : string) (data : V) (t0 t : Q) :
  (t - t0 < CACHE_DURATION)%Q ->
  get_cached_data (set_cache _cache t0 cache_key data) t cache_key = Some data.
Proof.
  intros Hfresh. unfold get_cached_data, set_cache. rewrite lookup_insert_eq.
  apply Qlt_bool_iff in Hfresh. now rewrite Hfresh.
Qed.

Lemma cache_miss_stale {V : Type} (_cache : gmap string (V * Q))
    (cache_key : string) (data : V) (t0 t : Q) :
  (CACHE_DURATION <= t - t0)%Q ->
  get_cached_data (set_cache _cache t0 cache_key data) t cache_key = None.
Proof.
  intros Hstale. unfold get_cached_data, set_cache. rewrite lookup_insert_eq.
  apply Qlt_bool_false in Hstale. now rewrite Hstale.
Qed.

Lemma get_cached_data_fresh {V : Type} (_cache : gmap string (V * Q))
    (cache_key : string) (data : V) (t0 seconds : Q) :
  (0 <= seconds)%Q -> (seconds < CACHE_DURATION)%Q ->
  get_cached_data (set_cache _cache t0 cache_key data) (t0 + seconds) cache_key
  = Some data.
Proof.
  intros H0 H1.
  apply (cache_hit_fresh _cache cache_key data t0 (t0 + seconds)). lra.
Qed.

(** X10.  After a fetch that succeeded, a call for the same city at any
    time less than [CACHE_DURATION] seconds later returns the same vector
    and sends nothing, whatever the network would answer and whatever
    coordinates are passed (the key is the city name alone); from
    [CACHE_DURATION] seconds on, the call sends its request again. *)
Theorem fetch_aqi_from_openaq_served_from_cache {G : Type}
    (net net' : network) (city : string) (lat lng lat' lng' : option Q)
    (w : world G) (data : json_body) (first_result : station_result)
    (other_results : list station_result) :
  aq_miss city w ->
  fst (net (List.length (sent w)) (openaq_request city lat lng)) = Response 200 data ->
  results data = Some (first_result :: other_results) ->
  let first := fetch_aqi_from_openaq net city lat lng w in
  fst first = Some (aggregate_measurements (first_result :: other_results))
  /\ (forall seconds, (0 <= seconds)%Q -> (seconds < CACHE_DURATION)%Q ->
        fetch_aqi_from_openaq net' city lat' lng' (later seconds (snd first))
        = (fst first, later seconds (snd first)))
  /\ (forall seconds, (CACHE_DURATION <= seconds)%Q ->
        sent (snd (fetch_aqi_from_openaq net' city lat' lng' (later seconds (snd first))))
        = sent (snd first) ++ [openaq_request city lat' lng']).
Proof.
  intros Hmiss Houtcome Hresults first.
  assert (Hfirst :
            first
            = (Some (aggregate_measurements (first_result :: other_results)),
               let w1 := snd (requests_get net (openaq_request city lat lng) w) in
               mkWorld (set_cache (aq_cache w1) (clock w1) ("openaq_" +:+ city)
                          (aggregate_measurements (first_result :: other_results)))
                       (weather_cache w1) (clock w1) (rng w1) (sent w1))).
  { subst first. unfold fetch_aqi_from_openaq. fold (openaq_request city lat lng).
    destruct (requests_get_world net (openaq_request city lat lng) w)
      as (_ & _ & _ & _ & _ & Hout).
    rewrite Houtcome in Hout.
    destruct (requests_get net (openaq_request city lat lng) w) as [outcome w1].
    cbn [fst snd] in *. subst outcome.
    rewrite Z.eqb_refl, Hresults.
    destruct (get_cached_data (aq_cache w) (clock w) ("openaq_" +:+ city))
      as [[|entry rest]|] eqn:Hcache; try reflexivity.
    specialize (Hmiss _ Hcache). discriminate. }
  rewrite Hfirst. cbn [fst snd]. clear Hfirst first.
  set (w1 := snd (requests_get net (openaq_request city lat lng) w)).
  set (pollutants := aggregate_measurements (first_result :: other_results)).
  split; [reflexivity|]. split.
  - intros seconds H0 H1. unfold fetch_aqi_from_openaq.
    cbn [later aq_cache clock].
    rewrite get_cached_data_fresh by assumption.
    destruct pollutants as [|entry rest] eqn:Hp; [|reflexivity].
    exfalso. exact (aggregate_measurements_not_empty _ Hp).
  - intros seconds Hstale.
    rewrite fetch_aqi_from_openaq_sends; [reflexivity|].
    intros cached Hhit. exfalso.
    cbn [later aq_cache clock] in Hhit.
    rewrite cache_miss_stale in Hhit by lra. discriminate.
Qed.

Lemma fetch_aqi_from_openaq_served_from_cache_witness :
  let first := fetch_aqi_from_openaq live_network "Delhi" None None empty_world in
  fst first = Some (aggregate_measurements [sample_station])
  /\ (forall seconds, (0 <= seconds)%Q -> (seconds < CACHE_DURATION)%Q ->
        fetch_aqi_from_openaq dead_network "Delhi" (Some 28%Q) (Some 77%Q)
          (later seconds (snd first))
        = (fst first, later seconds (snd first)))
  /\ (forall seconds, (CACHE_DURATION <= seconds)%Q ->
        sent (snd (fetch_aqi_from_openaq dead_network "Delhi" (Some 28%Q) (Some 77%Q)
                     (later seconds (snd first))))
        = sent (snd first) ++ [openaq_request "Delhi" (Some 28%Q) (Some 77%Q)]).
Proof.
  apply (fetch_aqi_from_openaq_served_from_cache live_network dead_network "Delhi"
           None None (Some 28%Q) (Some 77%Q) empty_world
           (mkBody (Some [sample_station]) None None None) sample_station []).
  - intros cached Hhit. discriminate.
  - reflexivity.
  - reflexivity.
Defined.

(** X11.  After a weather fetch that succeeded, a call for the same
    coordinates less than [CACHE_DURATION] seconds later returns the same
    weather and sends nothing; from [CACHE_DURATION] seconds on it sends
    its request again. *)
Theorem fetch_weather_served_from_cache `{Host} {G : Type}
    (net net' : network) (lat lng : Q) (w : world G)
    (data : json_body) (weather : weather_info) :
  get_cached_data (weather_cache w) (clock w) (weather_key lat lng) = None ->
  WEATHER_API_KEY <> "" ->
  fst (net (List.length (sent w)) (CurrentWeather lat lng)) = Response 200 data ->
  weather_of_json data = Ok weather ->
  let first := fetch_weather net lat lng w in
  fst first = Ok weather
  /\ (forall seconds, (0 <= seconds)%Q -> (seconds < CACHE_DURATION)%Q ->
        fetch_weather net' lat lng (later seconds (snd first))
        = (Ok weather, later seconds (snd first)))
  /\ (forall seconds, (CACHE_DURATION <= seconds)%Q ->
        sent (snd (fetch_weather net' lat lng (later seconds (snd first))))
        = sent (snd first) ++ [CurrentWeather lat lng]).
Proof.
  intros Hmiss Hkey Houtcome Hweather first.
  assert (Hfirst :
            first
            = (Ok weather,
               let w1 := snd (requests_get net (CurrentWeather lat lng) w) in
               mkWorld (aq_cache w1)
                       (set_cache (weather_cache w1) (clock w1)
                                  (weather_key lat lng) weather)
                       (clock w1) (rng w1) (sent w1))).
  { subst first. unfold fetch_weather. fold (weather_key lat lng). rewrite Hmiss.
    destruct (String.eqb_spec WEATHER_API_KEY "") as [|_]; [contradiction|].
    destruct (requests_get_world net (CurrentWeather lat lng) w)
      as (_ & _ & _ & _ & _ & Hout).
    rewrite Houtcome in Hout.
    destruct (requests_get net (CurrentWeather lat lng) w) as [outcome w1].
    cbn [fst snd] in *. subst outcome.
    now rewrite Z.eqb_refl, Hweather. }
  rewrite Hfirst. cbn [fst snd]. clear Hfirst first.
  set (w1 := snd (requests_get net (CurrentWeather lat lng) w)).
  split; [reflexivity|]. split.
  - intros seconds H0 H1. unfold fetch_weather. fold (weather_key lat lng).
    cbn [later weather_cache clock].
    now rewrite get_cached_data_fresh by assumption.
  - intros seconds Hstale.
    rewrite fetch_weather_sends; [reflexivity | | exact Hkey].
    cbn [later weather_cache clock].
    apply cache_miss_stale. lra.
Qed.

Lemma fetch_weather_served_from_cache_witness :
  let first := fetch_weather live_network 28 77 empty_world in
  fst first = Ok (mkWeather 0 0 0 0 0 "" "01d" None)
  /\ (forall seconds, (0 <= seconds)%Q -> (seconds < CACHE_DURATION)%Q ->
        fetch_weather dead_network 28 77 (later seconds (snd first))
        = (Ok (mkWeather 0 0 0 0 0 "" "01d" None), later seconds (snd first)))
  /\ (forall seconds, (CACHE_DURATION <= seconds)%Q ->
        sent (snd (fetch_weather dead_network 28 77 (later seconds (snd first))))
        = sent (snd first) ++ [CurrentWeather 28 77]).
Proof.
  apply (fetch_weather_served_from_cache live_network dead_network 28 77 empty_world
           (mkBody (Some [sample_station]) None None None)).
  - reflexivity.
  - discriminate.
  - reflexivity.
  - reflexivity.
Defined.

(** ** Requests and exceptions of a report *)

Section Requests.

Context `{Host} {G : Type} `{PyRandom G}.

Variable net : network.

Lemma fetch_aqi_from_openaq_sent (city : string) (lat lng : option Q) (w : world G) :
  exists asked : bool,
    sent (snd (fetch_aqi_from_openaq net city lat lng w))
    = sent w ++ (if asked then [openaq_request city lat lng] else []).
Proof.
  unfold fetch_aqi_from_openaq. fold (openaq_request city lat lng).
  destruct (requests_get_world net (openaq_request city lat lng) w)
    as (_ & _ & _ & Hsent & _ & _).
  destruct (requests_get net (openaq_request city lat lng) w) as [outcome w1].
  cbn [snd] in Hsent.
  assert (Hasked :
            sent (snd (match outcome with
                       | Timeout => (None, w1)
                       | RequestException => (None, w1)
                       | Response status_code data =>
                           if status_code =? 200 then
                             match results data with
                             | Some ((_ :: _) as rs) =>
                                 let pollutants := aggregate_measurements rs in
                                 (Some pollutants,
                                  mkWorld (set_cache (aq_cache w1) (clock w1)
                                             ("openaq_" +:+ city) pollutants)
                                          (weather_cache w1) (clock w1) (rng w1) (sent w1))
                             | _ => (None, w1)
                             end
                           else (None : option (dict (option Q)), w1)
                       end))
            = sent w ++ [openaq_request city lat lng]).
  { destruct outcome as [| |status_code data]; try exact Hsent.
    destruct (status_code =? 200); [|exact Hsent].
    destruct (results data) as [[|r rs]|]; exact Hsent. }
  destruct (get_cached_data (aq_cache w) (clock w) ("openaq_" +:+ city))
    as [[|entry rest]|].
  - exists true. exact Hasked.
  - exists false. cbn [snd]. now rewrite app_nil_r.
  - exists true. exact Hasked.
Qed.

Lemma fetch_weather_sent (lat lng : Q) (w : world G) :
  exists asked : bool,
    sent (snd (fetch_weather net lat lng w))
    = sent w ++ (if asked then [CurrentWeather lat lng] else [])
    /\ (WEATHER_API_KEY = "" -> asked = false).
Proof.
  unfold fetch_weather.
  destruct (get_cached_data (weather_cache w) (clock w) _) as [cached|].
  { exists false. cbn [snd]. now rewrite app_nil_r. }
  destruct (String.eqb_spec WEATHER_API_KEY "") as [Hkey|Hkey].
  { exists false. cbn [snd]. now rewrite app_nil_r. }
  destruct (requests_get_world net (CurrentWeather lat lng) w)
    as (_ & _ & _ & Hsent & _ & _).
  destruct (requests_get net (CurrentWeather lat lng) w) as [outcome w1].
  cbn [snd] in Hsent.
  exists true. split; [|contradiction].
  destruct outcome as [| |status_code data]; try exact Hsent.
  destruct (status_code =? 200); [|exact Hsent].
  destruct (weather_of_json data); exact Hsent.
Qed.

Lemma choose_pollutants_sent (fetched : option (dict (option Q))) (name : string)
    (w : world G) :
  sent (snd (choose_pollutants fetched name w)) = sent w.
Proof.
  unfold choose_pollutants.
  destruct (match fetched with Some p => all_none p | None => true end);
    [|reflexivity].
  now destruct (get_demo_aqi_data name (rng w)).
Qed.

End Requests.

(** X12.  A report costs at most two requests, the pollutant request and
    then the weather request, in that order; the weather request is never
    sent for a city whose latitude or longitude is missing or zero, nor
    when no API key is configured. *)
Theorem get_city_data_requests `{Host} {G : Type} `{PyRandom G}
    (BREAKPOINTS : breakpoint_table) (net : network) (info : city_info)
    (w : world G) :
  let name := match city_name info with Some n => n | None => "Unknown" end in
  exists pollutants_asked weather_asked : bool,
    sent (snd (get_city_data BREAKPOINTS net info w))
    = sent w
      ++ (if pollutants_asked
          then [openaq_request name (city_lat info) (city_lng info)] else [])
      ++ (if weather_asked
          then [CurrentWeather (number_or_zero (city_lat info))
                               (number_or_zero (city_lng info))]
          else [])
    /\ (truthy (city_lat info) && truthy (city_lng info) = false ->
        weather_asked = false)
    /\ (WEATHER_API_KEY = "" -> weather_asked = false).
Proof.
  intros name. unfold get_city_data. fold name.
  destruct (fetch_aqi_from_openaq_sent net name (city_lat info) (city_lng info) w)
    as [asked Hasked].
  destruct (fetch_aqi_from_openaq net name (city_lat info) (city_lng info) w)
    as [fetched w1].
  cbn [snd] in Hasked.
  assert (Hchosen := choose_pollutants_sent fetched name w1).
  destruct (choose_pollutants fetched name w1) as [[pollutants source] w2].
  cbn [snd] in Hchosen. rewrite Hasked in Hchosen.
  destruct (calculate_aqi BREAKPOINTS pollutants) as [r|e].
  - destruct (truthy (city_lat info) && truthy (city_lng info)) eqn:Hcoords.
    + destruct (fetch_weather_sent net (number_or_zero (city_lat info))
                  (number_or_zero (city_lng info)) w2) as (wasked & Hwasked & Hkey).
      destruct (fetch_weather net (number_or_zero (city_lat info))
                  (number_or_zero (city_lng info)) w2) as [weather_result w3].
      cbn [snd] in Hwasked. rewrite Hchosen in Hwasked.
      exists asked, wasked. split; [|split; [discriminate | exact Hkey]].
      destruct weather_result as [weather|e]; cbn [snd].
      * destruct (get_historical_data name 24 (clock w3) (rng w3)).
        cbn [snd sent]. now rewrite Hwasked, <- app_assoc.
      * now rewrite Hwasked, <- app_assoc.
    + exists asked, false. split; [|split; reflexivity].
      destruct (get_historical_data name 24 (clock w2) (rng w2)).
      cbn [snd sent]. now rewrite Hchosen, app_nil_r.
  - exists asked, false. split; [|split; reflexivity].
    cbn [snd]. now rewrite Hchosen, app_nil_r.
Qed.

Lemma get_city_data_requests_witness :
  exists pollutants_asked weather_asked : bool,
    sent (snd (get_city_data sample_breakpoints live_network
                 (mkCity (Some "Delhi") (Some 0%Q) (Some 77%Q) None) empty_world))
    = sent empty_world
      ++ (if pollutants_asked then [openaq_request "Delhi" (Some 0%Q) (Some 77%Q)] else [])
      ++ (if weather_asked then [CurrentWeather 0 77] else [])
    /\ weather_asked = false.
Proof.
  destruct (get_city_data_requests sample_breakpoints live_network
              (mkCity (Some "Delhi") (Some 0%Q) (Some 77%Q) None) empty_world)
    as (a & b & Hsent & Hcoords & _).
  exists a, b. split; [exact Hsent | now apply Hcoords].
Defined.

Section ReportFacts.

Context `{Host} {G : Type} `{PyRandom G}.

Lemma fetch_aqi_from_openaq_weather_cache (net : network) (city : string)
    (lat lng : option Q) (w : world G) :
  weather_cache (snd (fetch_aqi_from_openaq net city lat lng w)) = weather_cache w.
Proof.
  unfold fetch_aqi_from_openaq. fold (openaq_request city lat lng).
  destruct (requests_get_world net (openaq_request city lat lng) w)
    as (_ & Hweather & _).
  destruct (requests_get net (openaq_request city lat lng) w) as [outcome w1].
  cbn [snd] in Hweather.
  destruct (get_cached_data (aq_cache w) (clock w) ("openaq_" +:+ city))
    as [[|entry rest]|]; try reflexivity;
    (destruct outcome as [| |status_code data]; try exact Hweather;
     destruct (status_code =? 200); [|exact Hweather];
     destruct (results data) as [[|r rs]|]; exact Hweather).
Qed.

Lemma choose_pollutants_weather_cache (fetched : option (dict (option Q)))
    (name : string) (w : world G) :
  weather_cache (snd (choose_pollutants fetched name w)) = weather_cache w.
Proof.
  unfold choose_pollutants.
  destruct (match fetched with Some p => all_none p | None => true end);
    [|reflexivity].
  now destruct (get_demo_aqi_data name (rng w)).
Qed.

End ReportFacts.

(** X13.  An answer of the weather source with status 200 and an empty
    ["weather"] list is not caught: for a city with coordinates, a
    configured key and no cached weather, [get_city_data] raises
    [IndexError], and nothing is stored in the weather cache. *)
Theorem get_city_data_raises_on_empty_weather `{Host} {G : Type} `{PyRandom G}
    (BREAKPOINTS : breakpoint_table) (net : network) (info : city_info)
    (w : world G) (data : json_body) :
  let lat := number_or_zero (city_lat info) in
  let lng := number_or_zero (city_lng info) in
  well_formed_table BREAKPOINTS = true ->
  truthy (city_lat info) && truthy (city_lng info) = true ->
  WEATHER_API_KEY <> "" ->
  weather_cache w !! weather_key lat lng = None ->
  (forall n, fst (net n (CurrentWeather lat lng)) = Response 200 data) ->
  weather data = Some [] ->
  fst (get_city_data BREAKPOINTS net info w) = Raise IndexError
  /\ weather_cache (snd (get_city_data BREAKPOINTS net info w)) = weather_cache w.
Proof.
  intros lat lng Htable Hcoords Hkey Hentry Hnet Hempty.
  unfold get_city_data.
  set (name := match city_name info with Some n => n | None => "Unknown" end).
  assert (Hw1 := fetch_aqi_from_openaq_weather_cache net name (city_lat info)
                   (city_lng info) w).
  destruct (fetch_aqi_from_openaq net name (city_lat info) (city_lng info) w)
    as [fetched w1].
  cbn [snd] in Hw1.
  assert (Hw2 := choose_pollutants_weather_cache fetched name w1).
  destruct (choose_pollutants fetched name w1) as [[pollutants source] w2].
  cbn [snd] in Hw2. rewrite Hw1 in Hw2.
  destruct (calculate_aqi_total BREAKPOINTS pollutants Htable) as [r ->].
  rewrite Hcoords. fold lat lng.
  unfold fetch_weather. fold (weather_key lat lng).
  assert (Hmiss : get_cached_data (weather_cache w2) (clock w2) (weather_key lat lng) = None).
  { unfold get_cached_data. now rewrite Hw2, Hentry. }
  rewrite Hmiss.
  destruct (String.eqb_spec WEATHER_API_KEY "") as [|_]; [contradiction|].
  destruct (requests_get_world net (CurrentWeather lat lng) w2)
    as (_ & Hw3 & _ & _ & _ & Hout).
  rewrite Hnet in Hout.
  destruct (requests_get net (CurrentWeather lat lng) w2) as [outcome w3].
  cbn [fst snd] in *. subst outcome.
  rewrite Z.eqb_refl.
  unfold weather_of_json, first_weather_entry. rewrite Hempty.
  cbn [Py.bind fst snd]. split; [reflexivity | congruence].
Qed.

Lemma get_city_data_raises_on_empty_weather_witness :
  let net : network :=
    fun _ _ => (Response 200 (mkBody None None None (Some [])), 1%Q) in
  fst (get_city_data sample_breakpoints net sample_city empty_world) = Raise IndexError
  /\ weather_cache (snd (get_city_data sample_breakpoints net sample_city empty_world))
     = weather_cache empty_world.
Proof.
  intros net.
  apply (get_city_data_raises_on_empty_weather sample_breakpoints net sample_city
           empty_world (mkBody None None None (Some [])));
    try reflexivity; discriminate.
Defined.

(** ** The rows of a report *)

Lemma pollutants_display_shape (items : list (string * option Q)) (subs : dict Z) :
  map (fun row => (row_key row, Some (row_value row))) (pollutants_display items subs)
  = List.filter (fun item => match snd item with Some _ => true | None => false end) items
  /\ Forall (fun row => row_sub_index row = sub_indices_get subs (row_key row))
            (pollutants_display items subs).
Proof.
  induction items as [|[k [v|]] rest [IHmap IHall]]; cbn; [now split | |now split].
  split; [now rewrite IHmap | now constructor].
Qed.

(** X14.  The rows of a report are the non-null fields of the vector, in
    order, with their values; a row whose value is not negative carries
    the sub-index of that value, and a row whose value is negative (which
    has no sub-index) carries 0. *)
Theorem pollutants_display_rows
    (BREAKPOINTS : breakpoint_table) (pollutants : dict (option Q)) (r : aqi_result) :
  PyDict.wf pollutants ->
  calculate_aqi BREAKPOINTS pollutants = Ok r ->
  let rows := pollutants_display (PyDict.items pollutants) (sub_indices r) in
  map (fun row => (row_key row, Some (row_value row))) rows
  = List.filter (fun item => match snd item with Some _ => true | None => false end)
           pollutants
  /\ Forall (fun row =>
               ((0 <= row_value row)%Q ->
                calculate_sub_index BREAKPOINTS (row_key row) (row_value row)
                = Ok (row_sub_index row))
               /\ ((row_value row < 0)%Q -> row_sub_index row = 0))
            rows.
Proof.
  intros Hwf Hrun rows. subst rows. unfold PyDict.items.
  destruct (pollutants_display_shape pollutants (sub_indices r)) as [Hmap Hall].
  split; [exact Hmap|].
  destruct (calculate_aqi_inv _ _ _ Hwf Hrun) as (Hentries & _ & _).
  assert (Hkeys : List.NoDup (PyDict.keys (sub_indices r))).
  { rewrite (sub_index_of_keys _ _ _ Hentries). now apply contributing_wf. }
  assert (Hrows : forall row,
             In row (pollutants_display pollutants (sub_indices r)) ->
             In (row_key row, Some (row_value row)) pollutants).
  { intros row Hin.
    apply (in_map (fun row => (row_key row, Some (row_value row)))) in Hin.
    rewrite Hmap in Hin. now apply List.filter_In in Hin as [Hin _]. }
  rewrite List.Forall_forall in Hall. apply List.Forall_forall.
  intros row Hin. specialize (Hall row Hin). specialize (Hrows row Hin).
  rewrite Hall. unfold sub_indices_get. split.
  - intros Hpos.
    assert (Hc : In (row_key row, row_value row) (contributing pollutants))
      by now apply In_contributing.
    destruct (Forall2_In_left _ _ _ _ Hentries Hc) as ([k s] & Hs & Hk & Hsub).
    cbn [fst snd] in Hk, Hsub. subst k.
    now rewrite (In_get _ _ _ Hkeys Hs).
  - intros Hneg.
    destruct (PyDict.get (sub_indices r) (row_key row)) as [s|] eqn:Hget;
      [|reflexivity].
    exfalso. apply get_In in Hget.
    destruct (Forall2_In_right _ _ _ _ Hentries Hget) as ([k c] & Hc & Hk & _).
    cbn [fst] in Hk. subst k.
    apply In_contributing in Hc as [Hc Hpos].
    assert (Hsame := In_get _ _ _ Hwf Hc).
    rewrite (In_get _ _ _ Hwf Hrows) in Hsame.
    injection Hsame as Hsame. rewrite Hsame in Hneg. lra.
Qed.

Lemma pollutants_display_rows_witness :
  exists r,
    calculate_aqi sample_breakpoints mixed_vector = Ok r
    /\ map (fun row => (row_key row, Some (row_value row)))
           (pollutants_display mixed_vector (sub_indices r))
       = [("pm25", Some 250%Q); ("no2", Some (-3)%Q)]
    /\ Forall (fun row =>
                 ((0 <= row_value row)%Q ->
                  calculate_sub_index sample_breakpoints (row_key row) (row_value row)
                  = Ok (row_sub_index row))
                 /\ ((row_value row < 0)%Q -> row_sub_index row = 0))
              (pollutants_display mixed_vector (sub_indices r)).
Proof.
  eexists. split; [reflexivity|].
  apply (pollutants_display_rows sample_breakpoints mixed_vector).
  - unfold PyDict.wf, mixed_vector. simpl.
    repeat constructor; simpl; intuition discriminate.
  - reflexivity.
Defined.

(** ** The news cache *)

Section News.

Context {A : Type}.

Lemma fetch_aqi_news_miss (net : news_network A) (st : news_state A) :
  news_miss st -> fetch_aqi_news net st = request_news net st.
Proof.
  unfold news_miss, fetch_aqi_news. intros Hmiss.
  destruct (cached_news st) as [[|article rest]|]; try reflexivity.
  apply Qlt_bool_false in Hmiss. now rewrite Hmiss.
Qed.

Lemma request_news_sent (net : news_network A) (st : news_state A) :
  news_sent (snd (request_news net st)) = S (news_sent st)
  /\ news_clock (snd (request_news net st))
     = (news_clock st + snd (net (news_sent st)))%Q.
Proof.
  unfold request_news.
  destruct (net (news_sent st)) as [[|status_code data] elapsed]; [now split|].
  destruct (status_code =? 200); [|now split].
  destruct (news_status data) as [status|]; [|now split].
  destruct (String.eqb status "success"); now split.
Qed.

Lemma request_news_failed (net : news_network A) (st : news_state A) :
  news_failed (fst (net (news_sent st))) = true ->
  fst (request_news net st) = []
  /\ cached_news (snd (request_news net st)) = cached_news st
  /\ cached_at (snd (request_news net st)) = cached_at st.
Proof.
  unfold request_news, news_failed.
  destruct (net (news_sent st)) as [[|status_code data] elapsed]; cbn [fst];
    [now repeat split|].
  destruct (status_code =? 200); [|now repeat split].
  destruct (news_status data) as [status|]; [|now repeat split].
  destruct (String.eqb status "success"); [discriminate | now repeat split].
Qed.

End News.

(** X15.  After a fetch that brought at least one article, a call that
    starts less than an hour after the start of that fetch returns the
    same articles and sends nothing, whatever the network would answer. *)
Theorem fetch_aqi_news_served_from_cache {A : Type}
    (net net' : news_network A) (st : news_state A)
    (data : news_body A) (article : A) (others : list A) :
  news_miss st ->
  fst (net (news_sent st)) = NewsResponse 200 data ->
  news_status data = Some "success" ->
  news_results data = Some (article :: others) ->
  let first := fetch_aqi_news net st in
  fst first = article :: others
  /\ cached_at (snd first) = news_clock st
  /\ forall seconds,
       (news_clock (snd first) + seconds - news_clock st < NEWS_CACHE_DURATION)%Q ->
       fetch_aqi_news net' (news_later seconds (snd first))
       = (article :: others, news_later seconds (snd first)).
Proof.
  intros Hmiss Houtcome Hstatus Hresults first. subst first.
  rewrite (fetch_aqi_news_miss net st Hmiss).
  unfold request_news.
  destruct (net (news_sent st)) as [outcome elapsed]. cbn [fst] in Houtcome.
  subst outcome. rewrite Z.eqb_refl, Hstatus, Hresults. cbn [String.eqb Ascii.eqb Bool.eqb].
  cbn [fst snd cached_at news_clock].
  split; [reflexivity|]. split; [reflexivity|].
  intros seconds Hfresh.
  unfold fetch_aqi_news. cbn [news_later cached_news cached_at news_clock].
  apply Qlt_bool_iff in Hfresh. now rewrite Hfresh.
Qed.

Lemma fetch_aqi_news_served_from_cache_witness :
  let net : news_network nat :=
    fun _ => (NewsResponse 200 (mkNewsBody (Some "success") (Some [7%nat; 8%nat])), 2%Q) in
  let dead : news_network nat := fun _ => (NewsException, 10%Q) in
  let first := fetch_aqi_news net (news_start 100) in
  fst first = [7%nat; 8%nat]
  /\ cached_at (snd first) = 100%Q
  /\ forall seconds,
       (news_clock (snd first) + seconds - 100 < NEWS_CACHE_DURATION)%Q ->
       fetch_aqi_news dead (news_later seconds (snd first))
       = ([7%nat; 8%nat], news_later seconds (snd first)).
Proof.
  intros net dead.
  apply (fetch_aqi_news_served_from_cache net dead (news_start 100)
           (mkNewsBody (Some "success") (Some [7%nat; 8%nat])) 7%nat [8%nat]);
    reflexivity.
Defined.

(** X16.  A fetch that fails -- an exception, a status code other than
    200, or a body whose status is not "success" -- returns the empty
    list, even when stale articles are still in the cache; the cache keeps
    what it had, and the next call sends a request again. *)
Theorem fetch_aqi_news_failure {A : Type}
    (net net' : news_network A) (st : news_state A) :
  news_miss st ->
  news_failed (fst (net (news_sent st))) = true ->
  (0 <= snd (net (news_sent st)))%Q ->
  let first := fetch_aqi_news net st in
  fst first = []
  /\ cached_news (snd first) = cached_news st
  /\ cached_at (snd first) = cached_at st
  /\ forall seconds, (0 <= seconds)%Q ->
       news_sent (snd (fetch_aqi_news net' (news_later seconds (snd first))))
       = S (news_sent (snd first)).
Proof.
  intros Hmiss Hfailed Helapsed first. subst first.
  rewrite (fetch_aqi_news_miss net st Hmiss).
  destruct (request_news_failed net st Hfailed) as (Hnone & Hdata & Hat).
  destruct (request_news_sent net st) as [_ Hclock].
  split; [exact Hnone|]. split; [exact Hdata|]. split; [exact Hat|].
  intros seconds Hseconds.
  rewrite fetch_aqi_news_miss; [exact (proj1 (request_news_sent net' _))|].
  unfold news_miss in *. cbn [news_later cached_news cached_at news_clock].
  rewrite Hdata, Hat, Hclock.
  destruct (cached_news st) as [[|article rest]|]; try exact I. lra.
Qed.

Lemma fetch_aqi_news_failure_witness :
  let dead : news_network nat := fun _ => (NewsResponse 429 (mkNewsBody None None), 1%Q) in
  let st := mkNewsState (Some [7%nat]) 0 4000 1 in
  let first := fetch_aqi_news dead st in
  fst first = []
  /\ cached_news (snd first) = Some [7%nat]
  /\ cached_at (snd first) = 0%Q
  /\ forall seconds, (0 <= seconds)%Q ->
       news_sent (snd (fetch_aqi_news dead (news_later seconds (snd first))))
       = S (news_sent (snd first)).
Proof.
  intros dead st.
  apply (fetch_aqi_news_failure dead dead st).
  - unfold news_miss, st, NEWS_CACHE_DURATION. cbn. lra.
  - reflexivity.
  - cbn. lra.
Defined.

(** X17.  A successful answer without articles is stored but never
    served: the call returns the empty list, and every later call, however
    soon, sends a request again. *)
Theorem fetch_aqi_news_empty_answer {A : Type}
    (net net' : news_network A) (st : news_state A) (data : news_body A) :
  news_miss st ->
  fst (net (news_sent st)) = NewsResponse 200 data ->
  news_status data = Some "success" ->
  news_results data = None \/ news_results data = Some [] ->
  let first := fetch_aqi_news net st in
  fst first = []
  /\ cached_news (snd first) = Some []
  /\ cached_at (snd first) = news_clock st
  /\ forall seconds,
       news_sent (snd (fetch_aqi_news net' (news_later seconds (snd first))))
       = S (news_sent (snd first)).
Proof.
  intros Hmiss Houtcome Hstatus Hresults first. subst first.
  rewrite (fetch_aqi_news_miss net st Hmiss).
  unfold request_news.
  destruct (net (news_sent st)) as [outcome elapsed]. cbn [fst] in Houtcome.
  subst outcome. rewrite Z.eqb_refl, Hstatus. cbn [String.eqb Ascii.eqb Bool.eqb].
  assert (Hnone : match news_results data with Some rs => rs | None => [] end = [])
    by (destruct Hresults as [-> | ->]; reflexivity).
  rewrite Hnone. cbn [fst snd cached_news cached_at].
  split; [reflexivity|]. split; [reflexivity|]. split; [reflexivity|].
  intros seconds.
  rewrite fetch_aqi_news_miss; [exact (proj1 (request_news_sent net' _)) | exact I].
Qed.

Lemma fetch_aqi_news_empty_answer_witness :
  let net : news_network nat :=
    fun _ => (NewsResponse 200 (mkNewsBody (Some "success") None), 2%Q) in
  let first := fetch_aqi_news net (news_start 100) in
  fst first = []
  /\ cached_news (snd first) = Some []
  /\ cached_at (snd first) = 100%Q
  /\ forall seconds,
       news_sent (snd (fetch_aqi_news net (news_later seconds (snd first))))
       = S (news_sent (snd first)).
Proof.
  intros net.
  apply (fetch_aqi_news_empty_answer net net (news_start 100)
           (mkNewsBody (Some "success") None)); try reflexivity.
  now left.
Defined.

(** ** The catalog and [find_city] *)

Section Catalog.

Lemma index_state_flat (state : state_json)
    (acc : gmap string catalog_city * list catalog_city) :
  index_state acc state
  = fold_left index_step (map (catalog_info state) (cities state)) acc.
Proof.
  unfold index_state. revert acc.
  induction (cities state) as [|city rest IH]; intros acc; [reflexivity|].
  cbn [fold_left map]. apply IH.
Qed.

Lemma build_index_flat (STATES_DATA : list state_json)
    (acc : gmap string catalog_city * list catalog_city) :
  fold_left index_state STATES_DATA acc
  = fold_left index_step (catalog_cities STATES_DATA) acc.
Proof.
  unfold catalog_cities. revert acc.
  induction STATES_DATA as [|state rest IH]; intros acc; [reflexivity|].
  cbn [fold_left flat_map]. rewrite fold_left_app, <- index_state_flat. apply IH.
Qed.

Lemma fold_step (infos : list catalog_city)
    (acc : gmap string catalog_city * list catalog_city) :
  fold_left index_step infos acc
  = (fold_left index_keys infos (fst acc), snd acc ++ infos).
Proof.
  revert acc. induction infos as [|info rest IH]; intros [idx all].
  - cbn. now rewrite app_nil_r.
  - cbn [fold_left]. rewrite IH. cbn [index_step fst snd]. now rewrite <- app_assoc.
Qed.

Lemma ALL_CITIES_catalog (STATES_DATA : list state_json) :
  ALL_CITIES STATES_DATA = catalog_cities STATES_DATA.
Proof.
  unfold ALL_CITIES, build_index. now rewrite build_index_flat, fold_step.
Qed.

Lemma CITY_INDEX_catalog (STATES_DATA : list state_json) :
  CITY_INDEX STATES_DATA = fold_left index_keys (catalog_cities STATES_DATA) ∅.
Proof.
  unfold CITY_INDEX, build_index. now rewrite build_index_flat, fold_step.
Qed.

Lemma index_keys_lookup (idx : gmap string catalog_city) (info : catalog_city)
    (k : string) :
  index_keys idx info !! k
  = if decide (In k (city_keys info)) then Some info else idx !! k.
Proof.
  unfold index_keys, city_keys. rewrite !lookup_insert.
  destruct (decide (In k [cc_slug info; Py.lower (cc_name info)])) as [Hin|Hout];
    repeat case_decide; try reflexivity; simpl in *; intuition congruence.
Qed.

(** Every entry of the index is a city of the catalog under one of its
    own keys. *)
Lemma index_sound (infos : list catalog_city) (k : string) (c : catalog_city) :
  fold_left index_keys infos ∅ !! k = Some c ->
  In c infos /\ In k (city_keys c).
Proof.
  induction infos as [|info rest IH] using rev_ind.
  - cbn. rewrite lookup_empty. discriminate.
  - rewrite fold_left_app. cbn [fold_left]. rewrite index_keys_lookup.
    destruct (decide (In k (city_keys info))) as [Hin|Hout].
    + intros [= <-]. split; [apply in_or_app; right; now left | exact Hin].
    + intros Hlookup. destruct (IH Hlookup) as [Hc Hk].
      split; [apply in_or_app; now left | exact Hk].
Qed.

(** Every key of every city of the catalog has an entry. *)
Lemma index_complete (infos : list catalog_city) (k : string) (c : catalog_city) :
  In c infos -> In k (city_keys c) ->
  exists c', fold_left index_keys infos ∅ !! k = Some c'.
Proof.
  induction infos as [|info rest IH] using rev_ind; [contradiction|].
  intros Hc Hk. rewrite fold_left_app. cbn [fold_left]. rewrite index_keys_lookup.
  destruct (decide (In k (city_keys info))) as [Hin|Hout]; [eauto|].
  apply in_app_or in Hc as [Hc|[->|[]]]; [now apply IH | contradiction].
Qed.

Lemma index_exact (infos : list catalog_city) (k : string) (c : catalog_city) :
  distinct_keys infos -> In c infos -> In k (city_keys c) ->
  fold_left index_keys infos ∅ !! k = Some c.
Proof.
  intros Hdistinct Hc Hk.
  destruct (index_complete infos k c Hc Hk) as [c' Hlookup].
  destruct (index_sound infos k c' Hlookup) as [Hc' Hk'].
  now rewrite (Hdistinct c c' k Hc Hc' Hk Hk').
Qed.

End Catalog.

(** X18.  Whatever [find_city] returns is a city of the catalog, and one of
    the four forms of the query (as given, lower-cased, lower-cased with
    dashes for spaces, and that with "-aqi" appended) is its slug or its
    lower-cased name. *)
Theorem find_city_sound (STATES_DATA : list state_json) (slug_or_name : string)
    (c : catalog_city) :
  find_city (CITY_INDEX STATES_DATA) slug_or_name = Some c ->
  In c (ALL_CITIES STATES_DATA)
  /\ exists k, In k (query_keys slug_or_name) /\ In k (city_keys c).
Proof.
  rewrite ALL_CITIES_catalog, CITY_INDEX_catalog.
  unfold find_city, query_keys.
  set (idx := fold_left index_keys (catalog_cities STATES_DATA) ∅).
  destruct (idx !! slug_or_name) as [c1|] eqn:H1.
  { intros [= <-]. destruct (index_sound _ _ _ H1) as [Hc Hk].
    split; [exact Hc|]. eexists. split; [|exact Hk]. simpl; tauto. }
  destruct (idx !! Py.lower slug_or_name) as [c2|] eqn:H2.
  { intros [= <-]. destruct (index_sound _ _ _ H2) as [Hc Hk].
    split; [exact Hc|]. eexists. split; [|exact Hk]. simpl; tauto. }
  destruct (idx !! spaces_to_dashes (Py.lower slug_or_name)) as [c3|] eqn:H3.
  { intros [= <-]. destruct (index_sound _ _ _ H3) as [Hc Hk].
    split; [exact Hc|]. eexists. split; [|exact Hk]. simpl; tauto. }
  intros H4. destruct (index_sound _ _ _ H4) as [Hc Hk].
  split; [exact Hc|]. eexists. split; [|exact Hk]. simpl; tauto.
Qed.

Lemma find_city_sound_witness :
  In (mkCatalogCity "New Delhi" "new-delhi-aqi" (Some (286 # 10)) (Some (772 # 10))
        "Delhi" "delhi")
     (ALL_CITIES sample_states)
  /\ exists k,
       In k (query_keys "new delhi")
       /\ In k (city_keys (mkCatalogCity "New Delhi" "new-delhi-aqi" (Some (286 # 10))
                             (Some (772 # 10)) "Delhi" "delhi")).
Proof.
  apply (find_city_sound sample_states "new delhi"). reflexivity.
Defined.

(** X19.  When no key is shared by two cities of the catalog, every city
    is found by its slug and by its name in any letter case (as long as
    the name as typed is not itself a key of another city). *)
Theorem find_city_finds (STATES_DATA : list state_json) (c : catalog_city) :
  distinct_keys (ALL_CITIES STATES_DATA) ->
  In c (ALL_CITIES STATES_DATA) ->
  find_city (CITY_INDEX STATES_DATA) (cc_slug c) = Some c
  /\ forall name,
       Py.lower name = Py.lower (cc_name c) ->
       (forall c', In c' (ALL_CITIES STATES_DATA) -> In name (city_keys c') -> c' = c) ->
       find_city (CITY_INDEX STATES_DATA) name = Some c.
Proof.
  rewrite ALL_CITIES_catalog, CITY_INDEX_catalog.
  intros Hdistinct Hc. unfold find_city.
  set (idx := fold_left index_keys (catalog_cities STATES_DATA) ∅).
  split.
  - unfold idx. rewrite (index_exact _ (cc_slug c) c Hdistinct Hc); [reflexivity|].
    simpl. tauto.
  - intros name Hname Hown.
    destruct (idx !! name) as [c1|] eqn:H1.
    + destruct (index_sound _ _ _ H1) as [Hc1 Hk1].
      now rewrite (Hown c1 Hc1 Hk1).
    + rewrite Hname. unfold idx.
      rewrite (index_exact _ (Py.lower (cc_name c)) c Hdistinct Hc); [reflexivity|].
      simpl. tauto.
Qed.

Lemma sample_states_distinct : distinct_keys (ALL_CITIES sample_states).
Proof.
  rewrite ALL_CITIES_catalog. intros c1 c2 k H1 H2 K1 K2.
  cbn in H1, H2.
  repeat (destruct H1 as [<-|H1]; [|]); try contradiction;
    repeat (destruct H2 as [<-|H2]; [|]); try contradiction;
    try reflexivity; exfalso; cbn in K1, K2;
    destruct K1 as [<-|[<-|[]]]; destruct K2 as [K|[K|[]]]; discriminate.
Qed.

Lemma find_city_finds_witness :
  let pune := mkCatalogCity "Pune" "pune-aqi" None None "Maharashtra" "maharashtra" in
  find_city (CITY_INDEX sample_states) "pune-aqi" = Some pune
  /\ find_city (CITY_INDEX sample_states) "PUNE" = Some pune.
Proof.
  intros pune.
  destruct (find_city_finds sample_states pune sample_states_distinct) as [Hslug Hname].
  - rewrite ALL_CITIES_catalog. cbn. tauto.
  - split; [exact Hslug|]. apply Hname; [reflexivity|].
    intros c' Hc' Hk. rewrite ALL_CITIES_catalog in Hc'. cbn in Hc'.
    repeat (destruct Hc' as [<-|Hc']; [cbn in Hk; exfalso; intuition discriminate|]).
    destruct Hc'.
Defined.


(** ** Sorting and the search *)

Section SortDescending.

Context {X : Type} (key : X -> Q).

Lemma insert_descending_perm (x : X) (sorted : list X) :
  Permutation (insert_descending key x sorted) (x :: sorted).
Proof.
  induction sorted as [|y rest IH]; cbn; [reflexivity|].
  destruct (Py.Qlt_bool (key x) (key y)); [|reflexivity].
  rewrite IH. apply perm_swap.
Qed.

Lemma sort_descending_perm (xs : list X) : Permutation (sort_descending key xs) xs.
Proof.
  induction xs as [|x rest IH]; cbn; [reflexivity|].
  rewrite insert_descending_perm. now constructor.
Qed.

Lemma insert_descending_sorted (x : X) (sorted : list X) :
  StronglySorted (fun a b => (key b <= key a)%Q) sorted ->
  StronglySorted (fun a b => (key b <= key a)%Q) (insert_descending key x sorted).
Proof.
  induction 1 as [|y rest Hrest IH Hy]; cbn.
  - repeat constructor.
  - destruct (Py.Qlt_bool (key x) (key y)) eqn:E.
    + apply Qlt_bool_iff in E. constructor; [exact IH|].
      apply List.Forall_forall. intros z Hz.
      apply (Permutation_in _ (insert_descending_perm x rest)) in Hz.
      destruct Hz as [<-|Hz]; [now apply Qlt_le_weak|].
      rewrite List.Forall_forall in Hy. now apply Hy.
    + apply Qlt_bool_false in E. constructor; [now constructor|].
      constructor; [exact E|].
      eapply Forall_impl; [exact Hy|].
      intros z Hz. cbv beta in Hz. now apply Qle_trans with (key y).
Qed.

Lemma sort_descending_sorted (xs : list X) :
  StronglySorted (fun a b => (key b <= key a)%Q) (sort_descending key xs).
Proof.
  induction xs as [|x rest IH]; cbn; [constructor|].
  now apply insert_descending_sorted.
Qed.

Lemma In_firstn (n : nat) (xs : list X) (x : X) :
  In x (firstn n xs) -> In x xs.
Proof.
  intros Hin. rewrite <- (firstn_skipn n xs). apply in_or_app. now left.
Qed.

Lemma StronglySorted_firstn (R : X -> X -> Prop) (n : nat) (xs : list X) :
  StronglySorted R xs -> StronglySorted R (firstn n xs).
Proof.
  intros Hsorted. revert n.
  induction Hsorted as [|x rest Hrest IH Hx]; intros [|n]; cbn; try constructor.
  - apply IH.
  - apply List.Forall_forall. intros y Hy. apply In_firstn in Hy.
    rewrite List.Forall_forall in Hx. now apply Hx.
Qed.

Lemma slice_to_sorted (R : X -> X -> Prop) (limit : Z) (xs : list X) :
  StronglySorted R xs -> StronglySorted R (slice_to limit xs).
Proof.
  intros Hsorted. unfold slice_to.
  destruct (0 <=? limit); now apply StronglySorted_firstn.
Qed.

Lemma slice_to_In (limit : Z) (xs : list X) (x : X) :
  In x (slice_to limit xs) -> In x xs.
Proof.
  unfold slice_to. destruct (0 <=? limit); apply In_firstn.
Qed.

Lemma slice_to_length (limit : Z) (xs : list X) :
  (0 <= limit ->
   List.length (slice_to limit xs) = Nat.min (Z.to_nat limit) (List.length xs))
  /\ (limit < 0 ->
      List.length (slice_to limit xs)
      = Z.to_nat (Z.of_nat (List.length xs) + limit)).
Proof.
  unfold slice_to. split; intros Hlimit.
  - destruct (Z.leb_spec 0 limit); [|lia]. apply length_firstn.
  - destruct (Z.leb_spec 0 limit); [lia|]. rewrite length_firstn. lia.
Qed.

Lemma StronglySorted_app_inv (R : X -> X -> Prop) (l1 l2 : list X) :
  StronglySorted R (l1 ++ l2) -> forall a b, In a l1 -> In b l2 -> R a b.
Proof.
  induction l1 as [|x l1 IH]; intros Hsorted a b Ha Hb; [contradiction|].
  cbn [app] in Hsorted. apply StronglySorted_inv in Hsorted as [Hrest Hx].
  destruct Ha as [<-|Ha].
  - rewrite List.Forall_forall in Hx. apply Hx. apply in_or_app. now right.
  - now apply IH.
Qed.

(** A slice [xs[:limit]] is a prefix of the list. *)
Lemma slice_to_prefix (limit : Z) (xs : list X) :
  exists rest, xs = slice_to limit xs ++ rest.
Proof.
  unfold slice_to. destruct (0 <=? limit).
  - exists (skipn (Z.to_nat limit) xs). symmetry. apply firstn_skipn.
  - exists (skipn (Z.to_nat (Z.of_nat (List.length xs) + limit)) xs).
    symmetry. apply firstn_skipn.
Qed.

End SortDescending.

Lemma scored_matches_In (ratio : string -> string -> Q) (query_lower : string)
    (all_cities : list catalog_city) (score : Q) (city : catalog_city) :
  In (score, city) (scored_matches ratio query_lower all_cities)
  <-> In city all_cities /\ match_score ratio query_lower city = Some score.
Proof.
  unfold scored_matches. rewrite in_flat_map. split.
  - intros (c & Hc & Hin).
    destruct (match_score ratio query_lower c) as [s|] eqn:Hs; [|contradiction].
    destruct Hin as [[= <- <-]|[]]. now split.
  - intros [Hc Hs]. exists city. split; [exact Hc|]. rewrite Hs. now left.
Qed.

Lemma match_score_contains (ratio : string -> string -> Q) (query_lower : string)
    (city : catalog_city) (score : Q) :
  match_score ratio query_lower city = Some score ->
  contains query_lower (Py.lower (cc_name city)) = true
  \/ contains query_lower (Py.lower (cc_state city)) = true.
Proof.
  unfold match_score.
  destruct (contains query_lower (Py.lower (cc_name city))); [now left|].
  destruct (contains query_lower (Py.lower (cc_state city))); [now right | discriminate].
Qed.

(** X20.  Every city returned by the search is a city of the list searched
    whose lower-cased name or state contains the lower-cased query, and
    the query has at least two characters; the scores of the cities
    returned do not increase along the list. *)
Theorem search_cities_results (ratio : string -> string -> Q)
    (all_cities : list catalog_city) (query : string) (limit : Z) :
  (forall city,
     In city (search_cities ratio all_cities query limit) ->
     In city all_cities
     /\ (2 <= String.length query)%nat
     /\ (contains (Py.lower query) (Py.lower (cc_name city)) = true
         \/ contains (Py.lower query) (Py.lower (cc_state city)) = true))
  /\ exists scores,
       Forall2 (fun city score => match_score ratio (Py.lower query) city = Some score)
               (search_cities ratio all_cities query limit) scores
       /\ StronglySorted (fun a b => (b <= a)%Q) scores.
Proof.
  unfold search_cities.
  destruct (Nat.ltb_spec (String.length query) 2) as [Hshort|Hlong].
  { split; [intros city []|]. exists []. split; constructor. }
  set (results := scored_matches ratio (Py.lower query) all_cities).
  set (kept := slice_to limit (sort_descending fst results)).
  assert (Hkept : forall entry, In entry kept ->
                    In (snd entry) all_cities
                    /\ match_score ratio (Py.lower query) (snd entry) = Some (fst entry)).
  { intros [score city] Hin. unfold kept in Hin.
    apply slice_to_In in Hin.
    apply (Permutation_in _ (sort_descending_perm fst results)) in Hin.
    now apply scored_matches_In in Hin. }
  split.
  - intros city Hin. apply in_map_iff in Hin as (entry & <- & Hentry).
    destruct (Hkept entry Hentry) as [Hall Hscore].
    split; [exact Hall|]. split; [exact Hlong|].
    now apply match_score_contains in Hscore.
  - exists (map fst kept). split.
    + clear -Hkept. induction kept as [|entry rest IH]; cbn; constructor.
      * apply Hkept. now left.
      * apply IH. intros e He. apply Hkept. now right.
    + assert (Hsorted : StronglySorted (fun a b : Q * catalog_city => (fst b <= fst a)%Q) kept).
      { unfold kept. apply slice_to_sorted. apply sort_descending_sorted. }
      clear -Hsorted. induction Hsorted as [|entry rest Hrest IH Hentry]; cbn; constructor.
      * exact IH.
      * apply List.Forall_forall. intros s Hs. apply in_map_iff in Hs as (e & <- & He).
        rewrite List.Forall_forall in Hentry. now apply Hentry.
Qed.

(** X21.  For a query of at least two characters the search returns the
    best [limit] matches, or all of them when there are fewer; a negative
    limit [-n] drops the [n] worst matches instead, and a query of fewer
    than two characters returns nothing.  That the cities returned are the
    best ones is stated by the last part: the matches split into the ones
    returned and the ones dropped, and no match that is dropped scores
    higher than one that is returned. *)
Theorem search_cities_length (ratio : string -> string -> Q)
    (all_cities : list catalog_city) (query : string) (limit : Z) :
  let matches := List.length (scored_matches ratio (Py.lower query) all_cities) in
  ((String.length query < 2)%nat ->
   search_cities ratio all_cities query limit = [])
  /\ ((2 <= String.length query)%nat -> 0 <= limit ->
      List.length (search_cities ratio all_cities query limit)
      = Nat.min (Z.to_nat limit) matches)
  /\ ((2 <= String.length query)%nat -> limit < 0 ->
      List.length (search_cities ratio all_cities query limit)
      = Z.to_nat (Z.of_nat matches + limit))
  /\ ((2 <= String.length query)%nat ->
      exists kept dropped : list (Q * catalog_city),
        search_cities ratio all_cities query limit = map snd kept
        /\ Permutation (kept ++ dropped)
                       (scored_matches ratio (Py.lower query) all_cities)
        /\ forall a b, In a kept -> In b dropped -> (fst b <= fst a)%Q).
Proof.
  intros matches. unfold search_cities.
  assert (Hsorted : List.length (sort_descending fst
                                   (scored_matches ratio (Py.lower query) all_cities))
                    = matches).
  { apply Permutation_length, sort_descending_perm. }
  destruct (Nat.ltb_spec (String.length query) 2) as [Hshort|Hlong].
  - split; [reflexivity|]. repeat split; intros; lia.
  - split; [intros; lia|].
    destruct (slice_to_length limit
                (sort_descending fst (scored_matches ratio (Py.lower query) all_cities)))
      as [Hpos Hneg].
    rewrite Hsorted in Hpos, Hneg.
    split; [intros _ Hlimit; rewrite length_map; auto|].
    split; [intros _ Hlimit; rewrite length_map; auto|].
    intros _.
    destruct (slice_to_prefix limit
                (sort_descending fst (scored_matches ratio (Py.lower query) all_cities)))
      as [dropped Hsplit].
    exists (slice_to limit
              (sort_descending fst (scored_matches ratio (Py.lower query) all_cities))),
           dropped.
    split; [reflexivity|]. split.
    + rewrite <- Hsplit. apply sort_descending_perm.
    + apply (StronglySorted_app_inv (fun a b => (fst b <= fst a)%Q)).
      rewrite <- Hsplit. apply sort_descending_sorted.
Qed.

Lemma search_cities_length_witness :
  List.length (search_cities sample_ratio (ALL_CITIES sample_states) "ra" 1) = 1%nat
  /\ List.length (search_cities sample_ratio (ALL_CITIES sample_states) "ra" (-1)) = 1%nat
  /\ search_cities sample_ratio (ALL_CITIES sample_states) "r" 10 = []
  /\ exists kept dropped : list (Q * catalog_city),
       search_cities sample_ratio (ALL_CITIES sample_states) "delhi" 1 = map snd kept
       /\ Permutation (kept ++ dropped)
                      (scored_matches sample_ratio "delhi" (ALL_CITIES sample_states))
       /\ forall a b, In a kept -> In b dropped -> (fst b <= fst a)%Q.
Proof.
  destruct (search_cities_length sample_ratio (ALL_CITIES sample_states) "ra" 1)
    as (_ & Hpos & _).
  destruct (search_cities_length sample_ratio (ALL_CITIES sample_states) "ra" (-1))
    as (_ & _ & Hneg & _).
  destruct (search_cities_length sample_ratio (ALL_CITIES sample_states) "r" 10)
    as (Hshort & _).
  destruct (search_cities_length sample_ratio (ALL_CITIES sample_states) "delhi" 1)
    as (_ & _ & _ & Hbest).
  split; [|split; [|split]].
  - rewrite Hpos; [reflexivity | cbn; lia | lia].
  - rewrite Hneg; [reflexivity | cbn; lia | lia].
  - apply Hshort. cbn. lia.
  - apply Hbest. cbn. lia.
Defined.

(** ** Two endpoints *)

Section Endpoints.

Context `{Host} {G : Type} `{PyRandom G}.

Variable BREAKPOINTS : breakpoint_table.
Variable net : network.

(** A report carries the name and the state of the city it was asked for. *)
Lemma get_city_data_names (info : city_info) (w w' : world G) (report : city_report) :
  get_city_data BREAKPOINTS net info w = (Ok report, w') ->
  report_city report = match city_name info with Some n => n | None => "Unknown" end
  /\ report_state report = match city_state info with Some s => s | None => "" end.
Proof.
  unfold get_city_data.
  destruct (fetch_aqi_from_openaq net _ (city_lat info) (city_lng info) w)
    as [fetched w1].
  destruct (choose_pollutants fetched _ w1) as [[pollutants source] w2].
  destruct (calculate_aqi BREAKPOINTS pollutants) as [r|e]; [|discriminate].
  destruct (if truthy (city_lat info) && truthy (city_lng info)
            then fetch_weather net (number_or_zero (city_lat info))
                   (number_or_zero (city_lng info)) w2
            else (Ok (get_demo_weather (clock w2)), w2)) as [[weather|e] w3];
    [|discriminate].
  destruct (get_historical_data _ 24 (clock w3) (rng w3)) as [history g].
  intros [= <- _]. now split.
Qed.

Lemma collect_top_cities_inv (index : gmap string catalog_city) (slugs : list string) :
  forall (city_data : list top_city) (w w' : world G) (entries : list top_city),
    collect_top_cities index BREAKPOINTS net slugs city_data w = (Ok entries, w') ->
    exists added,
      entries = city_data ++ added
      /\ Forall2 (fun info entry =>
                    top_name entry = cc_name info /\ top_state entry = cc_state info)
                 (flat_map (fun slug => match find_city index slug with
                                        | Some info => [info]
                                        | None => []
                                        end) slugs)
                 added.
Proof.
  induction slugs as [|slug rest IH]; intros city_data w w' entries Hrun.
  - injection Hrun as <- _. exists []. split; [now rewrite app_nil_r | constructor].
  - cbn [collect_top_cities flat_map] in Hrun |- *.
    destruct (find_city index slug) as [info|]; [|exact (IH _ _ _ _ Hrun)].
    destruct (get_city_data BREAKPOINTS net (city_info_of info) w)
      as [[data|e] w1] eqn:Hdata; [|discriminate].
    apply get_city_data_names in Hdata as [Hname Hstate].
    apply IH in Hrun as (added & -> & Hadded).
    eexists. split; [now rewrite <- app_assoc|].
    cbn [app]. constructor; [|exact Hadded]. now split.
Qed.

Lemma collect_top_cities_returns (index : gmap string catalog_city)
    (slugs : list string) :
  well_formed_table BREAKPOINTS = true -> weather_listed net ->
  forall (city_data : list top_city) (w : world G),
    exists entries w',
      collect_top_cities index BREAKPOINTS net slugs city_data w = (Ok entries, w').
Proof.
  intros Htable Hlisted.
  induction slugs as [|slug rest IH]; intros city_data w; cbn [collect_top_cities].
  - eauto.
  - destruct (find_city index slug) as [info|]; [|apply IH].
    destruct (get_city_data_built BREAKPOINTS net (city_info_of info) w Htable Hlisted)
      as (report & w1 & -> & _).
    apply IH.
Qed.

End Endpoints.

(** X22.  [api_aqi] answers 404 exactly when [find_city] finds nothing,
    and then sends no request and leaves caches, clock and generator as
    they were; a report it returns carries the name and the state of the
    catalog city found. *)
Theorem api_aqi_answers `{Host} {G : Type} `{PyRandom G}
    (index : gmap string catalog_city) (BREAKPOINTS : breakpoint_table)
    (net : network) (city_slug : string) (w : world G) :
  (find_city index city_slug = None ->
   api_aqi index BREAKPOINTS net city_slug w = (Ok NotFound404, w))
  /\ (forall w', api_aqi index BREAKPOINTS net city_slug w = (Ok NotFound404, w') ->
        find_city index city_slug = None /\ w' = w)
  /\ (forall report w',
        api_aqi index BREAKPOINTS net city_slug w = (Ok (Json200 report), w') ->
        exists info,
          find_city index city_slug = Some info
          /\ report_city report = cc_name info
          /\ report_state report = cc_state info).
Proof.
  unfold api_aqi.
  destruct (find_city index city_slug) as [info|].
  - destruct (get_city_data BREAKPOINTS net (city_info_of info) w)
      as [[report|e] w1] eqn:Hdata.
    + split; [discriminate|]. split; [discriminate|].
      intros report' w' [= <- <-]. exists info. split; [reflexivity|].
      exact (get_city_data_names _ _ _ _ _ _ Hdata).
    + split; [discriminate|]. split; discriminate.
  - split; [reflexivity|]. split; [intros w' [= <-]; now split | discriminate].
Qed.

(** X23.  Over a well-formed table and a network without empty weather
    lists, [api_top_cities] returns one entry for each of the ten major
    slugs that the catalog resolves, carrying the name and state of that
    city, the highest index first. *)
Theorem api_top_cities_sorted `{Host} {G : Type} `{PyRandom G}
    (index : gmap string catalog_city) (BREAKPOINTS : breakpoint_table)
    (net : network) (w : world G) :
  well_formed_table BREAKPOINTS = true ->
  weather_listed net ->
  exists entries unsorted w',
    api_top_cities index BREAKPOINTS net w = (Ok entries, w')
    /\ StronglySorted (fun a b => top_aqi b <= top_aqi a) entries
    /\ Permutation entries unsorted
    /\ Forall2 (fun info entry =>
                  top_name entry = cc_name info /\ top_state entry = cc_state info)
               (flat_map (fun slug => match find_city index slug with
                                      | Some info => [info]
                                      | None => []
                                      end) major_cities)
               unsorted.
Proof.
  intros Htable Hlisted. unfold api_top_cities.
  destruct (collect_top_cities_returns BREAKPOINTS net index major_cities
              Htable Hlisted [] w) as (city_data & w' & Hrun).
  rewrite Hrun.
  destruct (collect_top_cities_inv BREAKPOINTS net index major_cities _ _ _ _ Hrun)
    as (added & -> & Hadded).
  cbn [app]. exists (sort_descending (fun c => inject_Z (top_aqi c)) added), added, w'.
  split; [reflexivity|]. split; [|split].
  - assert (Hsorted := sort_descending_sorted (fun c => inject_Z (top_aqi c)) added).
    induction Hsorted as [|entry rest Hrest IH Hentry]; constructor; [exact IH|].
    eapply Forall_impl; [exact Hentry|].
    intros e He. cbv beta in He. now rewrite Zle_Qle.
  - apply sort_descending_perm.
  - exact Hadded.
Qed.

Lemma api_top_cities_sorted_witness :
  exists entries unsorted w',
    api_top_cities (CITY_INDEX sample_states) sample_breakpoints dead_network empty_world
    = (Ok entries, w')
    /\ StronglySorted (fun a b => top_aqi b <= top_aqi a) entries
    /\ Permutation entries unsorted
    /\ Forall2 (fun info entry =>
                  top_name entry = cc_name info /\ top_state entry = cc_state info)
               (flat_map (fun slug => match find_city (CITY_INDEX sample_states) slug with
                                      | Some info => [info]
                                      | None => []
                                      end) major_cities)
               unsorted.
Proof.
  apply (api_top_cities_sorted (CITY_INDEX sample_states) sample_breakpoints
           dead_network empty_world eq_refl dead_network_weather_listed).
Defined.

(** ** The bulk fetch *)

Section BulkMerge.

(** A field after one more vector has been folded in. *)
Lemma merge_field_get (existing : dict (option Q)) (k key : string) (v : option Q) :
  PyDict.get (merge_field existing (k, v)) key
  = if String.eqb k key then
      match v with
      | None => PyDict.get existing key
      | Some val =>
          match PyDict.get existing key with
          | Some (Some current) =>
              if Py.Qlt_bool current val then Some (Some val) else Some (Some current)
          | _ => Some (Some val)
          end
      end
    else PyDict.get existing key.
Proof.
  unfold merge_field. cbn [fst snd].
  destruct (String.eqb_spec k key) as [->|Hne].
  - destruct v as [val|]; [|reflexivity].
    destruct (PyDict.get existing key) as [[current|]|] eqn:Hget;
      try (now rewrite get_set_same).
    destruct (Py.Qlt_bool current val); [now rewrite get_set_same | exact Hget].
  - destruct v as [val|]; [|reflexivity].
    destruct (PyDict.get existing k) as [[current|]|];
      try (now rewrite get_set_other).
    destruct (Py.Qlt_bool current val); [now rewrite get_set_other | reflexivity].
Qed.

Lemma merge_field_keys (existing : dict (option Q)) (k : string) (v : option Q) :
  In k (PyDict.keys existing) ->
  PyDict.keys (merge_field existing (k, v)) = PyDict.keys existing.
Proof.
  intros Hin. unfold merge_field. cbn [fst snd].
  assert (Hpresent : PyDict.get existing k <> None).
  { intros Hnone. now apply get_none_not_key in Hnone. }
  destruct v as [val|]; [|reflexivity].
  destruct (PyDict.get existing k) as [[current|]|] eqn:Hget; [| |contradiction].
  - destruct (Py.Qlt_bool current val); [|reflexivity].
    apply keys_set_present. rewrite Hget. discriminate.
  - apply keys_set_present. rewrite Hget. discriminate.
Qed.

Lemma merge_fields_keys (items : list (string * option Q)) (existing : dict (option Q)) :
  (forall k, In k (PyDict.keys items) -> In k (PyDict.keys existing)) ->
  PyDict.keys (fold_left merge_field items existing) = PyDict.keys existing.
Proof.
  revert existing. induction items as [|[k v] rest IH]; intros existing Hsub;
    [reflexivity|].
  cbn [fold_left]. rewrite IH.
  - apply merge_field_keys. apply Hsub. now left.
  - intros k' Hin. rewrite merge_field_keys by (apply Hsub; now left).
    apply Hsub. now right.
Qed.

Lemma merge_fields_get (items : list (string * option Q)) (existing : dict (option Q))
    (key : string) :
  List.NoDup (PyDict.keys items) ->
  PyDict.get (fold_left merge_field items existing) key
  = match PyDict.get items key with
    | Some (Some val) =>
        match PyDict.get existing key with
        | Some (Some current) =>
            if Py.Qlt_bool current val then Some (Some val) else Some (Some current)
        | _ => Some (Some val)
        end
    | _ => PyDict.get existing key
    end.
Proof.
  revert existing. induction items as [|[k v] rest IH]; intros existing Hnodup;
    [reflexivity|].
  apply List.NoDup_cons_iff in Hnodup as [Hfresh Hnodup].
  cbn [fold_left PyDict.get]. rewrite (IH _ Hnodup), merge_field_get.
  destruct (String.eqb_spec k key) as [->|Hne].
  - assert (Hnone : PyDict.get rest key = None) by now apply get_none_not_key.
    rewrite Hnone. destruct v as [val|]; reflexivity.
  - reflexivity.
Qed.

(** The worst of two lots of readings, from the worst of each. *)
Lemma worst_of_merged (a b : option (option Q)) (rs1 rs2 : list Q) :
  worst_of a rs1 -> worst_of b rs2 ->
  worst_of (match b with
            | Some (Some val) =>
                match a with
                | Some (Some current) =>
                    if Py.Qlt_bool current val then Some (Some val)
                    else Some (Some current)
                | _ => Some (Some val)
                end
            | _ => a
            end)
           (rs1 ++ rs2).
Proof.
  intros Ha Hb.
  destruct b as [[val|]|]; [| |contradiction]; cbn [worst_of] in Hb.
  - destruct Hb as [Hval Hbound].
    destruct a as [[current|]|]; [| |contradiction]; cbn [worst_of] in Ha.
    + destruct Ha as [Hcur Hbound'].
      destruct (Py.Qlt_bool current val) eqn:E; cbn [worst_of].
      * apply Qlt_bool_iff in E. split; [apply in_or_app; now right|].
        intros x Hx. apply in_app_or in Hx as [Hx|Hx]; [|now apply Hbound].
        specialize (Hbound' x Hx). lra.
      * apply Qlt_bool_false in E. split; [apply in_or_app; now left|].
        intros x Hx. apply in_app_or in Hx as [Hx|Hx]; [now apply Hbound'|].
        specialize (Hbound x Hx). lra.
    + subst rs1. cbn [app worst_of]. now split.
  - subst rs2. now rewrite app_nil_r.
Qed.

Lemma stations_of_app (k : string) (l1 l2 : list india_result) :
  stations_of k (l1 ++ l2) = stations_of k l1 ++ stations_of k l2.
Proof. unfold stations_of. apply flat_map_app. Qed.

Lemma stations_of_one (k : string) (result : india_result) :
  stations_of k [result]
  = match result_city result with
    | None => []
    | Some EmptyString => []
    | Some city =>
        if String.eqb (city_key_of city) k then [result_station result] else []
    end.
Proof. unfold stations_of. cbn [flat_map]. apply app_nil_r. Qed.

Lemma readings_app (key : string) (l1 l2 : list station_result) :
  readings key (l1 ++ l2) = readings key l1 ++ readings key l2.
Proof. unfold readings. apply flat_map_app. Qed.

Lemma aggregate_one_station (station : station_result) :
  PyDict.keys (aggregate_measurements [station]) = pollutant_keys
  /\ forall key, In key pollutant_keys ->
       worst_of (PyDict.get (aggregate_measurements [station]) key)
                (readings key [station]).
Proof.
  destruct (aggregate_measurements_merged [station]) as [Hkeys Hfields].
  split; [exact Hkeys|]. intros key Hin. rewrite readings_flat. now apply Hfields.
Qed.

Lemma pollutant_keys_nodup : List.NoDup pollutant_keys.
Proof. unfold pollutant_keys. repeat constructor; simpl; intuition discriminate. Qed.

Lemma merge_result_ok (seen : list india_result)
    (city_map : gmap string (dict (option Q))) (result : india_result) :
  city_map_ok seen city_map ->
  city_map_ok (seen ++ [result]) (merge_result city_map result).
Proof.
  intros Hok k. specialize (Hok k) as Hk.
  rewrite stations_of_app, stations_of_one. unfold merge_result.
  destruct (result_city result) as [[|a city]|].
  - rewrite app_nil_r. exact Hk.
  - set (name := String a city) in *.
    destruct (aggregate_one_station (result_station result)) as [Hkeys Hfields].
    destruct (String.eqb_spec (city_key_of name) k) as [->|Hne].
    + destruct (city_map !! k) as [existing|] eqn:Hexisting.
      * rewrite lookup_insert_eq. destruct Hk as (Hk1 & Hk2 & Hk3).
        split; [|split].
        -- rewrite merge_fields_keys; [exact Hk1|].
           intros k' Hin. unfold PyDict.items in Hin. now rewrite Hkeys, <- Hk1 in Hin.
        -- intros key Hin. rewrite readings_app.
           unfold PyDict.items. rewrite merge_fields_get
             by (rewrite Hkeys; apply pollutant_keys_nodup).
           apply worst_of_merged; [now apply Hk2 | now apply Hfields].
        -- intros Hnil. apply app_eq_nil in Hnil as [Hnil _]. contradiction.
      * rewrite lookup_insert_eq. rewrite Hk. cbn [app].
        split; [exact Hkeys|]. split; [exact Hfields | discriminate].
    + rewrite app_nil_r.
      destruct (city_map !! city_key_of name) as [existing|];
        rewrite lookup_insert_ne by exact Hne; exact Hk.
  - rewrite app_nil_r. exact Hk.
Qed.

Lemma merge_results_ok (results : list india_result) :
  city_map_ok results (merge_results results).
Proof.
  unfold merge_results.
  induction results as [|result rest IH] using rev_ind.
  - intros k. cbn. now rewrite lookup_empty.
  - rewrite fold_left_app. cbn [fold_left]. now apply merge_result_ok.
Qed.

(** The map built from a list of results holds, for every city key, the
    six fields with the worst reading of the city's stations. *)
Lemma merge_results_fields (results : list india_result) (k : string) :
  match merge_results results !! k with
  | Some p =>
      stations_of k results <> []
      /\ PyDict.keys p = pollutant_keys
      /\ forall key, In key pollutant_keys ->
           worst_of (PyDict.get p key) (readings key (stations_of k results))
           /\ exists x y,
                PyDict.get p key = Some x
                /\ PyDict.get (aggregate_measurements (stations_of k results)) key
                   = Some y
                /\ same_reading x y
  | None => stations_of k results = []
  end.
Proof.
  pose proof (merge_results_ok results k) as Hk.
  destruct (merge_results results !! k) as [p|]; [|exact Hk].
  destruct Hk as (Hkeys & Hfields & Hsome).
  split; [exact Hsome|]. split; [exact Hkeys|].
  intros key Hin. split; [now apply Hfields|].
  destruct (aggregate_measurements_merged (stations_of k results)) as [_ Hagg].
  specialize (Hagg key Hin). rewrite <- readings_flat in Hagg.
  apply (worst_of_permutation _ _ _ _ (Permutation_refl _) (Hfields key Hin) Hagg).
Qed.

End BulkMerge.

Section BulkFetch.

Context {G : Type}.

Lemma fetch_all_india_aqi_miss (net : bulk_network) (w : bulk_world G) :
  cached_india w = None ->
  fetch_all_india_aqi net w
  = let '(outcome, elapsed) := net (bulk_sent w) in
    let clock' := (bulk_clock w + elapsed)%Q in
    let sent' := S (bulk_sent w) in
    match outcome with
    | BulkResponse status_code results =>
        if status_code =? 200 then
          let city_map :=
            match results with
            | Some ((_ :: _) as rs) => merge_results rs
            | _ => ∅
            end in
          (city_map, mkBulkWorld (Some (city_map, clock')) clock' (bulk_rng w) sent')
        else (∅, mkBulkWorld (india_entry w) clock' (bulk_rng w) sent')
    | BulkRequestException =>
        (∅, mkBulkWorld (india_entry w) clock' (bulk_rng w) sent')
    end.
Proof. intros Hmiss. unfold fetch_all_india_aqi. now rewrite Hmiss. Qed.

Lemma cached_india_not_empty (w : bulk_world G) (m : gmap string (dict (option Q))) :
  cached_india w = Some m -> m <> ∅.
Proof.
  unfold cached_india. destruct (india_entry w) as [[data timestamp]|]; [|discriminate].
  destruct (Py.Qlt_bool _ _); [|discriminate].
  destruct (bool_decide (data = ∅)) eqn:E; [discriminate|].
  intros [= <-]. now apply bool_decide_eq_false in E.
Qed.

Lemma cached_india_later (w : bulk_world G) (d : Q) :
  (0 <= d)%Q -> cached_india w = None -> cached_india (bulk_later d w) = None.
Proof.
  intros Hd. unfold cached_india, bulk_later. cbn [india_entry bulk_clock].
  destruct (india_entry w) as [[data timestamp]|]; [|reflexivity].
  destruct (Py.Qlt_bool (bulk_clock w - timestamp) CACHE_DURATION) eqn:E.
  - destruct (bool_decide (data = ∅)); [|discriminate].
    intros _. now destruct (Py.Qlt_bool (_ + d - _) _).
  - intros _. apply Qlt_bool_false in E.
    assert (E' : Py.Qlt_bool (bulk_clock w + d - timestamp) CACHE_DURATION = false).
    { apply Qlt_bool_false. lra. }
    now rewrite E'.
Qed.

End BulkFetch.


(** X24.  On a cache miss answered with status 200 and a results list, the
    map that [fetch_all_india_aqi] returns has an entry for exactly the
    city keys (names lowercased and stripped) that some result carries;
    the entry has the six pollutant fields, each the worst reading of the
    city's stations and equal, as a number, to the field that
    [aggregate_measurements] gives for those stations together. *)
Theorem fetch_all_india_aqi_worst_case {G : Type} (net : bulk_network)
    (w : bulk_world G) (results : list india_result) (elapsed : Q) (k : string) :
  cached_india w = None ->
  net (bulk_sent w) = (BulkResponse 200 (Some results), elapsed) ->
  match fst (fetch_all_india_aqi net w) !! k with
  | Some p =>
      stations_of k results <> []
      /\ PyDict.keys p = pollutant_keys
      /\ forall key, In key pollutant_keys ->
           worst_of (PyDict.get p key) (readings key (stations_of k results))
           /\ exists x y,
                PyDict.get p key = Some x
                /\ PyDict.get (aggregate_measurements (stations_of k results)) key
                   = Some y
                /\ same_reading x y
  | None => stations_of k results = []
  end.
Proof.
  intros Hmiss Hnet. rewrite (fetch_all_india_aqi_miss net w Hmiss), Hnet.
  cbn [Z.eqb Pos.eqb fst].
  destruct results as [|result rest].
  - cbn [fst]. now rewrite lookup_empty.
  - cbn [fst]. apply merge_results_fields.
Qed.

Lemma fetch_all_india_aqi_worst_case_witness :
  exists p,
    fst (fetch_all_india_aqi bulk_live_network empty_bulk_world) !! "delhi" = Some p
    /\ PyDict.get p "pm25" = Some (Some 120%Q)
    /\ PyDict.get p "no2" = Some (Some 30%Q)
    /\ PyDict.get p "o3" = Some None.
Proof.
  pose proof (fetch_all_india_aqi_worst_case bulk_live_network empty_bulk_world
                sample_bulk_results 2%Q "delhi" eq_refl eq_refl) as H.
  destruct (fst (fetch_all_india_aqi bulk_live_network empty_bulk_world) !! "delhi")
    as [p|] eqn:E; [|discriminate H].
  exists p. split; [reflexivity|].
  vm_compute in E. injection E as <-. repeat split.
Defined.

(** X25.  An empty map is never served from the cache: when
    [fetch_all_india_aqi] returns the empty map, because the request
    failed or because the answer held no result with a city, the next
    call, however soon, sends a request again. *)
Theorem fetch_all_india_aqi_empty_not_served {G : Type} (net : bulk_network)
    (w : bulk_world G) (d : Q) :
  (0 <= snd (net (bulk_sent w)))%Q -> (0 <= d)%Q ->
  fst (fetch_all_india_aqi net w) = ∅ ->
  let w1 := snd (fetch_all_india_aqi net w) in
  bulk_sent w1 = S (bulk_sent w)
  /\ bulk_sent (snd (fetch_all_india_aqi net (bulk_later d w1))) = S (S (bulk_sent w)).
Proof.
  intros Helapsed Hd Hempty.
  destruct (cached_india w) as [m|] eqn:Hcached.
  { exfalso. apply (cached_india_not_empty w m Hcached).
    unfold fetch_all_india_aqi in Hempty. now rewrite Hcached in Hempty. }
  assert (Hmiss1 : cached_india (snd (fetch_all_india_aqi net w)) = None
                   /\ bulk_sent (snd (fetch_all_india_aqi net w)) = S (bulk_sent w)).
  { rewrite (fetch_all_india_aqi_miss net w Hcached) in Hempty |- *.
    destruct (net (bulk_sent w)) as [outcome elapsed]. cbn [snd] in Helapsed.
    destruct outcome as [|status_code results].
    - split; [|reflexivity].
      apply (cached_india_later w elapsed Helapsed Hcached).
    - cbv zeta in Hempty |- *. destruct (status_code =? 200).
      + cbn [fst snd] in Hempty |- *. split; [|reflexivity].
        unfold cached_india. cbn [india_entry bulk_clock].
        rewrite Hempty. rewrite bool_decide_eq_true_2 by reflexivity.
        now destruct (Py.Qlt_bool _ _).
      + split; [|reflexivity].
        apply (cached_india_later w elapsed Helapsed Hcached). }
  destruct Hmiss1 as [Hmiss1 Hsent1]. cbv zeta. split; [exact Hsent1|].
  rewrite fetch_all_india_aqi_miss by now apply cached_india_later.
  cbn [bulk_later bulk_sent]. rewrite Hsent1.
  destruct (net (S (bulk_sent w))) as [outcome elapsed].
  destruct outcome as [|status_code results]; [reflexivity|].
  cbv zeta. now destruct (status_code =? 200).
Qed.

Lemma fetch_all_india_aqi_empty_not_served_witness :
  bulk_sent (snd (fetch_all_india_aqi bulk_dead_network
                    (bulk_later 1 (snd (fetch_all_india_aqi bulk_dead_network
                                          empty_bulk_world)))))
  = 2%nat.
Proof.
  apply (fetch_all_india_aqi_empty_not_served bulk_dead_network empty_bulk_world 1).
  - cbn. lra.
  - lra.
  - reflexivity.
Defined.

(** X26.  A map with at least one city that a request has brought is
    served again, without a request, for [CACHE_DURATION] seconds; from
    then on the next call sends a request. *)
Theorem fetch_all_india_aqi_served_from_cache {G : Type} (net net' : bulk_network)
    (w : bulk_world G) (d : Q) :
  cached_india w = None ->
  fst (fetch_all_india_aqi net w) <> ∅ ->
  (0 <= d)%Q ->
  let '(city_map, w1) := fetch_all_india_aqi net w in
  if Py.Qlt_bool d CACHE_DURATION
  then fetch_all_india_aqi net' (bulk_later d w1) = (city_map, bulk_later d w1)
  else bulk_sent (snd (fetch_all_india_aqi net' (bulk_later d w1)))
       = S (bulk_sent w1).
Proof.
  intros Hmiss Hsome Hd.
  rewrite (fetch_all_india_aqi_miss net w Hmiss) in Hsome |- *.
  destruct (net (bulk_sent w)) as [outcome elapsed].
  destruct outcome as [|status_code results]; [now cbn in Hsome|].
  cbv zeta in Hsome |- *.
  destruct (status_code =? 200); [|now cbn in Hsome].
  cbn [fst] in Hsome.
  set (city_map := match results with
                   | Some ((_ :: _) as rs) => merge_results rs
                   | _ => ∅
                   end) in *.
  set (w1 := mkBulkWorld (Some (city_map, (bulk_clock w + elapsed)%Q))
                         (bulk_clock w + elapsed)%Q (bulk_rng w) (S (bulk_sent w))).
  assert (Hage : (bulk_clock (bulk_later d w1) - (bulk_clock w + elapsed) == d)%Q).
  { cbn [bulk_later bulk_clock w1]. ring. }
  destruct (Py.Qlt_bool d CACHE_DURATION) eqn:E.
  - assert (Hfresh : Py.Qlt_bool (bulk_clock (bulk_later d w1) - (bulk_clock w + elapsed))
                                 CACHE_DURATION = true).
    { apply Qlt_bool_iff in E. apply Qlt_bool_iff. now rewrite Hage. }
    unfold fetch_all_india_aqi, cached_india.
    cbn [india_entry bulk_later w1] in Hfresh |- *. cbn [bulk_clock] in Hfresh |- *.
    rewrite Hfresh. now rewrite bool_decide_eq_false_2.
  - assert (Hstale : Py.Qlt_bool (bulk_clock (bulk_later d w1) - (bulk_clock w + elapsed))
                                 CACHE_DURATION = false).
    { apply Qlt_bool_false in E. apply Qlt_bool_false. now rewrite Hage. }
    rewrite fetch_all_india_aqi_miss.
    + cbn [bulk_later bulk_sent w1].
      destruct (net' (S (bulk_sent w))) as [outcome' elapsed'].
      destruct outcome' as [|status_code' results']; [reflexivity|].
      cbv zeta. now destruct (status_code' =? 200).
    + unfold cached_india.
      cbn [india_entry bulk_later w1] in Hstale |- *. cbn [bulk_clock] in Hstale |- *.
      now rewrite Hstale.
Qed.

Lemma fetch_all_india_aqi_served_from_cache_witness :
  let w1 := snd (fetch_all_india_aqi bulk_live_network empty_bulk_world) in
  fetch_all_india_aqi bulk_dead_network (bulk_later 1799 w1)
  = (fst (fetch_all_india_aqi bulk_live_network empty_bulk_world), bulk_later 1799 w1).
Proof.
  assert (Hsome : fst (fetch_all_india_aqi bulk_live_network empty_bulk_world) <> ∅).
  { intros Hempty.
    apply (f_equal (fun m : gmap string (dict (option Q)) => m !! "delhi")) in Hempty.
    vm_compute in Hempty. discriminate Hempty. }
  assert (Hd : (0 <= 1799)%Q) by lra.
  pose proof (fetch_all_india_aqi_served_from_cache bulk_live_network bulk_dead_network
                empty_bulk_world 1799 eq_refl Hsome Hd) as H.
  destruct (fetch_all_india_aqi bulk_live_network empty_bulk_world) as [city_map w1].
  exact H.
Defined.

Section MapData.

Context {G : Type} `{PyRandom G}.
Variable BREAKPOINTS : breakpoint_table.
Hypothesis BREAKPOINTS_wf : well_formed_table BREAKPOINTS = true.

Lemma map_cities_entries (live_data_map : gmap string (dict (option Q)))
    (all_cities_list : list catalog_city) (g : G) :
  exists entries g',
    map_cities BREAKPOINTS live_data_map all_cities_list g = (Ok entries, g')
    /\ Forall2 (map_entry_of BREAKPOINTS live_data_map) all_cities_list entries.
Proof.
  revert g. induction all_cities_list as [|city rest IH]; intros g.
  - exists [], g. split; [reflexivity | constructor].
  - cbn [map_cities].
    destruct (map_pollutants live_data_map city g) as [[pollutants demo] g1] eqn:Hmap.
    destruct (calculate_aqi_total BREAKPOINTS pollutants BREAKPOINTS_wf) as [r Hr].
    rewrite Hr. destruct (IH g1) as (entries & g2 & -> & Hentries).
    eexists _, g2. split; [reflexivity|]. constructor; [|exact Hentries].
    unfold map_entry_of. cbn [map_name map_slug map_state map_lat map_lng
                               is_demo map_aqi map_category map_color].
    do 5 (split; [reflexivity|]).
    unfold map_pollutants in Hmap.
    destruct (live_data_map !! city_key_of (cc_name city)) as [live|].
    + destruct (all_none live) eqn:Hall.
      * destruct (get_demo_aqi_data (cc_name city) g) as [demo_vector g'].
        injection Hmap as <- <- <-. split; [reflexivity | discriminate].
      * injection Hmap as <- <- <-. split; [reflexivity|]. intros _.
        exists r. now repeat split.
    + destruct (get_demo_aqi_data (cc_name city) g) as [demo_vector g'].
      now injection Hmap as <- <- <-.
Qed.

End MapData.

(** X27.  Over a well-formed table [get_all_cities_aqi] returns one entry
    for each city of the list it is given, in the order of the list, with
    the city's name, slug, state and coordinates.  The entry is marked as
    demo data exactly when the bulk map has nothing under the city's key
    (its name lowercased and stripped) or only null fields there;
    otherwise its index, category and colour are those that
    [calculate_aqi] gives for the vector of the bulk map. *)
Theorem get_all_cities_aqi_entries {G : Type} `{PyRandom G}
    (BREAKPOINTS : breakpoint_table) (net : bulk_network)
    (all_cities_list : list catalog_city) (w : bulk_world G) :
  well_formed_table BREAKPOINTS = true ->
  exists entries,
    fst (get_all_cities_aqi BREAKPOINTS net all_cities_list w) = Ok entries
    /\ Forall2 (map_entry_of BREAKPOINTS (fst (fetch_all_india_aqi net w)))
               all_cities_list entries.
Proof.
  intros Hwf. unfold get_all_cities_aqi.
  destruct (fetch_all_india_aqi net w) as [live_data_map w1]. cbn [fst].
  destruct (map_cities_entries BREAKPOINTS Hwf live_data_map all_cities_list
              (bulk_rng w1)) as (entries & g' & -> & Hentries).
  now exists entries.
Qed.

Lemma get_all_cities_aqi_entries_witness :
  exists entries,
    fst (get_all_cities_aqi sample_breakpoints bulk_live_network
           (ALL_CITIES sample_states) empty_bulk_world) = Ok entries
    /\ map is_demo entries = [false; true; true; true]
    /\ map map_aqi entries = [300; 92; 156; 58].
Proof.
  destruct (get_all_cities_aqi_entries sample_breakpoints bulk_live_network
              (ALL_CITIES sample_states) empty_bulk_world eq_refl)
    as (entries & Hentries & _).
  exists entries. split; [exact Hentries|].
  vm_compute in Hentries. injection Hentries as <-. split; reflexivity.
Defined.

(** ** The solutions of a report *)

(** X28.  The four solutions of a report escalate with the index: they
    are always listed in the same order, the ones marked "must" come
    before the ones marked "optional", and a solution that is a must at
    one index is a must at every higher index. *)
Theorem solutions_escalate (v v' : Z) :
  v <= v' ->
  map solution_name (solutions_for v)
  = ["Air Purifier"; "Car Filter"; "N95 Mask"; "Stay Indoor"]
  /\ (exists n, (n <= 4)%nat
                /\ map status (solutions_for v)
                   = repeat "must" n ++ repeat "optional" (4 - n))
  /\ Forall2 (fun s s' => status s = "must" -> status s' = "must")
             (solutions_for v) (solutions_for v').
Proof.
  intros Hle. unfold solutions_for.
  destruct (Z.ltb_spec 100 v), (Z.ltb_spec 150 v), (Z.ltb_spec 200 v),
    (Z.ltb_spec 250 v); try lia;
    (split; [reflexivity|]); (split;
      [first [ now exists 0%nat; split; [lia|] | now exists 1%nat; split; [lia|]
             | now exists 2%nat; split; [lia|] | now exists 3%nat; split; [lia|]
             | now exists 4%nat; split; [lia|] ]|]);
    destruct (Z.ltb_spec 100 v'), (Z.ltb_spec 150 v'), (Z.ltb_spec 200 v'),
      (Z.ltb_spec 250 v'); try lia;
    repeat constructor; cbn [status]; try reflexivity; discriminate.
Qed.

Lemma solutions_escalate_witness :
  map status (solutions_for 120) = ["must"; "optional"; "optional"; "optional"]
  /\ Forall2 (fun s s' => status s = "must" -> status s' = "must")
             (solutions_for 120) (solutions_for 260).
Proof.
  assert (Hle : 120 <= 260) by lia.
  destruct (solutions_escalate 120 260 Hle) as (_ & _ & Hmust).
  split; [reflexivity | exact Hmust].
Defined.
